(** * SwiftTrackService (src/services/api.ts): the order service and its mock responder

    A shallow embedding of [src/services/api.ts].  The service class is a thin
    wrapper over [fetch] with a mock responder that filters and pages a list
    of generated orders.

    Conventions of the embedding.
    - A JS string is a Rocq [string]: the text in its UTF-8 encoding.
      [toLowerCase] is modelled on the ASCII letters; every text of the mock
      data is ASCII.
    - A JS number that the code uses as an integer (a page number, an index,
      a count, a status code) is a [Z]; [NaN], which [parseInt] may produce,
      is a separate constructor of [number].  Numbers with a fraction are not
      modelled.  The text of a page number is in exponent form from 10^21 on,
      as JS prints it; arithmetic on integers is exact.
    - A JS array is a list of fewer than 2^32 elements.
    - [Math.random()] reads a tape of samples of the interval [0,1); a
      sample has 53 significant bits, and its product with a whole number is
      rounded to 53 bits as JS rounds it.
    - The service runs in a world that holds the mock order list, the cursor
      on the random tape, the timers that were awaited and the log of the
      [fetch] calls that were issued.  A method is a function from the world
      before the call to its outcome and the world after it. *)

From Stdlib Require Import ZArith List Sorted Ascii String Decimal DecimalString DecimalPos Lia.
From stdpp Require Import base gmap strings.

Import ListNotations.

(* String concatenation computes under [simpl] in this file. *)
#[local] Arguments String.append !_ _ /.

(** ** The JS primitives the service uses *)

Module JS.

(** A thrown value: the code reads [error.name] and [error.message] only. *)
Record exn := Exn { name : string; message : string }.

(** [new Error(msg)] *)
Definition Error (msg : string) : exn := Exn "Error" msg.

(** The outcome of an expression that may throw (or of a promise that may
    reject). *)
Inductive result (A : Type) :=
| Ok (a : A)
| Throw (e : exn).
Arguments Ok {A} a.
Arguments Throw {A} e.

(** A number: an integer, or NaN. *)
Inductive number :=
| Num (z : Z)
| NaN.

(** *** Strings *)

(** Truthiness of a string: the empty string is falsy. *)
Definition truthy (s : string) : bool :=
  match s with EmptyString => false | String _ _ => true end.

(** [a || b] on an optional string [a] and a string [b]. *)
Definition or_else (a : option string) (b : string) : string :=
  match a with
  | Some s => if truthy s then s else b
  | None => b
  end.

(** [s.startsWith(t)] *)
Fixpoint startsWith (s t : string) {struct t} : bool :=
  match t, s with
  | EmptyString, _ => true
  | String b t', String a s' => Ascii.eqb a b && startsWith s' t'
  | String _ _, EmptyString => false
  end.

(** [s.includes(t)] *)
Fixpoint includes (s t : string) : bool :=
  startsWith s t ||
  match s with
  | EmptyString => false
  | String _ s' => includes s' t
  end.

(** One character of [toLowerCase]: the letters A..Z go to a..z; any other
    byte, also of a character outside ASCII, stays. *)
Definition lower_char (c : ascii) : ascii :=
  let n := N_of_ascii c in
  if ((65 <=? n) && (n <=? 90))%N then ascii_of_N (n + 32) else c.

(** [s.toLowerCase()] *)
Fixpoint toLowerCase (s : string) : string :=
  match s with
  | EmptyString => EmptyString
  | String c s' => String (lower_char c) (toLowerCase s')
  end.

(** [s.replace(/\/$/, '')]: one slash at the very end is removed. *)
Fixpoint strip_trailing_slash (s : string) : string :=
  match s with
  | EmptyString => EmptyString
  | String c EmptyString => if Ascii.eqb c "/" then EmptyString else s
  | String c s' => String c (strip_trailing_slash s')
  end.

(** [n] copies of [c]. *)
Fixpoint repeat_char (c : ascii) (n : nat) : string :=
  match n with
  | O => EmptyString
  | S n' => String c (repeat_char c n')
  end.

(** [s.padStart(n, '0')] *)
Definition padStart0 (s : string) (n : nat) : string :=
  repeat_char "0" (n - String.length s) +:+ s.

(** *** Numbers and their decimal text *)

(** The decimal text of a small integer, as [String(i)] and a template
    literal print an array index, a count or a status code: plain decimal
    digits, with a minus sign below zero.  JS prints so the integers below
    10^21 in absolute value. *)
Definition toString (z : Z) : string :=
  NilZero.string_of_int (Z.to_int z).

(** Below this bound a number is printed in plain decimal digits, from it on
    with an exponent. *)
Definition exponent_bound : Z := 1000000000000000000000%Z.

(** The digits after the decimal point of the exponent form: the trailing
    zeros are dropped. *)
Fixpoint drop_trailing_zeros (s : string) : string :=
  match s with
  | EmptyString => EmptyString
  | String c s' =>
      match drop_trailing_zeros s' with
      | EmptyString => if Ascii.eqb c "0" then EmptyString else String c EmptyString
      | r => String c r
      end
  end.

(** The exponent form of a number from its decimal digits: the first digit,
    the others after a point when one of them is not 0, then [e+] and the
    exponent.  [1000000000000000000000] gives [1e+21]. *)
Definition exponential (digits : string) : string :=
  match digits with
  | EmptyString => EmptyString
  | String d rest =>
      String d (match drop_trailing_zeros rest with
                | EmptyString => EmptyString
                | r => String "." r
                end)
      +:+ "e+" +:+ toString (Z.of_nat (String.length rest))
  end.

(** [x.toString()] for a number [x] of any size that holds an integer: the
    decimal digits below 10^21, the exponent form from there on.  The digits
    are those of the integer itself: they are the ones JS prints for a safe
    integer (at most 2^53 - 1 in absolute value) and, in the exponent form,
    for an integer of at most 15 significant digits; for another number JS
    prints the shortest digits that read back as the same number. *)
Definition Number_toString (z : Z) : string :=
  if (Z.abs z <? exponent_bound)%Z then toString z
  else if (z <? 0)%Z then String "-" (exponential (toString (- z)))
  else exponential (toString z).

Definition is_digit (c : ascii) : bool :=
  let n := N_of_ascii c in ((48 <=? n) && (n <=? 57))%N.

Definition digit_value (c : ascii) : Z := (Z.of_N (N_of_ascii c) - 48)%Z.

(** StrWhiteSpaceChar, on the ASCII range: tab, LF, VT, FF, CR and space. *)
Definition is_space (c : ascii) : bool :=
  let n := N_of_ascii c in (((9 <=? n) && (n <=? 13)) || (n =? 32))%N.

(** StrWhiteSpaceChar outside ASCII, by the bytes of its UTF-8 encoding:
    U+00A0 is C2 A0; U+1680 is E1 9A 80; U+2000 to U+200A, U+2028, U+2029 and
    U+202F are E2 80 followed by 80 to 8A, A8, A9 or AF; U+205F is E2 81 9F;
    U+3000 is E3 80 80; U+FEFF is EF BB BF. *)
Definition is_space2 (a b : ascii) : bool :=
  ((N_of_ascii a =? 194) && (N_of_ascii b =? 160))%N.

Definition is_space3 (a b c : ascii) : bool :=
  let x := N_of_ascii a in
  let y := N_of_ascii b in
  let z := N_of_ascii c in
  (((x =? 225) && (y =? 154) && (z =? 128)) ||
   ((x =? 226) && (y =? 128) &&
    (((128 <=? z) && (z <=? 138)) || (z =? 168) || (z =? 169) || (z =? 175))) ||
   ((x =? 226) && (y =? 129) && (z =? 159)) ||
   ((x =? 227) && (y =? 128) && (z =? 128)) ||
   ((x =? 239) && (y =? 187) && (z =? 191)))%N.

Fixpoint skip_spaces (s : string) : string :=
  match s with
  | EmptyString => s
  | String a s1 =>
      if is_space a then skip_spaces s1
      else if (N_of_ascii a <? 128)%N then s
      else
        match s1 with
        | EmptyString => s
        | String b s2 =>
            if is_space2 a b then skip_spaces s2
            else
              match s2 with
              | EmptyString => s
              | String c s3 => if is_space3 a b c then skip_spaces s3 else s
              end
        end
  end.

(** The value of the longest prefix of decimal digits of [s], read after the
    digits of [acc]; [seen] tells whether a digit was read at all. *)
Fixpoint read_digits (s : string) (seen : bool) (acc : Z) : option Z :=
  match s with
  | String c s' =>
      if is_digit c then read_digits s' true (10 * acc + digit_value c)%Z
      else if seen then Some acc else None
  | EmptyString => if seen then Some acc else None
  end.

Definition hex_value (c : ascii) : option Z :=
  let n := N_of_ascii c in
  if ((48 <=? n) && (n <=? 57))%N then Some (Z.of_N n - 48)%Z
  else if ((65 <=? n) && (n <=? 70))%N then Some (Z.of_N n - 55)%Z
  else if ((97 <=? n) && (n <=? 102))%N then Some (Z.of_N n - 87)%Z
  else None.

Fixpoint read_hex_digits (s : string) (seen : bool) (acc : Z) : option Z :=
  match s with
  | String c s' =>
      match hex_value c with
      | Some d => read_hex_digits s' true (16 * acc + d)%Z
      | None => if seen then Some acc else None
      end
  | EmptyString => if seen then Some acc else None
  end.

(** The digits of [parseInt], after the sign: a [0x] or [0X] prefix selects
    radix 16, otherwise the radix is 10. *)
Definition read_magnitude (s : string) : option Z :=
  match s with
  | String "0" (String "x" s') | String "0" (String "X" s') => read_hex_digits s' false 0%Z
  | _ => read_digits s false 0%Z
  end.

(** [parseInt(s)]: leading white space, an optional sign, then the longest
    prefix of digits; NaN when there is no digit.  The result is the integer
    that the digits denote: it is the number that JS returns when that
    integer is a number, as every integer up to 2^53 in absolute value is;
    for other digits JS returns the nearest number. *)
Definition parseInt (s : string) : number :=
  match skip_spaces s with
  | String "-" s' =>
      match read_magnitude s' with Some z => Num (- z)%Z | None => NaN end
  | String "+" s' =>
      match read_magnitude s' with Some z => Num z | None => NaN end
  | s' =>
      match read_magnitude s' with Some z => Num z | None => NaN end
  end.

(** *** Arrays *)

(** ToIntegerOrInfinity of a slice bound: NaN counts as 0. *)
Definition to_integer (n : number) : Z :=
  match n with Num z => z | NaN => 0%Z end.

(** A relative index, as [slice] clamps it into [0, len]. *)
Definition clamp_index (len k : Z) : Z :=
  if (k <? 0)%Z then Z.max (len + k) 0 else Z.min k len.

(** [l.slice(start, end)] *)
Definition slice {A} (l : list A) (start end_ : number) : list A :=
  let len := Z.of_nat (length l) in
  let k := clamp_index len (to_integer start) in
  let final := clamp_index len (to_integer end_) in
  firstn (Z.to_nat (final - k)) (skipn (Z.to_nat k) l).

(** [l[i]] on an array of strings; out of range it is [undefined], which no
    caller here reaches. *)
Definition at_index (l : list string) (i : N) : string := nth (N.to_nat i) l "".

(** *** Arithmetic on numbers *)

Definition num_sub (a : number) (b : Z) : number :=
  match a with Num z => Num (z - b)%Z | NaN => NaN end.

Definition num_mul (a : number) (b : Z) : number :=
  match a with Num z => Num (z * b)%Z | NaN => NaN end.

Definition num_add (a : number) (b : Z) : number :=
  match a with Num z => Num (z + b)%Z | NaN => NaN end.

(** [Math.ceil(a / b)] for integers [a] and [b > 0]. *)
Definition ceil_div (a b : Z) : Z := (- ((- a) / b))%Z.

(** [n || d] on an integer: 0 is falsy. *)
Definition nonzero_or (n d : Z) : Z := if (n =? 0)%Z then d else n.

End JS.

Import JS.

(** ** Query strings: [URLSearchParams] and the query of a [URL] *)

Module URLSearchParams.

(** The list of name-value pairs of a [URLSearchParams] object. *)
Definition t := list (string * string).

(** [new URLSearchParams()] *)
Definition empty : t := [].

(** [params.append(name, value)] *)
Definition append (params : t) (name value : string) : t :=
  params ++ [(name, value)].

(** [params.get(name)]: the value of the first pair with that name, [null]
    when there is none. *)
Fixpoint get (params : t) (name : string) : option string :=
  match params with
  | [] => None
  | (n, v) :: rest => if String.eqb n name then Some v else get rest name
  end.

(** The bytes that the application/x-www-form-urlencoded serializer leaves as
    they are: the ASCII letters and digits and [*], [-], [.], [_]. *)
Definition unreserved (c : ascii) : bool :=
  let n := N_of_ascii c in
  (((48 <=? n) && (n <=? 57)) || ((65 <=? n) && (n <=? 90)) ||
   ((97 <=? n) && (n <=? 122)) ||
   (n =? 42) || (n =? 45) || (n =? 46) || (n =? 95))%N.

(** One uppercase hexadecimal digit. *)
Definition hex_digit (n : N) : ascii :=
  ascii_of_N (if (n <? 10)%N then 48 + n else 55 + n).

(** The serialization of one byte: a space becomes [+], an unreserved byte
    stays, any other byte is percent-encoded. *)
Definition serialize_byte (c : ascii) : string :=
  let n := N_of_ascii c in
  if (n =? 32)%N then "+"
  else if unreserved c then String c ""
  else String "%" (String (hex_digit (n / 16)) (String (hex_digit (n mod 16)) "")).

Fixpoint serialize_bytes (s : string) : string :=
  match s with
  | EmptyString => EmptyString
  | String c s' => serialize_byte c +:+ serialize_bytes s'
  end.

Definition serialize_pair (p : string * string) : string :=
  serialize_bytes (fst p) +:+ "=" +:+ serialize_bytes (snd p).

(** [params.toString()]: the pairs as [name=value], joined by [&]. *)
Fixpoint toString (params : t) : string :=
  match params with
  | [] => ""
  | [p] => serialize_pair p
  | p :: rest => serialize_pair p +:+ "&" +:+ toString rest
  end.

(** Every [+] becomes a space. *)
Fixpoint plus_to_space (s : string) : string :=
  match s with
  | EmptyString => EmptyString
  | String c s' => String (if Ascii.eqb c "+" then " "%char else c) (plus_to_space s')
  end.

(** Percent-decoding: [%] followed by two hexadecimal digits is one byte; a
    [%] that is not is left as it is. *)
Fixpoint percent_decode (s : string) : string :=
  match s with
  | EmptyString => EmptyString
  | String c s' =>
      match s' with
      | String a (String b r) =>
          match Ascii.eqb c "%", hex_value a, hex_value b with
          | true, Some x, Some y =>
              String (ascii_of_N (Z.to_N (16 * x + y))) (percent_decode r)
          | _, _, _ => String c (percent_decode s')
          end
      | _ => String c (percent_decode s')
      end
  end.

(** The pieces of [s] between the occurrences of [sep]. *)
Fixpoint split_on (sep : ascii) (s : string) : list string :=
  match s with
  | EmptyString => [EmptyString]
  | String c s' =>
      if Ascii.eqb c sep then EmptyString :: split_on sep s'
      else match split_on sep s' with
           | h :: rest => String c h :: rest
           | [] => [String c EmptyString]
           end
  end.

(** The text before the first [sep] (all of [s] when there is none). *)
Fixpoint before_first (sep : ascii) (s : string) : string :=
  match s with
  | EmptyString => EmptyString
  | String c s' => if Ascii.eqb c sep then EmptyString else String c (before_first sep s')
  end.

(** The text after the first [sep] (empty when there is none). *)
Fixpoint after_first (sep : ascii) (s : string) : string :=
  match s with
  | EmptyString => EmptyString
  | String c s' => if Ascii.eqb c sep then s' else after_first sep s'
  end.

Definition decode_field (s : string) : string := percent_decode (plus_to_space s).

(** The application/x-www-form-urlencoded parser: the input is cut at every
    [&], empty pieces are skipped, each piece is cut at its first [=], and
    name and value are decoded. *)
Definition parse (s : string) : t :=
  flat_map (fun piece =>
              if truthy piece
              then [(decode_field (before_first "=" piece),
                     decode_field (after_first "=" piece))]
              else [])
           (split_on "&" s).

End URLSearchParams.

Module URL.

(** A C0 control or a space. *)
Definition c0_or_space (c : ascii) : bool := (N_of_ascii c <=? 32)%N.

(** An ASCII tab or newline. *)
Definition tab_or_newline (c : ascii) : bool :=
  let n := N_of_ascii c in ((n =? 9) || (n =? 10) || (n =? 13))%N.

Fixpoint trim_start (s : string) : string :=
  match s with
  | String c s' => if c0_or_space c then trim_start s' else s
  | EmptyString => s
  end.

Fixpoint trim_end (s : string) : string :=
  match s with
  | EmptyString => EmptyString
  | String c s' =>
      match trim_end s' with
      | EmptyString => if c0_or_space c then EmptyString else String c EmptyString
      | r => String c r
      end
  end.

Fixpoint remove_tab_newline (s : string) : string :=
  match s with
  | EmptyString => EmptyString
  | String c s' =>
      if tab_or_newline c then remove_tab_newline s' else String c (remove_tab_newline s')
  end.

(** The query of [new URL(input, base)] for an [input] that has no scheme:
    the parser drops leading and trailing C0 controls and spaces, drops tabs
    and newlines, leaves the fragment (from the first [#]) aside, and the
    query is what follows the first [?].  The parser percent-encodes some
    bytes of the query, which the form parser decodes again; this is left
    out.  On an input that starts with [/orders], the only one the service
    parses, the parser does not fail. *)
Definition query (input : string) : string :=
  let s := remove_tab_newline (trim_end (trim_start input)) in
  URLSearchParams.after_first "?" (URLSearchParams.before_first "#" s).

(** [new URL(input, base).searchParams] *)
Definition searchParams (input : string) : URLSearchParams.t :=
  URLSearchParams.parse (query input).

End URL.

(** ** The data model *)

(** Modelled from the spec: the declarations of [Order], [AppConfigResponse],
    [OrdersResponse] and [ApiSettings] are in [../types], which is not among
    the sources.  The records below have the fields that the service writes
    and reads, with the meaning that section 3 of the specification gives. *)

(** Modelled from the spec: an order, with the fields of the object literal
    of [generateMockOrders]. *)
Record Order := {
  id : Z;
  tracking_code : string;
  buyer_name : string;
  phone : string;
  address : string;
  police_station : string;
  amount : string;
  rider_name : string;
  rider_phone : string;
  estimated_delivery : string;
  delivery_partner : string;
  latest_status : string;
  last_update : string
}.

(** Modelled from the spec: the two lists of the configuration, as
    [MOCK_CONFIG] has them. *)
Record AppConfigResponse := {
  delivery_partners : list string;
  quick_statuses : list string
}.

(** Modelled from the spec: the pagination of a page of orders, as the mock
    responder builds it. *)
Record Pagination := {
  current_page : number;
  total_pages : Z;
  total_items : Z
}.

(** Modelled from the spec: a page of orders with its pagination. *)
Record OrdersResponse := {
  orders : list Order;
  pagination : Pagination
}.

(** Modelled from the spec: the connection settings (base URL, optional API
    key, mock-mode flag).  The service tests [baseUrl] and [apiKey] for
    truthiness, so each may be undefined ([None]) or empty. *)
Record ApiSettings := {
  baseUrl : option string;
  apiKey : option string;
  useMock : bool
}.

(** What a call resolves to: one of the shapes the mock responder builds, or
    whatever the body of a network response decodes to. *)
Inductive value :=
| Config (c : AppConfigResponse)
| Orders (r : OrdersResponse)
| Created (success : bool) (message tracking_code : string) (order_id : Z)
| Updated (success : bool) (message : string)
| Json (text : string).

(** ** The platform: [fetch], [window.location] and [Math.random] *)

(** The [RequestInit] fields the service sets. *)
Record RequestInit := {
  method : option string;
  body : option string;
  headers : option (gmap string string)
}.

(** A [Response]: [json] is what [response.json()] settles to. *)
Record Response := {
  status : Z;
  statusText : string;
  json : result value
}.

(** [response.ok]: the status is in the range 200 to 299. *)
Definition ok (r : Response) : bool :=
  ((200 <=? status r) && (status r <=? 299))%Z.

(** A sample of [Math.random()], a number of the interval [0,1): the pair
    [(m, e)] stands for the number [(m mod 2^53) / 2^(53 + e)].  Every number
    of the interval has this form, with 53 significant bits. *)
Definition sample := (N * N)%type.

Definition mantissa (x : sample) : N := (fst x mod 2 ^ 53)%N.

(** A whole number rounded to 53 significant bits, to the nearest and on a
    tie to the even one: the rounding of a product of numbers. *)
Definition round53 (m : N) : N :=
  let unit := (2 ^ (N.log2 m - 52))%N in
  let q := (m / unit)%N in
  let r := (m mod unit)%N in
  if (2 * r <? unit)%N then (q * unit)%N
  else if (2 * r =? unit)%N then ((if N.even q then q else q + 1) * unit)%N
  else ((q + 1) * unit)%N.

(** [Math.floor(x * n)] for a sample [x] and a whole number [n]: the product
    is rounded before the floor is taken. *)
Definition floor_times (x : sample) (n : N) : N :=
  (round53 (mantissa x * n) / 2 ^ (53 + snd x))%N.

(** [x > 0.5] for a sample [x]. *)
Definition above_half (x : sample) : bool :=
  (2 ^ (53 + snd x) <? 2 * mantissa x)%N.

Record Platform := {
  fetch : string -> RequestInit -> result Response;
  location_protocol : string;
  random_tape : nat -> sample
}.

(** One call of [fetch], as the log keeps it. *)
Record FetchCall := {
  fetch_url : string;
  fetch_init : RequestInit
}.

(** ** Mock data *)

(** Code that draws random numbers: the state is the number of calls of
    [Math.random] made so far. *)
Definition Rand (A : Type) := (nat -> sample) -> nat -> A * nat.

Definition rand_ret {A} (a : A) : Rand A := fun _ k => (a, k).

Definition rand_bind {A B} (m : Rand A) (f : A -> Rand B) : Rand B :=
  fun tape k => let (a, k') := m tape k in f a tape k'.

Declare Scope rand_scope.
Delimit Scope rand_scope with rand.
Notation "'let*' x ':=' m 'in' f" := (rand_bind m (fun x => f))
  (at level 10, x name, m at level 100, f at level 200) : rand_scope.

(** [Math.random()] *)
Definition Math_random : Rand sample := fun tape k => (tape k, S k).

(** [Array.from({ length: count }, (_, i) => f(i))], from index [i] on. *)
Fixpoint Array_from {A} (f : nat -> Rand A) (i count : nat) : Rand (list A) :=
  match count with
  | O => rand_ret []
  | S count' =>
      (let* x := f i in
       let* rest := Array_from f (S i) count' in
       rand_ret (x :: rest))%rand
  end.

Definition partners : list string := ["RedX"; "Steadfast"; "Pathao"; "Paperfly"].

Definition statuses : list string :=
  ["Picked"; "In Transit"; "Out for Delivery"; "Delivered"; "Cancelled"].

Definition stations : list string := ["Gulshan"; "Banani"; "Dhanmondi"; "Mirpur"].

(** The order that [generateMockOrders] builds at index [i]; the fields are
    evaluated, and so draw their random numbers, in the order of the object
    literal. *)
Definition mockOrder (i : nat) : Rand Order :=
  (let* r_road := Math_random in
   let* r_station := Math_random in
   let* r_amount := Math_random in
   let* r_rider := Math_random in
   let* r_rider_phone := Math_random in
   let* r_partner := Math_random in
   let* r_status := Math_random in
   rand_ret {|
     id := Z.of_nat (i + 1);
     tracking_code := "ST-" +:+ toString (8000 + Z.of_nat i);
     buyer_name := "Customer " +:+ toString (Z.of_nat (i + 1));
     phone := "017" +:+ padStart0 (toString (Z.of_nat i)) 8;
     address := "House " +:+ toString (Z.of_nat (i + 1)) +:+ ", Road "
                +:+ toString (Z.of_N (floor_times r_road 20)) +:+ ", Dhaka";
     police_station := at_index stations (floor_times r_station 4);
     amount := toString (500 + Z.of_N (floor_times r_amount 2000)) +:+ " BDT";
     rider_name := if above_half r_rider
                   then "Rider " +:+ toString (Z.of_nat (i + 1)) else "";
     rider_phone := if above_half r_rider_phone then "018..." else "";
     estimated_delivery := "2025-12-10";
     delivery_partner := at_index partners (floor_times r_partner (N.of_nat (length partners)));
     latest_status := at_index statuses (floor_times r_status (N.of_nat (length statuses)));
     last_update := "2025-12-07 10:30:00"
   |})%rand.

Definition generateMockOrders (count : nat) : Rand (list Order) :=
  Array_from mockOrder 0 count.

Definition MOCK_CONFIG : AppConfigResponse := {|
  delivery_partners := ["RedX"; "Steadfast"; "Pathao"; "Paperfly"; "E-Courier"; "In-House"];
  quick_statuses := ["Picked"; "In Transit"; "Out for Delivery"; "Delivered";
                     "Cancelled"; "Returned"]
|}.

(** ** The world the service runs in *)

(** The length of an array is below 2^32. *)
Definition fits_array {A} (l : list A) : Prop :=
  (Z.of_nat (length l) <? 4294967296)%Z = true.

Record World := {
  MOCK_ORDERS : list Order;   (* the module-level array *)
  random_calls : nat;         (* calls of [Math.random] so far *)
  timers : list Z;            (* the delays awaited so far, latest first *)
  fetch_log : list FetchCall; (* the [fetch] calls issued so far, latest first *)
  MOCK_ORDERS_fits : fits_array MOCK_ORDERS   (* it is a JS array *)
}.

(** The world once the module is loaded:
    [const MOCK_ORDERS = generateMockOrders(45)]. *)
Definition module_load (tape : nat -> sample) : World :=
  {| MOCK_ORDERS := fst (generateMockOrders 45 tape 0);
     random_calls := snd (generateMockOrders 45 tape 0);
     timers := []; fetch_log := [];
     MOCK_ORDERS_fits := eq_refl |}.

(** An asynchronous computation: it changes the world and settles to a value
    or rejects. *)
Definition M (A : Type) := World -> result A * World.

Definition ret {A} (a : A) : M A := fun w => (Ok a, w).

Definition throw {A} (e : exn) : M A := fun w => (Throw e, w).

Definition bind {A B} (m : M A) (f : A -> M B) : M B :=
  fun w => match m w with
           | (Ok a, w') => f a w'
           | (Throw e, w') => (Throw e, w')
           end.

(** [try { m } catch (error) { handler(error) }] *)
Definition try_catch {A} (m : M A) (handler : exn -> M A) : M A :=
  fun w => match m w with
           | (Ok a, w') => (Ok a, w')
           | (Throw e, w') => handler e w'
           end.

(** A promise that was returned, not awaited: the caller's promise follows
    it. *)
Definition settle {A} (r : result A) : M A := fun w => (r, w).

Declare Scope service_scope.
Delimit Scope service_scope with service.
Notation "'let*' x ':=' m 'in' f" := (bind m (fun x => f))
  (at level 10, x name, m at level 100, f at level 200) : service_scope.

(** ** The service class *)

Section SwiftTrackService.

(** The platform, the settings given to the constructor, the payload types of
    [../types] and [JSON.stringify] on them. *)
Variable P : Platform.
Variable settings : ApiSettings.
Variables CreateOrderPayload UpdateStatusPayload UpdateDetailsPayload : Type.
Variable JSON_stringify : forall A : Type, A -> string.

(** [await new Promise(resolve => setTimeout(resolve, ms))] *)
Definition sleep (ms : Z) : M unit :=
  fun w => (Ok tt, {| MOCK_ORDERS := MOCK_ORDERS w; random_calls := random_calls w;
                      timers := ms :: timers w; fetch_log := fetch_log w;
                      MOCK_ORDERS_fits := MOCK_ORDERS_fits w |}).

(** [await fetch(url, init)]: the call is logged and settles as the platform
    says. *)
Definition await_fetch (url : string) (init : RequestInit) : M Response :=
  fun w => (fetch P url init,
            {| MOCK_ORDERS := MOCK_ORDERS w; random_calls := random_calls w;
               timers := timers w;
               fetch_log := {| fetch_url := url; fetch_init := init |} :: fetch_log w;
               MOCK_ORDERS_fits := MOCK_ORDERS_fits w |}).

(** Random draws inside the service read the platform's tape. *)
Definition draw {A} (m : Rand A) : M A :=
  fun w => let (a, k) := m (random_tape P) (random_calls w) in
           (Ok a, {| MOCK_ORDERS := MOCK_ORDERS w; random_calls := k;
                     timers := timers w; fetch_log := fetch_log w;
                     MOCK_ORDERS_fits := MOCK_ORDERS_fits w |}).

(** Reading the module-level [MOCK_ORDERS]. *)
Definition read_MOCK_ORDERS : M (list Order) := fun w => (Ok (MOCK_ORDERS w), w).

Definition getHeaders (requireAuth : bool) : gmap string string :=
  let headers : gmap string string := {[ "Content-Type" := "application/json" ]} in
  match apiKey settings with
  | Some key =>
      if requireAuth && truthy key
      then <[ "X-FBBOT-API-KEY" := key ]> headers
      else headers
  | None => headers
  end.

(** The three filters of the mock responder, each applied when its parameter
    is truthy. *)
Definition search_filter (search : string) (o : Order) : bool :=
  includes (toLowerCase (buyer_name o)) search ||
  includes (phone o) search ||
  includes (toLowerCase (tracking_code o)) search.

Definition partner_filter (partner : string) (o : Order) : bool :=
  String.eqb (delivery_partner o) partner.

Definition status_filter (status : string) (o : Order) : bool :=
  String.eqb (latest_status o) status.

Definition filter_if {A} (cond : bool) (f : A -> bool) (l : list A) : list A :=
  if cond then List.filter f l else l.

Definition mockResponse (endpoint : string) (options : RequestInit) : M value :=
  (if String.eqb endpoint "/app-config" then ret (Config MOCK_CONFIG)
   else if startsWith endpoint "/orders" then
     let url := URL.searchParams endpoint in
     let page := parseInt (or_else (URLSearchParams.get url "page") "1") in
     let search := toLowerCase (or_else (URLSearchParams.get url "search") "") in
     let partner := or_else (URLSearchParams.get url "delivery_partner") "" in
     let status := or_else (URLSearchParams.get url "status") "" in
     let* filteredOrders := read_MOCK_ORDERS in
     let filteredOrders := filter_if (truthy search) (search_filter search) filteredOrders in
     let filteredOrders := filter_if (truthy partner) (partner_filter partner) filteredOrders in
     let filteredOrders := filter_if (truthy status) (status_filter status) filteredOrders in
     let limit := 20%Z in
     let start := num_mul (num_sub page 1) limit in
     let end_ := num_add start limit in
     let paginatedOrders := slice filteredOrders start end_ in
     let totalPages := ceil_div (Z.of_nat (length filteredOrders)) limit in
     ret (Orders {| orders := paginatedOrders;
                    pagination := {| current_page := page;
                                     total_pages := nonzero_or totalPages 1;
                                     total_items := Z.of_nat (length filteredOrders) |} |})
   else if String.eqb endpoint "/add-order" then
     let* r_code := draw Math_random in
     let* r_id := draw Math_random in
     ret (Created true "Order created successfully (Mock)"
                  ("MOCK-" +:+ toString (Z.of_N (floor_times r_code 1000)))
                  (Z.of_N (floor_times r_id 10000)))
   else if String.eqb endpoint "/update-status" || String.eqb endpoint "/update-details" then
     ret (Updated true "Updated successfully (Mock)")
   else throw (Error "Mock endpoint not found"))%service.

(** [{ ...options, headers: { ...getHeaders(requireAuth), ...options.headers } }] *)
Definition fetch_options (options : RequestInit) (requireAuth : bool) : RequestInit :=
  {| method := method options;
     body := body options;
     headers := Some (match headers options with
                      | Some own => own ∪ getHeaders requireAuth
                      | None => getHeaders requireAuth
                      end) |}.

Definition placeholder_host : string := "your-wordpress-site.com".

(** The [catch] clause of [request]. *)
Definition on_error (url : string) (error : exn) : M Response :=
  if String.eqb (name error) "TypeError" && String.eqb (message error) "Failed to fetch" then
    if String.eqb (location_protocol P) "https:" && startsWith url "http:" then
      throw (Error "Security Error: Cannot connect to an HTTP server from an HTTPS app. Your WordPress site must use HTTPS.")
    else
      throw (Error "Network request blocked. This is likely a CORS issue on your WordPress site.")
  else throw error.

Definition request (endpoint : string) (options : RequestInit) (requireAuth : bool) : M value :=
  (if useMock settings then
     let* _ := sleep 600 in
     mockResponse endpoint options
   else
     match baseUrl settings with
     | None => throw (Error "Invalid API URL. Please configure a real WordPress URL.")
     | Some configured =>
         if negb (truthy configured) || includes configured placeholder_host then
           throw (Error "Invalid API URL. Please configure a real WordPress URL.")
         else
           let baseUrl := strip_trailing_slash configured in
           let url := baseUrl +:+ endpoint in
           let* response :=
             try_catch
               (let* response := await_fetch url (fetch_options options requireAuth) in
                if negb (ok response) then
                  if (status response =? 401)%Z then throw (Error "Invalid API Key")
                  else if (status response =? 404)%Z then
                    throw (Error "Endpoint not found. Check your WordPress URL.")
                  else
                    throw (Error ("API Error: " +:+ toString (status response) +:+ " "
                                  +:+ statusText response))
                else ret response)
               (on_error url) in
           (* [return response.json()]: the promise is returned from the
              [try] block without [await], so its rejection does not reach
              the [catch] clause *)
           settle (json response)
     end)%service.

Definition GET (b : option string) : RequestInit :=
  {| method := Some "GET"; body := b; headers := None |}.

Definition POST (b : option string) : RequestInit :=
  {| method := Some "POST"; body := b; headers := None |}.

Definition getConfig : M value :=
  request "/app-config" (GET None) false.

Definition getOrders (page : Z) (search partner status : string) : M value :=
  let params := URLSearchParams.empty in
  let params := URLSearchParams.append params "page" (Number_toString page) in
  let params := if truthy search then URLSearchParams.append params "search" search else params in
  let params := if truthy partner
                then URLSearchParams.append params "delivery_partner" partner else params in
  let params := if truthy status then URLSearchParams.append params "status" status else params in
  request ("/orders?" +:+ URLSearchParams.toString params) (GET None) true.

Definition addOrder (data : CreateOrderPayload) : M value :=
  request "/add-order" (POST (Some (JSON_stringify _ data))) true.

Definition updateStatus (data : UpdateStatusPayload) : M value :=
  request "/update-status" (POST (Some (JSON_stringify _ data))) true.

Definition updateDetails (data : UpdateDetailsPayload) : M value :=
  request "/update-details" (POST (Some (JSON_stringify _ data))) true.

(** The public methods, as one type of calls. *)
Inductive call :=
| GetConfig
| GetOrders (page : Z) (search partner status : string)
| AddOrder (data : CreateOrderPayload)
| UpdateStatus (data : UpdateStatusPayload)
| UpdateDetails (data : UpdateDetailsPayload).

Definition run (c : call) : M value :=
  match c with
  | GetConfig => getConfig
  | GetOrders page search partner status => getOrders page search partner status
  | AddOrder data => addOrder data
  | UpdateStatus data => updateStatus data
  | UpdateDetails data => updateDetails data
  end.

End SwiftTrackService.

Arguments GetConfig {CreateOrderPayload UpdateStatusPayload UpdateDetailsPayload}.
Arguments GetOrders {CreateOrderPayload UpdateStatusPayload UpdateDetailsPayload}.
Arguments AddOrder {CreateOrderPayload UpdateStatusPayload UpdateDetailsPayload}.
Arguments UpdateStatus {CreateOrderPayload UpdateStatusPayload UpdateDetailsPayload}.
Arguments UpdateDetails {CreateOrderPayload UpdateStatusPayload UpdateDetailsPayload}.
Arguments run P settings {CreateOrderPayload UpdateStatusPayload UpdateDetailsPayload}.

(** * Notions used in the statements *)

(** [a] is one of the capital letters A to Z (the codes 65 to 90) and [b] is
    the small letter of the same name (its code is 32 above). *)
Definition capital_of (a b : ascii) : Prop :=
  (65 <= N_of_ascii a <= 90)%N /\ N_of_ascii b = (N_of_ascii a + 32)%N.

(** Two characters are the same when letter case is ignored: they are equal,
    or one is the capital and the other the small form of one letter. *)
Definition same_letter (a b : ascii) : Prop :=
  a = b \/ capital_of a b \/ capital_of b a.

(** Two strings are equal when letter case is ignored: they have the same
    length and, position by position, the same characters up to case. *)
Inductive equal_ignoring_case : string -> string -> Prop :=
| equal_ignoring_case_nil : equal_ignoring_case EmptyString EmptyString
| equal_ignoring_case_cons (a b : ascii) (s t : string) :
    same_letter a b -> equal_ignoring_case s t ->
    equal_ignoring_case (String a s) (String b t).

(** The words of the specification: [needle] occurs in [hay] as a substring
    when letter case is ignored, that is, some substring of [hay] equals
    [needle] when letter case is ignored. *)
Definition occurs_ignoring_case (needle hay : string) : Prop :=
  exists pre w post, hay = pre +:+ w +:+ post /\ equal_ignoring_case w needle.

(** The value of the digits [u] read after the digits of [acc]. *)
Fixpoint uint_value (u : uint) (acc : Z) : Z :=
  match u with
  | Nil => acc
  | D0 u' => uint_value u' (10 * acc + 0)
  | D1 u' => uint_value u' (10 * acc + 1)
  | D2 u' => uint_value u' (10 * acc + 2)
  | D3 u' => uint_value u' (10 * acc + 3)
  | D4 u' => uint_value u' (10 * acc + 4)
  | D5 u' => uint_value u' (10 * acc + 5)
  | D6 u' => uint_value u' (10 * acc + 6)
  | D7 u' => uint_value u' (10 * acc + 7)
  | D8 u' => uint_value u' (10 * acc + 8)
  | D9 u' => uint_value u' (10 * acc + 9)
  end%Z.

(** All characters of a string satisfy [p]. *)
Fixpoint all_chars (p : ascii -> bool) (s : string) : bool :=
  match s with
  | EmptyString => true
  | String c s' => p c && all_chars p s'
  end.

(** [s] has no occurrence of [sep]. *)
Definition lacks (sep : ascii) (s : string) : bool :=
  all_chars (fun c => negb (Ascii.eqb c sep)) s.

(** The characters of a serialized name or value. *)
Definition field_char (c : ascii) : bool :=
  URLSearchParams.unreserved c || Ascii.eqb c "+" || Ascii.eqb c "%".

(** The characters of a serialized list of pairs. *)
Definition query_char (c : ascii) : bool :=
  field_char c || Ascii.eqb c "=" || Ascii.eqb c "&".

(** The characters that the URL parser neither drops nor takes as the start
    of the fragment. *)
Definition kept_char (c : ascii) : bool :=
  negb (URL.c0_or_space c) && negb (Ascii.eqb c "#").

(** The parameters that [getOrders] appends. *)
Definition orders_params (page : Z) (search partner status : string) : URLSearchParams.t :=
  let params := URLSearchParams.empty in
  let params := URLSearchParams.append params "page" (Number_toString page) in
  let params := if truthy search then URLSearchParams.append params "search" search else params in
  let params := if truthy partner
                then URLSearchParams.append params "delivery_partner" partner else params in
  if truthy status then URLSearchParams.append params "status" status else params.

(** The page that the mock responder serves when [getOrders] is called with
    [page]: the number that [parseInt] reads in the text of [page]. *)
Definition served_page (page : Z) : number := parseInt (Number_toString page).

(** The list that the three filters of the mock responder leave. *)
Definition filteredOrders (search partner status : string) (l : list Order) : list Order :=
  let l := filter_if (truthy (toLowerCase search)) (search_filter (toLowerCase search)) l in
  let l := filter_if (truthy partner) (partner_filter partner) l in
  filter_if (truthy status) (status_filter status) l.

(** The world after the simulated delay. *)
Definition delayed (w : World) : World :=
  {| MOCK_ORDERS := MOCK_ORDERS w; random_calls := random_calls w;
     timers := 600%Z :: timers w; fetch_log := fetch_log w;
     MOCK_ORDERS_fits := MOCK_ORDERS_fits w |}.

(** The search filter in the words of the specification: the search string
    occurs, letter case ignored, in the buyer name, in the phone or in the
    tracking code. *)
Definition search_matches (search : string) (o : Order) : Prop :=
  occurs_ignoring_case search (buyer_name o) \/
  occurs_ignoring_case search (phone o) \/
  occurs_ignoring_case search (tracking_code o).

(** An order matches every filter that was supplied (a filter that is the
    empty string was not supplied). *)
Definition matches_filters (search partner status : string) (o : Order) : Prop :=
  (search <> "" -> search_matches search o) /\
  (partner <> "" -> delivery_partner o = partner) /\
  (status <> "" -> latest_status o = status).

(** The same, as the conjunction of the three tests of the responder. *)
Definition passes (search partner status : string) (o : Order) : bool :=
  (negb (truthy search) || search_filter (toLowerCase search) o) &&
  (negb (truthy partner) || partner_filter partner o) &&
  (negb (truthy status) || status_filter status o).

(** The filtered set of a query: the mock orders that pass, in their order. *)
Definition filtered_set (search partner status : string) (w : World) : list Order :=
  List.filter (passes search partner status) (MOCK_ORDERS w).

(** The mock order list is the one that the module generated when it was
    loaded, for some run of [Math.random]. *)
Definition mock_data (w : World) : Prop :=
  exists tape, MOCK_ORDERS w = MOCK_ORDERS (module_load tape).

(** The page numbers 1, 2, ..., [n]. *)
Definition page_numbers (n : Z) : list Z := map Z.of_nat (seq 1 (Z.to_nat n)).

(** [n] is the least number of pages of 20 that hold [count] items, and 1
    when there is no item. *)
Definition pages_for (count n : Z) : Prop :=
  (count = 0 -> n = 1)%Z /\ (0 < count -> 20 * (n - 1) < count <= 20 * n)%Z.

(** The [success] field of a result that has one. *)
Definition success_of (v : value) : option bool :=
  match v with
  | Created success _ _ _ => Some success
  | Updated success _ => Some success
  | _ => None
  end.

(** The name of the API-key header. *)
Definition key_header : string := "X-FBBOT-API-KEY".

(** A low-level transport failure: when a request does not reach the server
    (connection refused, CORS block, mixed content), [fetch] rejects with a
    [TypeError]; its message is the browser's own. *)
Definition transport_failure (e : exn) : Prop := name e = "TypeError".

(** The one transport failure that the [catch] clause looks for: a
    [TypeError] with the message of the Chromium browsers. *)
Definition failed_to_fetch (e : exn) : Prop :=
  name e = "TypeError" /\ message e = "Failed to fetch".

(** What the properties below use of a generated order: its partner and status are
    drawn from the two lists, and its phone is made of digits. *)
Definition well_formed (o : Order) : Prop :=
  In (delivery_partner o) partners /\
  In (latest_status o) statuses /\
  all_chars is_digit (phone o) = true.

(** The errors of the service, by the names the specification gives them. *)
Definition configuration_error : exn :=
  Error "Invalid API URL. Please configure a real WordPress URL.".

Definition auth_error : exn := Error "Invalid API Key".

Definition not_found_error : exn :=
  Error "Endpoint not found. Check your WordPress URL.".

Definition api_error (status : Z) (reason : string) : exn :=
  Error ("API Error: " +:+ toString status +:+ " " +:+ reason).

Definition protocol_mismatch_error : exn :=
  Error "Security Error: Cannot connect to an HTTP server from an HTTPS app. Your WordPress site must use HTTPS.".

Definition request_blocked_error : exn :=
  Error "Network request blocked. This is likely a CORS issue on your WordPress site.".

(** The base URL is missing, empty or contains the placeholder host. *)
Definition unconfigured (settings : ApiSettings) : Prop :=
  match baseUrl settings with
  | None => True
  | Some b => b = "" \/ includes b placeholder_host = true
  end.

(** The world after [fetch] was called with [url] and [init]. *)
Definition logged (url : string) (init : RequestInit) (w : World) : World :=
  {| MOCK_ORDERS := MOCK_ORDERS w; random_calls := random_calls w;
     timers := timers w;
     fetch_log := {| fetch_url := url; fetch_init := init |} :: fetch_log w;
     MOCK_ORDERS_fits := MOCK_ORDERS_fits w |}.

(** The calls that change something on the server. *)
Definition is_mutation {C U D : Type} (c : call C U D) : Prop :=
  match c with
  | AddOrder _ | UpdateStatus _ | UpdateDetails _ => True
  | GetConfig | GetOrders _ _ _ _ => False
  end.

(** ** Sample inputs *)

(** A run of [Math.random]. *)
Definition sample_tape : nat -> sample :=
  fun k => ((N.of_nat ((k * 37) mod 101) * 2 ^ 53) / 101, 0)%N.

(** A server that answers every request with [response]. *)
Definition answering (response : Response) : Platform :=
  {| fetch := fun _ _ => Ok response;
     location_protocol := "https:";
     random_tape := sample_tape |}.

(** A network on which every request fails with [e]. *)
Definition failing (e : exn) : Platform :=
  {| fetch := fun _ _ => Throw e;
     location_protocol := "https:";
     random_tape := sample_tape |}.

Definition unauthorized : Response :=
  {| status := 401; statusText := "Unauthorized"; json := Ok (Json "{}") |}.

Definition mock_settings : ApiSettings :=
  {| baseUrl := Some "https://your-wordpress-site.com/wp-json/fbbot/v1";
     apiKey := None; useMock := true |}.

Definition placeholder_settings : ApiSettings :=
  {| baseUrl := Some "https://your-wordpress-site.com/wp-json/fbbot/v1";
     apiKey := Some "secret"; useMock := false |}.

Definition live_settings : ApiSettings :=
  {| baseUrl := Some "http://shop.example/wp-json/fbbot/v1/";
     apiKey := Some "secret"; useMock := false |}.

(** A [JSON.stringify] for the samples. *)
Definition sample_stringify : forall A : Type, A -> string := fun _ _ => "{}".

Definition sample_payload : string := "order".

Definition sample_addOrder : call string string string := AddOrder sample_payload.

Definition sample_getConfig : call string string string := GetConfig.

(** The [fetch] that [getConfig] issues under [live_settings]. *)
Definition sample_fetch : FetchCall :=
  {| fetch_url := "http://shop.example/wp-json/fbbot/v1/app-config";
     fetch_init := fetch_options live_settings (GET None) false |}.

Definition connection_refused : exn := Exn "TypeError" "Failed to fetch".

(** The same failure as Firefox reports it. *)
Definition connection_refused_firefox : exn :=
  Exn "TypeError" "NetworkError when attempting to fetch resource.".

(** The ids of the orders and the pagination of a response of [getOrders]. *)
Definition page_summary (out : result value * World) : option (list Z * Pagination) :=
  match fst out with
  | Ok (Orders r) => Some (map id (orders r), pagination r)
  | _ => None
  end.

(** An order, not a generated one, whose phone holds letters. *)
Definition lettered_phone : Order :=
  {| id := 1; tracking_code := "ST-8000"; buyer_name := "Customer 1";
     phone := "0800-FLOWERS"; address := ""; police_station := ""; amount := "";
     rider_name := ""; rider_phone := ""; estimated_delivery := "";
     delivery_partner := "RedX"; latest_status := "Picked"; last_update := "" |}.

(** ** Notions used in the further properties *)

(** The pair that [getOrders] appends for a filter: none for the empty
    string. *)
Definition supplied (name value : string) : URLSearchParams.t :=
  if truthy value then [(name, value)] else [].

(** Ascending order of ids. *)
Definition by_id (a b : Order) : Prop := (id a < id b)%Z.

(** The settings with another base URL. *)
Definition with_baseUrl (settings : ApiSettings) (url : string) : ApiSettings :=
  {| baseUrl := Some url; apiKey := apiKey settings; useMock := useMock settings |}.

(** Two random tapes agree on the [n] samples from position [k] on. *)
Definition agree_on (k n : nat) (tape1 tape2 : nat -> sample) : Prop :=
  forall j, j < n -> tape1 (k + j) = tape2 (k + j).

(** Another run of [Math.random], equal to [sample_tape] on the first 315
    samples only. *)
Definition other_tape : nat -> sample :=
  fun k => if k <? 315 then sample_tape k else (0%N, 0%N).

Definition sample_getOrders : call string string string :=
  GetOrders 2 "a b&c" "RedX" "".

Definition sample_updateStatus : call string string string :=
  UpdateStatus sample_payload.

(** The order at index [j] of the generated list, with the fields that the
    search reads and the random fields left empty. *)
Definition search_template (j : nat) : Order :=
  {| id := Z.of_nat (j + 1);
     tracking_code := "ST-" +:+ toString (8000 + Z.of_nat j);
     buyer_name := "Customer " +:+ toString (Z.of_nat (j + 1));
     phone := "017" +:+ padStart0 (toString (Z.of_nat j)) 8;
     address := ""; police_station := ""; amount := ""; rider_name := "";
     rider_phone := ""; estimated_delivery := ""; delivery_partner := "";
     latest_status := ""; last_update := "" |}.

(** Among the first [count] generated orders, a search by the tracking code
    or by the phone of the order at index [i] keeps the order at index [j]
    exactly when [j = i]. *)
Definition identifies_one (count : nat) : bool :=
  forallb (fun i =>
    forallb (fun j =>
      Bool.eqb (search_filter (toLowerCase (tracking_code (search_template i)))
                              (search_template j)) (j =? i) &&
      Bool.eqb (search_filter (toLowerCase (phone (search_template i)))
                              (search_template j)) (j =? i))
      (seq 0 count))
    (seq 0 count).

(** The world after a history of calls, each made through a service with its
    own settings; the outcomes are dropped. *)
Fixpoint run_all (P : Platform) {C U D : Type} (stringify : forall A : Type, A -> string)
    (history : list (ApiSettings * call C U D)) (w : World) : World :=
  match history with
  | [] => w
  | (settings, c) :: rest => run_all P stringify rest (snd (run P settings stringify c w))
  end.

(** The settings with another API key. *)
Definition with_apiKey (settings : ApiSettings) (key : option string) : ApiSettings :=
  {| baseUrl := baseUrl settings; apiKey := key; useMock := useMock settings |}.

(** The URL, the method and the body of a [fetch]. *)
Definition request_line (fc : FetchCall) : string * option string * option string :=
  (fetch_url fc, method (fetch_init fc), body (fetch_init fc)).

Definition sample_history : list (ApiSettings * call string string string) :=
  [(mock_settings, sample_addOrder); (live_settings, sample_getConfig);
   (mock_settings, sample_updateStatus); (placeholder_settings, sample_getOrders)].

Definition created : Response :=
  {| status := 201; statusText := "Created";
     json := Ok (Created true "Order created" "ST-9001" 9001) |}.

(** * Properties *)

(** Case analysis on the 256 values of a byte. *)
Ltac each_byte c := destruct c as [[|] [|] [|] [|] [|] [|] [|] [|]].

(** ** Strings *)

Section StringFacts.

Lemma truthy_true (s : string) : truthy s = true <-> s <> "".
Proof. destruct s; simpl; split; congruence. Qed.

Lemma truthy_false (s : string) : truthy s = false <-> s = "".
Proof. destruct s; simpl; split; congruence. Qed.

Lemma or_else_same (s : string) :
  or_else (if truthy s then Some s else None) "" = s.
Proof. destruct s; reflexivity. Qed.

(** [startsWith] is the prefix relation. *)
Lemma startsWith_spec (s t : string) :
  startsWith s t = true <-> exists post, s = t +:+ post.
Proof.
  revert s; induction t as [|b t IH]; intros s; simpl.
  - split; [intros _; now exists s | reflexivity].
  - destruct s as [|a s].
    + split; [discriminate | intros [post H]; discriminate].
    + rewrite andb_true_iff, IH. split.
      * intros [Hab [post ->]]. apply Ascii.eqb_eq in Hab as ->. now exists post.
      * intros [post H]. injection H as -> ->. split; [apply Ascii.eqb_refl | now exists post].
Qed.

(** [includes] is the substring relation. *)
Lemma includes_spec (s t : string) :
  includes s t = true <-> exists pre post, s = pre +:+ t +:+ post.
Proof.
  induction s as [|a s IH]; simpl.
  - rewrite orb_false_r, startsWith_spec. split.
    + intros [post H]. now exists "", post.
    + intros [pre [post H]]. destruct pre; [now exists post | discriminate].
  - rewrite orb_true_iff, startsWith_spec, IH. split.
    + intros [[post H] | [pre [post H]]].
      * now exists "", post.
      * exists (String a pre), post. simpl. now rewrite H.
    + intros [pre [post H]]. destruct pre as [|x pre]; simpl in H.
      * left. now exists post.
      * right. injection H as _ H. now exists pre, post.
Qed.

Lemma toLowerCase_app (a b : string) :
  toLowerCase (a +:+ b) = toLowerCase a +:+ toLowerCase b.
Proof. induction a as [|c a IH]; simpl; [reflexivity | now f_equal]. Qed.

(** A cut of the lowercased text is the lowercase of a cut of the text. *)
Lemma toLowerCase_cut (s a b : string) :
  toLowerCase s = a +:+ b ->
  exists a' b', s = a' +:+ b' /\ toLowerCase a' = a /\ toLowerCase b' = b.
Proof.
  revert s; induction a as [|x a IH]; intros s H; simpl in H.
  - now exists "", s.
  - destruct s as [|c s]; [discriminate |]. simpl in H. injection H as Hc H.
    destruct (IH s H) as (a' & b' & -> & Ha & Hb).
    exists (String c a'), b'. simpl. now rewrite Hc, Ha.
Qed.

Lemma toLowerCase_truthy (s : string) : truthy (toLowerCase s) = truthy s.
Proof. destruct s; reflexivity. Qed.

End StringFacts.

(** ** Letter case *)

Section LetterCase.

Lemma N_of_ascii_inj (a b : ascii) : N_of_ascii a = N_of_ascii b -> a = b.
Proof.
  intros H. rewrite <- (ascii_N_embedding a), <- (ascii_N_embedding b). now f_equal.
Qed.

(** The code of the character that [lower_char] gives. *)
Lemma N_of_ascii_lower_char (c : ascii) :
  N_of_ascii (lower_char c) =
  if ((65 <=? N_of_ascii c) && (N_of_ascii c <=? 90))%N
  then (N_of_ascii c + 32)%N else N_of_ascii c.
Proof.
  unfold lower_char.
  destruct ((65 <=? N_of_ascii c) && (N_of_ascii c <=? 90))%N eqn:E; [| reflexivity].
  apply andb_true_iff in E as [_ E]. apply N.leb_le in E.
  apply N_ascii_embedding. lia.
Qed.

(** [lower_char] identifies exactly the characters that are the same letter. *)
Lemma lower_char_same_letter (a b : ascii) :
  lower_char a = lower_char b <-> same_letter a b.
Proof.
  unfold same_letter, capital_of. split.
  - intros H. apply (f_equal N_of_ascii) in H.
    rewrite !N_of_ascii_lower_char in H.
    destruct (N.leb_spec 65 (N_of_ascii a)), (N.leb_spec (N_of_ascii a) 90),
      (N.leb_spec 65 (N_of_ascii b)), (N.leb_spec (N_of_ascii b) 90);
      cbn [andb] in H;
      first [ left; apply N_of_ascii_inj; lia | right; left; lia | right; right; lia ].
  - intros H. apply N_of_ascii_inj. rewrite !N_of_ascii_lower_char.
    destruct (N.leb_spec 65 (N_of_ascii a)), (N.leb_spec (N_of_ascii a) 90),
      (N.leb_spec 65 (N_of_ascii b)), (N.leb_spec (N_of_ascii b) 90);
      cbn [andb]; destruct H as [-> | [H | H]]; lia.
Qed.

(** [toLowerCase] identifies exactly the strings that are equal when letter
    case is ignored. *)
Lemma toLowerCase_equal_ignoring_case (s t : string) :
  toLowerCase s = toLowerCase t <-> equal_ignoring_case s t.
Proof.
  split.
  - revert t; induction s as [|a s IH]; intros [|b t] H; simpl in H;
      try discriminate; [constructor |].
    injection H as Hab H. constructor; [now apply lower_char_same_letter | now apply IH].
  - induction 1 as [|a b s t Hab _ IH]; simpl; [reflexivity |].
    apply lower_char_same_letter in Hab. now rewrite Hab, IH.
Qed.

Lemma equal_ignoring_case_refl (s : string) : equal_ignoring_case s s.
Proof. now apply toLowerCase_equal_ignoring_case. Qed.

End LetterCase.

Lemma includes_lowercase (hay needle : string) :
  includes (toLowerCase hay) (toLowerCase needle) = true <->
  occurs_ignoring_case needle hay.
Proof.
  rewrite includes_spec. split.
  - intros (pre & post & H).
    apply toLowerCase_cut in H as (pre' & rest & -> & Hpre & H).
    apply toLowerCase_cut in H as (w & post' & -> & Hw & Hpost).
    exists pre', w, post'. split; [reflexivity |].
    now apply toLowerCase_equal_ignoring_case.
  - intros (pre & w & post & -> & Hw).
    apply toLowerCase_equal_ignoring_case in Hw.
    exists (toLowerCase pre), (toLowerCase post).
    now rewrite !toLowerCase_app, Hw.
Qed.

(** ** Decimal text *)

Section DecimalFacts.

Lemma uint_value_acc (u : uint) (acc : positive) :
  uint_value u (Z.pos acc) = Z.pos (Pos.of_uint_acc u acc).
Proof.
  revert acc; induction u; intros acc; cbn [uint_value Pos.of_uint_acc];
    try reflexivity; rewrite <- IHu; f_equal; lia.
Qed.

Lemma uint_value_0 (u : uint) : uint_value u 0 = Z.of_N (Pos.of_uint u).
Proof.
  induction u; cbn [uint_value Pos.of_uint]; try reflexivity;
    try (rewrite <- IHu; f_equal; lia);
    cbn [Z.of_N]; rewrite <- uint_value_acc; f_equal.
Qed.

Lemma all_chars_app (p : ascii -> bool) (a b : string) :
  all_chars p (a +:+ b) = all_chars p a && all_chars p b.
Proof. induction a as [|c a IH]; simpl; [reflexivity | now rewrite IH, andb_assoc]. Qed.

Lemma all_chars_weaken (p q : ascii -> bool) (s : string) :
  (forall c, p c = true -> q c = true) ->
  all_chars p s = true -> all_chars q s = true.
Proof.
  intros Hpq; induction s as [|c s IH]; simpl; [reflexivity |].
  rewrite !andb_true_iff. intros [H1 H2]. split; [now apply Hpq | now apply IH].
Qed.

Lemma digits_of_uint (u : uint) : all_chars is_digit (NilEmpty.string_of_uint u) = true.
Proof. induction u; simpl; try reflexivity; assumption. Qed.

Lemma read_digits_uint (u : uint) (acc : Z) :
  read_digits (NilEmpty.string_of_uint u) true acc = Some (uint_value u acc).
Proof. revert acc; induction u; intros acc; simpl; try reflexivity; apply IHu. Qed.

Lemma read_digits_first (u : uint) (acc : Z) :
  u <> Nil ->
  read_digits (NilEmpty.string_of_uint u) false acc = Some (uint_value u acc).
Proof. destruct u; intros H; try congruence; simpl; apply read_digits_uint. Qed.

(** On decimal digits that are not empty, [read_magnitude] reads in radix
    10. *)
Lemma read_magnitude_uint (u : uint) :
  u <> Nil ->
  read_magnitude (NilEmpty.string_of_uint u) = Some (uint_value u 0).
Proof.
  intros H. rewrite <- (read_digits_first u 0 H).
  destruct u as [|u|u|u|u|u|u|u|u|u|u]; try reflexivity.
  destruct u; reflexivity.
Qed.

Lemma toString_pos (p : positive) :
  toString (Z.pos p) = NilEmpty.string_of_uint (Pos.to_uint p).
Proof.
  unfold toString, Z.to_int, NilZero.string_of_int, NilZero.string_of_uint.
  pose proof (Unsigned.to_uint_nonnil p).
  destruct (Pos.to_uint p); congruence.
Qed.

Lemma toString_neg (p : positive) :
  toString (Z.neg p) = String "-" (NilEmpty.string_of_uint (Pos.to_uint p)).
Proof.
  unfold toString, Z.to_int, NilZero.string_of_int, NilZero.string_of_uint.
  pose proof (Unsigned.to_uint_nonnil p).
  destruct (Pos.to_uint p); congruence.
Qed.

Lemma read_magnitude_pos (p : positive) :
  read_magnitude (NilEmpty.string_of_uint (Pos.to_uint p)) = Some (Z.pos p).
Proof.
  rewrite read_magnitude_uint by apply Unsigned.to_uint_nonnil.
  now rewrite uint_value_0, Unsigned.of_to.
Qed.

Lemma first_digit (u : uint) :
  u <> Nil -> exists c s, NilEmpty.string_of_uint u = String c s /\ is_digit c = true.
Proof. destruct u; intros H; try congruence; simpl; eexists _, _; split; reflexivity. Qed.

(** [parseInt] reads back the decimal text of an integer. *)
Lemma parseInt_toString (z : Z) : parseInt (toString z) = Num z.
Proof.
  destruct z as [|p|p].
  - reflexivity.
  - rewrite toString_pos. pose proof (read_magnitude_pos p) as Hm.
    destruct (first_digit (Pos.to_uint p) (Unsigned.to_uint_nonnil p)) as (c & s & Hs & Hc).
    rewrite Hs in *. unfold parseInt.
    assert (Hsp : skip_spaces (String c s) = String c s).
    { simpl. each_byte c; try discriminate; reflexivity. }
    rewrite Hsp.
    each_byte c; try discriminate; now rewrite Hm.
  - rewrite toString_neg. unfold parseInt.
    change (skip_spaces (String "-" ?s)) with (String "-" s).
    cbv iota beta. now rewrite read_magnitude_pos.
Qed.

Lemma toString_truthy (z : Z) : truthy (toString z) = true.
Proof.
  destruct z as [|p|p]; [reflexivity | | now rewrite toString_neg].
  rewrite toString_pos.
  destruct (first_digit (Pos.to_uint p) (Unsigned.to_uint_nonnil p)) as (c & s & -> & _).
  reflexivity.
Qed.

Lemma toString_digits (z : Z) : (0 <= z)%Z -> all_chars is_digit (toString z) = true.
Proof.
  destruct z as [|p|p]; intros H; [reflexivity | | lia].
  rewrite toString_pos. apply digits_of_uint.
Qed.

(** Below 10^21 a number is printed in plain decimal digits. *)
Lemma Number_toString_plain (z : Z) :
  (Z.abs z < exponent_bound)%Z -> Number_toString z = toString z.
Proof.
  intros H. unfold Number_toString.
  destruct (Z.ltb_spec (Z.abs z) exponent_bound); [reflexivity | lia].
Qed.

Lemma exponential_truthy (digits : string) :
  truthy digits = true -> truthy (exponential digits) = true.
Proof. destruct digits; [discriminate | reflexivity]. Qed.

Lemma Number_toString_truthy (z : Z) : truthy (Number_toString z) = true.
Proof.
  unfold Number_toString.
  destruct (Z.abs z <? exponent_bound)%Z; [apply toString_truthy |].
  destruct (z <? 0)%Z; [reflexivity |].
  apply exponential_truthy, toString_truthy.
Qed.

(** [parseInt] reads back the text of a number below 10^21; from there on it
    reads the digits before the point or the exponent only. *)
Lemma served_page_plain (z : Z) :
  (Z.abs z < exponent_bound)%Z -> served_page z = Num z.
Proof.
  intros H. unfold served_page. rewrite Number_toString_plain by assumption.
  apply parseInt_toString.
Qed.

End DecimalFacts.

(** ** Query strings *)

Section QueryFacts.

Import URLSearchParams.

Lemma serialize_byte_chars (c : ascii) : all_chars field_char (serialize_byte c) = true.
Proof. each_byte c; reflexivity. Qed.

Lemma serialize_bytes_chars (s : string) : all_chars field_char (serialize_bytes s) = true.
Proof.
  induction s as [|c s IH]; simpl; [reflexivity |].
  now rewrite all_chars_app, serialize_byte_chars, IH.
Qed.

Lemma field_char_lacks (sep : ascii) (s : string) :
  field_char sep = false -> all_chars field_char s = true -> lacks sep s = true.
Proof.
  intros Hsep. apply all_chars_weaken. intros c Hc.
  destruct (Ascii.eqb_spec c sep) as [-> | _]; [congruence | reflexivity].
Qed.

Lemma serialize_pair_chars (p : string * string) :
  all_chars query_char (serialize_pair p) = true.
Proof.
  unfold serialize_pair. rewrite !all_chars_app, andb_true_iff; split;
    [| rewrite andb_true_iff; split; [reflexivity |]];
    (eapply all_chars_weaken; [| apply serialize_bytes_chars]);
    intros c Hc; unfold query_char; now rewrite Hc.
Qed.

Lemma serialize_pair_lacks_amp (p : string * string) : lacks "&" (serialize_pair p) = true.
Proof.
  unfold serialize_pair, lacks. rewrite !all_chars_app, andb_true_iff; split;
    [| rewrite andb_true_iff; split; [reflexivity |]];
    now apply field_char_lacks; [| apply serialize_bytes_chars].
Qed.

Lemma toString_chars (ps : t) : all_chars query_char (toString ps) = true.
Proof.
  induction ps as [|p [|q ps] IH]; [reflexivity | apply serialize_pair_chars |].
  change (toString (p :: q :: ps)) with (serialize_pair p +:+ "&" +:+ toString (q :: ps)).
  rewrite !all_chars_app, serialize_pair_chars, IH. reflexivity.
Qed.

Lemma percent_decode_other (c : ascii) (s : string) :
  Ascii.eqb c "%" = false -> percent_decode (String c s) = String c (percent_decode s).
Proof.
  intros Hc. destruct s as [|a [|b r]]; try reflexivity.
  cbn [percent_decode]. rewrite Hc. reflexivity.
Qed.

(** Decoding undoes the serialization of one byte, whatever follows. *)
Lemma decode_serialize_byte (c : ascii) (rest : string) :
  decode_field (serialize_byte c +:+ rest) = String c (decode_field rest).
Proof.
  unfold decode_field.
  each_byte c;
    first [ apply percent_decode_other; reflexivity | reflexivity ].
Qed.

Lemma decode_serialize (s : string) : decode_field (serialize_bytes s) = s.
Proof.
  induction s as [|c s IH]; [reflexivity |].
  cbn [serialize_bytes]. now rewrite decode_serialize_byte, IH.
Qed.

Lemma before_first_app (sep : ascii) (a b : string) :
  lacks sep a = true -> before_first sep (a +:+ String sep b) = a.
Proof.
  unfold lacks. induction a as [|c a IH]; simpl.
  - now rewrite Ascii.eqb_refl.
  - rewrite andb_true_iff, negb_true_iff. intros [-> H]. now rewrite IH.
Qed.

Lemma after_first_app (sep : ascii) (a b : string) :
  lacks sep a = true -> after_first sep (a +:+ String sep b) = b.
Proof.
  unfold lacks. induction a as [|c a IH]; simpl.
  - now rewrite Ascii.eqb_refl.
  - rewrite andb_true_iff, negb_true_iff. intros [-> H]. now rewrite IH.
Qed.

Lemma before_first_lacks (sep : ascii) (a : string) :
  lacks sep a = true -> before_first sep a = a.
Proof.
  unfold lacks. induction a as [|c a IH]; simpl; [reflexivity |].
  rewrite andb_true_iff, negb_true_iff. intros [-> H]. now rewrite IH.
Qed.

Lemma split_on_lacks (sep : ascii) (a : string) :
  lacks sep a = true -> split_on sep a = [a].
Proof.
  unfold lacks. induction a as [|c a IH]; simpl; [reflexivity |].
  rewrite andb_true_iff, negb_true_iff. intros [-> H]. now rewrite IH.
Qed.

Lemma split_on_app (sep : ascii) (a b : string) :
  lacks sep a = true -> split_on sep (a +:+ String sep b) = a :: split_on sep b.
Proof.
  unfold lacks. induction a as [|c a IH]; simpl.
  - now rewrite Ascii.eqb_refl.
  - rewrite andb_true_iff, negb_true_iff. intros [-> H]. now rewrite IH.
Qed.

Lemma parse_piece (p : string * string) :
  truthy (serialize_pair p) = true /\
  decode_field (before_first "=" (serialize_pair p)) = fst p /\
  decode_field (after_first "=" (serialize_pair p)) = snd p.
Proof.
  destruct p as [n v]. unfold serialize_pair. cbn [fst snd].
  assert (Hn : lacks "=" (serialize_bytes n) = true)
    by (now apply field_char_lacks; [| apply serialize_bytes_chars]).
  split; [destruct (serialize_bytes n); reflexivity |].
  change ("=" +:+ serialize_bytes v) with (String "=" (serialize_bytes v)).
  now rewrite before_first_app, after_first_app, !decode_serialize.
Qed.

(** The form parser reads back what [toString] wrote. *)
Lemma parse_toString (ps : t) : parse (toString ps) = ps.
Proof.
  unfold parse. induction ps as [|p [|q ps] IH].
  - reflexivity.
  - cbn [toString]. rewrite split_on_lacks by apply serialize_pair_lacks_amp.
    cbn [flat_map]. destruct (parse_piece p) as (-> & -> & ->).
    now destruct p.
  - change (toString (p :: q :: ps))
      with (serialize_pair p +:+ String "&" (toString (q :: ps))).
    rewrite split_on_app by apply serialize_pair_lacks_amp.
    cbn [flat_map]. rewrite IH. destruct (parse_piece p) as (-> & -> & ->).
    now destruct p.
Qed.

Lemma trim_end_kept (s : string) : all_chars kept_char s = true -> URL.trim_end s = s.
Proof.
  induction s as [|c s IH]; simpl; [reflexivity |].
  rewrite andb_true_iff. intros [Hc Hs]. rewrite (IH Hs).
  unfold kept_char in Hc. rewrite andb_true_iff, negb_true_iff in Hc.
  destruct Hc as [-> _]. now destruct s.
Qed.

Lemma remove_tab_newline_kept (s : string) :
  all_chars kept_char s = true -> URL.remove_tab_newline s = s.
Proof.
  induction s as [|c s IH]; simpl; [reflexivity |].
  rewrite andb_true_iff. intros [Hc Hs]. rewrite (IH Hs).
  replace (URL.tab_or_newline c) with false; [reflexivity |].
  each_byte c; try reflexivity; discriminate.
Qed.

Lemma query_char_kept (c : ascii) : query_char c = true -> kept_char c = true.
Proof. each_byte c; try reflexivity; discriminate. Qed.

(** The query of the endpoint that [getOrders] builds is the text that
    [toString] wrote. *)
Lemma query_of_orders_endpoint (ps : t) :
  URL.query ("/orders?" +:+ toString ps) = toString ps.
Proof.
  assert (H : all_chars kept_char ("/orders?" +:+ toString ps) = true).
  { rewrite all_chars_app, andb_true_iff. split; [reflexivity |].
    eapply all_chars_weaken; [apply query_char_kept | apply toString_chars]. }
  unfold URL.query.
  replace (URL.trim_start ("/orders?" +:+ toString ps))
    with ("/orders?" +:+ toString ps) by reflexivity.
  rewrite trim_end_kept, remove_tab_newline_kept by assumption.
  rewrite before_first_lacks; [reflexivity |].
  revert H. apply all_chars_weaken. intros c Hc. unfold kept_char in Hc.
  now rewrite andb_true_iff in Hc.
Qed.

Lemma searchParams_of_orders_endpoint (ps : t) :
  URL.searchParams ("/orders?" +:+ toString ps) = ps.
Proof. unfold URL.searchParams. now rewrite query_of_orders_endpoint, parse_toString. Qed.

End QueryFacts.

(** ** The mock responder behind [getOrders] *)

Section MockOrders.

Variable P : Platform.
Context {settings : ApiSettings}.
Hypothesis mock_mode : useMock settings = true.

Lemma orders_params_get (page : Z) (search partner status : string) :
  let params := orders_params page search partner status in
  URLSearchParams.get params "page" = Some (Number_toString page) /\
  URLSearchParams.get params "search" = (if truthy search then Some search else None) /\
  URLSearchParams.get params "delivery_partner" = (if truthy partner then Some partner else None) /\
  URLSearchParams.get params "status" = (if truthy status then Some status else None).
Proof.
  unfold orders_params.
  destruct (truthy search), (truthy partner), (truthy status); repeat split; reflexivity.
Qed.

(** In mock mode [getOrders] resolves, after the delay, to the page cut out
    of the filtered list: the page that [parseInt] reads in the query. *)
Lemma getOrders_mock_served (page : Z) (search partner status : string) (w : World) :
  getOrders P settings page search partner status w =
  (let filtered := filteredOrders search partner status (MOCK_ORDERS w) in
   let start := num_mul (num_sub (served_page page) 1) 20 in
   Ok (Orders {| orders := slice filtered start (num_add start 20);
                 pagination :=
                   {| current_page := served_page page;
                      total_pages := nonzero_or (ceil_div (Z.of_nat (length filtered)) 20) 1;
                      total_items := Z.of_nat (length filtered) |} |}),
   delayed w).
Proof.
  unfold getOrders, request. rewrite mock_mode.
  fold (orders_params page search partner status).
  destruct (orders_params_get page search partner status) as (Hpage & Hsearch & Hpartner & Hstatus).
  set (params := orders_params page search partner status) in *.
  unfold bind at 1. cbn [sleep]. unfold mockResponse.
  change (String.eqb ("/orders?" +:+ URLSearchParams.toString params) "/app-config") with false.
  change (startsWith ("/orders?" +:+ URLSearchParams.toString params) "/orders") with true.
  cbv iota. rewrite searchParams_of_orders_endpoint.
  rewrite Hpage, Hsearch, Hpartner, Hstatus, !or_else_same.
  replace (or_else (Some (Number_toString page)) "1") with (Number_toString page)
    by (unfold or_else; now rewrite Number_toString_truthy).
  reflexivity.
Qed.

(** Below 10^21 that page is the page asked for. *)
Lemma getOrders_mock (page : Z) (search partner status : string) (w : World) :
  (Z.abs page < exponent_bound)%Z ->
  getOrders P settings page search partner status w =
  (let filtered := filteredOrders search partner status (MOCK_ORDERS w) in
   let start := ((page - 1) * 20)%Z in
   Ok (Orders {| orders := slice filtered (Num start) (Num (start + 20));
                 pagination :=
                   {| current_page := Num page;
                      total_pages := nonzero_or (ceil_div (Z.of_nat (length filtered)) 20) 1;
                      total_items := Z.of_nat (length filtered) |} |}),
   delayed w).
Proof.
  intros Hpage. rewrite getOrders_mock_served, served_page_plain by assumption. reflexivity.
Qed.

End MockOrders.

(** ** Pages *)

Section Pages.

Context {A : Type}.

(** A page never holds more than 20 items, whatever the bounds. *)
Lemma slice_length (l : list A) (start : number) :
  length (slice l start (num_add start 20)) <= 20.
Proof.
  unfold slice. rewrite length_firstn. apply Nat.le_trans with (1 := Nat.le_min_l _ _).
  destruct start as [z|]; cbn [num_add to_integer]; unfold clamp_index;
    repeat match goal with |- context [(?a <? ?b)%Z] => destruct (Z.ltb_spec a b) end; lia.
Qed.

(** From page 1 on, the page is the next 20 items after the earlier pages. *)
Lemma slice_page (l : list A) (p : Z) :
  (1 <= p)%Z ->
  slice l (Num ((p - 1) * 20)) (Num ((p - 1) * 20 + 20)) =
  firstn 20 (skipn (20 * Z.to_nat (p - 1)) l).
Proof.
  intros Hp. unfold slice, clamp_index; cbn [to_integer].
  destruct (Z.ltb_spec ((p - 1) * 20) 0); [lia |].
  destruct (Z.ltb_spec ((p - 1) * 20 + 20) 0); [lia |].
  destruct (Z.le_gt_cases (Z.of_nat (length l)) ((p - 1) * 20)) as [Hbig | Hsmall].
  - rewrite !skipn_all2 by lia. now rewrite !firstn_nil.
  - replace (Z.to_nat (Z.min ((p - 1) * 20) (Z.of_nat (length l))))
      with (20 * Z.to_nat (p - 1)) by lia.
    set (rest := skipn (20 * Z.to_nat (p - 1)) l).
    assert (Hrest : length rest = length l - 20 * Z.to_nat (p - 1))
      by (unfold rest; apply length_skipn).
    destruct (Nat.le_gt_cases 20 (length rest)) as [Hfull | Hshort].
    + f_equal. lia.
    + rewrite !firstn_all2 by lia. reflexivity.
Qed.

(** Cutting a list into consecutive pages and gluing them gives it back. *)
Lemma pages_concat (n : nat) (l : list A) :
  length l <= 20 * n ->
  concat (map (fun i => firstn 20 (skipn (20 * i) l)) (seq 0 n)) = l.
Proof.
  revert l; induction n as [|n IH]; intros l Hl.
  - destruct l; [reflexivity | simpl in Hl; lia].
  - cbn [seq map concat]. rewrite <- seq_shift, map_map.
    transitivity (firstn 20 l ++ skipn 20 l); [| apply firstn_skipn].
    f_equal.
    rewrite <- (IH (skipn 20 l)) by (rewrite length_skipn; lia).
    f_equal. apply map_ext. intros i. rewrite skipn_skipn. do 2 f_equal. lia.
Qed.

End Pages.

Lemma pages_for_ceil (count : nat) :
  pages_for (Z.of_nat count) (nonzero_or (ceil_div (Z.of_nat count) 20) 1).
Proof.
  unfold pages_for, nonzero_or, ceil_div.
  pose proof (Z.div_mod (- Z.of_nat count) 20 ltac:(lia)) as Hdiv.
  pose proof (Z.mod_pos_bound (- Z.of_nat count) 20 ltac:(lia)) as Hmod.
  destruct (Z.eqb_spec (- (- Z.of_nat count / 20)) 0); lia.
Qed.

Lemma pages_for_cover (count : nat) (n : Z) :
  pages_for (Z.of_nat count) n -> (1 <= n)%Z /\ count <= 20 * Z.to_nat n.
Proof. unfold pages_for. lia. Qed.

(** ** The filters *)

Section Filters.

Lemma filter_if_filter {A} (cond : bool) (f : A -> bool) (l : list A) :
  filter_if cond f l = List.filter (fun x => negb cond || f x) l.
Proof.
  destruct cond; simpl; [reflexivity |].
  induction l as [|x l IH]; simpl; [reflexivity | now f_equal].
Qed.

Lemma filter_filter {A} (f g : A -> bool) (l : list A) :
  List.filter g (List.filter f l) = List.filter (fun x => f x && g x) l.
Proof.
  induction l as [|x l IH]; simpl; [reflexivity |].
  destruct (f x); simpl; [destruct (g x); now rewrite IH | exact IH].
Qed.

(** The three filters, applied one after the other, keep the orders that pass
    all three tests: the filters are ANDed. *)
Lemma filteredOrders_filter (search partner status : string) (w : World) :
  filteredOrders search partner status (MOCK_ORDERS w) = filtered_set search partner status w.
Proof.
  unfold filteredOrders, filtered_set.
  rewrite !filter_if_filter, !filter_filter, toLowerCase_truthy.
  apply filter_ext. intros o. unfold passes. now rewrite andb_assoc.
Qed.

Lemma eqb_string_eq (a b : string) : String.eqb a b = true <-> a = b.
Proof. apply String.eqb_eq. Qed.

End Filters.

(** ** The generated orders *)

Section MockData.

(** A whole number of at most 53 bits is not rounded. *)
Lemma round53_small (m : N) : (m < 2 ^ 53)%N -> round53 m = m.
Proof.
  intros Hm. unfold round53.
  assert (Hlog : (N.log2 m - 52 = 0)%N).
  { destruct (N.eq_dec m 0%N) as [-> | Hpos]; [reflexivity |].
    assert (N.log2 m < 53)%N by (apply N.log2_lt_pow2; [lia | assumption]). lia. }
  rewrite Hlog. change (2 ^ 0)%N with 1%N.
  rewrite N.div_1_r, N.mod_1_r. change (2 * 0 <? 1)%N with true. cbv iota. lia.
Qed.

(** Rounding moves a whole number by half a unit of its last bit at most. *)
Lemma round53_large (m : N) :
  (2 ^ 53 <= m)%N ->
  exists unit, (unit * 2 ^ 52 <= m /\ 2 * round53 m <= 2 * m + unit)%N.
Proof.
  intros Hm. exists (2 ^ (N.log2 m - 52))%N.
  assert (Hpos : (0 < m)%N) by (change (2 ^ 53)%N with 9007199254740992%N in Hm; lia).
  assert (Hlog : (53 <= N.log2 m)%N) by (apply N.log2_le_pow2; assumption).
  split.
  - rewrite <- N.pow_add_r. replace (N.log2 m - 52 + 52)%N with (N.log2 m) by lia.
    now apply N.log2_spec.
  - unfold round53. set (unit := (2 ^ (N.log2 m - 52))%N).
    assert (Hunit : unit <> 0%N) by (apply N.pow_nonzero; discriminate).
    pose proof (N.div_mod m unit Hunit) as Hdiv.
    pose proof (N.mod_lt m unit Hunit) as Hmod.
    set (q := (m / unit)%N) in *. set (r := (m mod unit)%N) in *.
    destruct (N.ltb_spec (2 * r) unit); [nia |].
    destruct (N.eqb_spec (2 * r) unit); [destruct (N.even q) |]; nia.
Qed.

(** The floor of the rounded product is below [n], as the floor of the exact
    product is. *)
Lemma floor_times_lt (x : sample) (n : N) : (0 < n)%N -> (floor_times x n < n)%N.
Proof.
  intros Hn. unfold floor_times. apply N.Div0.div_lt_upper_bound.
  assert (Hx : (mantissa x < 2 ^ 53)%N) by (apply N.mod_lt; discriminate).
  rewrite N.pow_add_r.
  assert (He : (1 <= 2 ^ snd x)%N).
  { assert ((2 ^ snd x)%N <> 0%N) by (apply N.pow_nonzero; discriminate). lia. }
  set (m := (mantissa x * n)%N).
  assert (Hm : (m <= (2 ^ 53 - 1) * n)%N) by (apply N.mul_le_mono_r; lia).
  assert (Hgoal : (round53 m < 2 ^ 53 * n)%N).
  { destruct (N.lt_ge_cases m (2 ^ 53)) as [Hsmall | Hlarge].
    - rewrite round53_small by assumption.
      change (2 ^ 53)%N with 9007199254740992%N in *. nia.
    - destruct (round53_large m Hlarge) as (unit & Hunit & Hround).
      change (2 ^ 53 - 1)%N with 9007199254740991%N in Hm.
      change (2 ^ 53)%N with 9007199254740992%N.
      change (2 ^ 52)%N with 4503599627370496%N in Hunit. lia. }
  change (2 ^ 53)%N with 9007199254740992%N in *. nia.
Qed.

Lemma at_index_In (l : list string) (x : sample) :
  l <> [] -> In (at_index l (floor_times x (N.of_nat (length l)))) l.
Proof.
  intros Hl. unfold at_index. apply nth_In.
  pose proof (floor_times_lt x (N.of_nat (length l))) as H.
  destruct l; [congruence | simpl length in *; lia].
Qed.

Lemma Array_from_Forall {A} (Q : A -> Prop) (f : nat -> Rand A) :
  (forall i tape k, Q (fst (f i tape k))) ->
  forall count i tape k, Forall Q (fst (Array_from f i count tape k)).
Proof.
  intros Hf. induction count as [|count IH]; intros i tape k; cbn [Array_from].
  - constructor.
  - unfold rand_bind. specialize (Hf i tape k).
    destruct (f i tape k) as [x k1]. specialize (IH (S i) tape k1).
    destruct (Array_from f (S i) count tape k1) as [rest k2].
    now constructor.
Qed.

Lemma Array_from_length {A} (f : nat -> Rand A) (count i : nat) tape k :
  length (fst (Array_from f i count tape k)) = count.
Proof.
  revert i k; induction count as [|count IH]; intros i k; cbn [Array_from].
  - reflexivity.
  - unfold rand_bind. destruct (f i tape k) as [x k1]. specialize (IH (S i) k1).
    destruct (Array_from f (S i) count tape k1) as [rest k2].
    simpl in *. now rewrite IH.
Qed.

Lemma repeat_char_digits (n : nat) : all_chars is_digit (repeat_char "0" n) = true.
Proof. induction n; simpl; [reflexivity | assumption]. Qed.

Lemma mockOrder_well_formed (i : nat) tape k : well_formed (fst (mockOrder i tape k)).
Proof.
  unfold mockOrder, rand_bind, Math_random, rand_ret, well_formed.
  cbn [fst delivery_partner latest_status phone]. repeat split.
  - apply at_index_In. discriminate.
  - apply at_index_In. discriminate.
  - change ("017" +:+ ?s) with (String "0" (String "1" (String "7" s))).
    cbn [all_chars]. unfold padStart0.
    rewrite all_chars_app, repeat_char_digits, toString_digits by lia. reflexivity.
Qed.

Lemma MOCK_ORDERS_module_load tape :
  MOCK_ORDERS (module_load tape) = fst (generateMockOrders 45 tape 0).
Proof. reflexivity. Qed.

Lemma mock_data_well_formed (w : World) :
  mock_data w -> Forall well_formed (MOCK_ORDERS w).
Proof.
  intros [tape ->]. rewrite MOCK_ORDERS_module_load.
  apply Array_from_Forall. apply mockOrder_well_formed.
Qed.

Lemma module_load_mock_data tape : mock_data (module_load tape).
Proof. now exists tape. Qed.

Lemma mock_data_length (w : World) : mock_data w -> length (MOCK_ORDERS w) = 45.
Proof.
  intros [tape ->]. rewrite MOCK_ORDERS_module_load. apply Array_from_length.
Qed.

Lemma lower_digit (c : ascii) : is_digit c = true -> lower_char c = c.
Proof. each_byte c; try reflexivity; discriminate. Qed.

Lemma toLowerCase_digits (s : string) : all_chars is_digit s = true -> toLowerCase s = s.
Proof.
  induction s as [|c s IH]; simpl; [reflexivity |].
  rewrite andb_true_iff. intros [Hc Hs]. now rewrite lower_digit, IH.
Qed.

(** The test of the search filter on an arbitrary order: the lowercased
    search string is looked up in the lowercased name, in the phone as it is,
    and in the lowercased tracking code. *)
Lemma search_filter_true (search : string) (o : Order) :
  search_filter (toLowerCase search) o = true <->
  occurs_ignoring_case search (buyer_name o) \/
  includes (phone o) (toLowerCase search) = true \/
  occurs_ignoring_case search (tracking_code o).
Proof.
  unfold search_filter. rewrite !orb_true_iff, !includes_lowercase. tauto.
Qed.

(** On an order whose phone is made of digits, as the generated ones are, this
    is the search of the specification. *)
Lemma search_filter_matches (search : string) (o : Order) :
  all_chars is_digit (phone o) = true ->
  search_filter (toLowerCase search) o = true <-> search_matches search o.
Proof.
  intros Hphone. rewrite search_filter_true. unfold search_matches.
  rewrite <- (includes_lowercase (phone o)), (toLowerCase_digits _ Hphone). tauto.
Qed.

Lemma passes_matches (search partner status : string) (o : Order) :
  all_chars is_digit (phone o) = true ->
  passes search partner status o = true <-> matches_filters search partner status o.
Proof.
  intros Hphone. unfold passes, matches_filters, partner_filter, status_filter.
  rewrite !andb_true_iff, !orb_true_iff, !negb_true_iff, !truthy_false.
  rewrite (search_filter_matches search o Hphone), !eqb_string_eq.
  destruct (string_dec search ""), (string_dec partner ""), (string_dec status ""); tauto.
Qed.

End MockData.

(** ** The three ways of [request] *)

Section Request.

Context {P : Platform} {settings : ApiSettings}.

(** Mock mode: the delay, then the mock responder. *)
Lemma request_mock endpoint options requireAuth (w : World) :
  useMock settings = true ->
  request P settings endpoint options requireAuth w =
  mockResponse P endpoint options (delayed w).
Proof. intros H. unfold request. now rewrite H. Qed.

(** No usable base URL: the configuration error, and the world is as it
    was. *)
Lemma request_unconfigured endpoint options requireAuth (w : World) :
  useMock settings = false -> unconfigured settings ->
  request P settings endpoint options requireAuth w = (Throw configuration_error, w).
Proof.
  intros Hmock Hurl. unfold request, unconfigured in *. rewrite Hmock.
  destruct (baseUrl settings) as [b|]; [| reflexivity].
  destruct Hurl as [-> | ->]; [reflexivity |]. now rewrite orb_true_r.
Qed.

(** A usable base URL: one [fetch], whose outcome decides the result. *)
Lemma request_real endpoint options requireAuth (w : World) (b : string) :
  useMock settings = false -> baseUrl settings = Some b ->
  b <> "" -> includes b placeholder_host = false ->
  let url := strip_trailing_slash b +:+ endpoint in
  let init := fetch_options settings options requireAuth in
  snd (request P settings endpoint options requireAuth w) = logged url init w /\
  (forall response, fetch P url init = Ok response ->
     fst (request P settings endpoint options requireAuth w) =
     if ok response then json response
     else if (status response =? 401)%Z then Throw auth_error
     else if (status response =? 404)%Z then Throw not_found_error
     else Throw (api_error (status response) (statusText response))) /\
  (forall e, fetch P url init = Throw e ->
     fst (request P settings endpoint options requireAuth w) =
     if String.eqb (name e) "TypeError" && String.eqb (message e) "Failed to fetch"
     then if String.eqb (location_protocol P) "https:" && startsWith url "http:"
          then Throw protocol_mismatch_error
          else Throw request_blocked_error
     else Throw e).
Proof.
  intros Hmock Hbase Hb Hph url init.
  unfold request. rewrite Hmock, Hbase, Hph.
  apply truthy_true in Hb. rewrite Hb. cbn [negb orb].
  fold url init. unfold bind, try_catch, await_fetch, on_error, settle, throw, ret.
  fold (logged url init w).
  destruct (fetch P url init) as [response | e]; (split; [| split]);
    try (intros ? [= <-]); try discriminate.
  - destruct (ok response); [reflexivity |]. cbn [negb].
    destruct (status response =? 401)%Z; [reflexivity |].
    destruct (status response =? 404)%Z; reflexivity.
  - destruct (ok response); [reflexivity |]. cbn [negb].
    destruct (status response =? 401)%Z; [reflexivity |].
    destruct (status response =? 404)%Z; reflexivity.
  - destruct (String.eqb (name e) "TypeError" && String.eqb (message e) "Failed to fetch");
      [| reflexivity].
    destruct (String.eqb (location_protocol P) "https:" && startsWith url "http:");
      reflexivity.
  - destruct (String.eqb (name e) "TypeError" && String.eqb (message e) "Failed to fetch");
      [| reflexivity].
    destruct (String.eqb (location_protocol P) "https:" && startsWith url "http:");
      reflexivity.
Qed.

(** A base URL that is the placeholder host, or holds it anywhere, is not
    usable. *)
Lemma placeholder_unconfigured (pre post : string) :
  baseUrl settings = Some (pre +:+ placeholder_host +:+ post) -> unconfigured settings.
Proof.
  intros H. unfold unconfigured. rewrite H. right.
  apply includes_spec. now exists pre, post.
Qed.

(** The settings are of exactly one of the three kinds. *)
Lemma settings_cases :
  useMock settings = true \/
  (useMock settings = false /\ unconfigured settings) \/
  (useMock settings = false /\
   exists b, baseUrl settings = Some b /\ b <> "" /\ includes b placeholder_host = false).
Proof.
  unfold unconfigured. destruct (useMock settings); [now left | right].
  destruct (baseUrl settings) as [b|]; [| now left].
  destruct (string_dec b "") as [-> | Hb]; [left; auto |].
  destruct (includes b placeholder_host) eqn:Hph; [left; auto |].
  right. split; [reflexivity |]. now exists b.
Qed.

(** The mock responder issues no [fetch] and leaves the mock orders and the
    timers alone. *)
Lemma mockResponse_frame endpoint options (w : World) :
  let w' := snd (mockResponse P endpoint options w) in
  MOCK_ORDERS w' = MOCK_ORDERS w /\ fetch_log w' = fetch_log w /\ timers w' = timers w.
Proof.
  unfold mockResponse.
  destruct (String.eqb endpoint "/app-config"); [now cbn |].
  destruct (startsWith endpoint "/orders"); [now cbn |].
  destruct (String.eqb endpoint "/add-order"); [now cbn |].
  destruct (String.eqb endpoint "/update-status" || String.eqb endpoint "/update-details");
    now cbn.
Qed.

(** No call ever changes the mock orders. *)
Lemma request_keeps_orders endpoint options requireAuth (w : World) :
  MOCK_ORDERS (snd (request P settings endpoint options requireAuth w)) = MOCK_ORDERS w.
Proof.
  destruct settings_cases as [Hmock | [[Hmock Hurl] | [Hmock (b & Hbase & Hb & Hph)]]].
  - rewrite request_mock by assumption.
    now destruct (mockResponse_frame endpoint options (delayed w)) as (-> & _).
  - now rewrite request_unconfigured.
  - now destruct (request_real endpoint options requireAuth w b Hmock Hbase Hb Hph) as (-> & _).
Qed.

(** A call logs at most one [fetch]; it logs one exactly when it is not in
    mock mode and has a usable base URL. *)
Lemma request_log endpoint options requireAuth (w : World) :
  fetch_log (snd (request P settings endpoint options requireAuth w)) = fetch_log w \/
  exists b, useMock settings = false /\ baseUrl settings = Some b /\
            b <> "" /\ includes b placeholder_host = false.
Proof.
  destruct settings_cases as [Hmock | [[Hmock Hurl] | [Hmock (b & Hbase & Hb & Hph)]]].
  - left. rewrite request_mock by assumption.
    now destruct (mockResponse_frame endpoint options (delayed w)) as (_ & -> & _).
  - left. now rewrite request_unconfigured.
  - right. now exists b.
Qed.

End Request.

(** ** Pages of the filtered set *)

Section MockPages.

Variable P : Platform.
Context {settings : ApiSettings}.
Hypothesis mock_mode : useMock settings = true.

Lemma In_firstn_skipn {A} (x : A) (n m : nat) (l : list A) :
  In x (firstn n (skipn m l)) -> In x l.
Proof.
  intros H. rewrite <- (firstn_skipn m l). apply in_or_app. right.
  rewrite <- (firstn_skipn n (skipn m l)). apply in_or_app. now left.
Qed.

Lemma In_slice {A} (x : A) (l : list A) (a b : number) : In x (slice l a b) -> In x l.
Proof. apply In_firstn_skipn. Qed.

(** The filtered set is no longer than the mock order list, which is an
    array. *)
Lemma filtered_set_fits (search partner status : string) (w : World) :
  (Z.of_nat (length (filtered_set search partner status w)) < 4294967296)%Z.
Proof.
  pose proof (MOCK_ORDERS_fits w) as H. apply Z.ltb_lt in H.
  unfold filtered_set.
  assert (Hle : forall l, length (List.filter (passes search partner status) l) <= length l).
  { induction l as [|o l IH]; cbn [List.filter]; [lia |].
    destruct (passes search partner status o); cbn [length]; lia. }
  specialize (Hle (MOCK_ORDERS w)). lia.
Qed.

(** The response of [getOrders] in mock mode, over the filtered set: the page
    is the one that [parseInt] reads in the query. *)
Lemma getOrders_response_served (page : Z) (search partner status : string) (w : World) :
  let filtered := filtered_set search partner status w in
  let start := num_mul (num_sub (served_page page) 1) 20 in
  exists r,
    getOrders P settings page search partner status w = (Ok (Orders r), delayed w) /\
    orders r = slice filtered start (num_add start 20) /\
    current_page (pagination r) = served_page page /\
    total_pages (pagination r) = nonzero_or (ceil_div (Z.of_nat (length filtered)) 20) 1 /\
    total_items (pagination r) = Z.of_nat (length filtered).
Proof.
  rewrite (getOrders_mock_served P mock_mode), filteredOrders_filter.
  eexists. split; [reflexivity |]. cbn. auto.
Qed.

(** Below 10^21 it is the page asked for. *)
Lemma getOrders_response (page : Z) (search partner status : string) (w : World) :
  (Z.abs page < exponent_bound)%Z ->
  let filtered := filtered_set search partner status w in
  exists r,
    fst (getOrders P settings page search partner status w) = Ok (Orders r) /\
    orders r = slice filtered (Num ((page - 1) * 20)) (Num ((page - 1) * 20 + 20)) /\
    current_page (pagination r) = Num page /\
    total_pages (pagination r) = nonzero_or (ceil_div (Z.of_nat (length filtered)) 20) 1 /\
    total_items (pagination r) = Z.of_nat (length filtered).
Proof.
  intros Hpage. rewrite (getOrders_mock P mock_mode) by assumption.
  rewrite filteredOrders_filter.
  cbn [fst]. eexists. split; [reflexivity |]. cbn. auto.
Qed.

(** The responses for the pages 1 to [n], when [n] pages hold the filtered
    set: their orders, glued in page order, are the filtered set. *)
Lemma getOrders_all_pages (search partner status : string) (w : World) (n : Z) :
  let filtered := filtered_set search partner status w in
  pages_for (Z.of_nat (length filtered)) n ->
  exists rs,
    Forall2 (fun page r =>
               fst (getOrders P settings page search partner status w) = Ok (Orders r))
            (page_numbers n) rs /\
    concat (map orders rs) = filtered.
Proof.
  intros filtered Hn.
  assert (Hsmall : (n <= 4294967296)%Z).
  { pose proof (filtered_set_fits search partner status w) as Hfits.
    fold filtered in Hfits. unfold pages_for in Hn. lia. }
  apply pages_for_cover in Hn as [_ Hcover].
  unfold page_numbers.
  assert (Hm : Z.to_nat n <= Z.to_nat 4294967296) by lia.
  revert Hcover Hm. generalize (Z.to_nat n) as m. intros m Hcover Hm.
  rewrite <- (pages_concat m filtered Hcover).
  rewrite <- seq_shift, map_map.
  assert (Hseq : Forall (fun i => i < m) (seq 0 m)).
  { apply List.Forall_forall. intros i Hi. apply in_seq in Hi. lia. }
  induction Hseq as [|i l Hi _ IH].
  - exists []. split; [constructor | reflexivity].
  - destruct IH as (rs & Hrs & Hcat).
    destruct (getOrders_response (Z.of_nat (S i)) search partner status w)
      as (r & Hr & Horders & _); [unfold exponent_bound; lia |].
    exists (r :: rs). split; [now constructor |].
    cbn [map concat]. rewrite Hcat. f_equal.
    fold filtered in Horders. rewrite Horders, slice_page by lia.
    do 3 f_equal. lia.
Qed.

(** An order of the filtered set is on one of the pages. *)
Lemma filtered_on_some_page (search partner status : string) (w : World) (o : Order) :
  In o (filtered_set search partner status w) ->
  exists page r,
    fst (getOrders P settings page search partner status w) = Ok (Orders r) /\
    In o (orders r).
Proof.
  intros Ho.
  destruct (getOrders_all_pages search partner status w _ (pages_for_ceil _))
    as (rs & Hrs & Hcat).
  rewrite <- Hcat in Ho. apply in_concat in Ho as (page_orders & Hin & Ho).
  apply in_map_iff in Hin as (r & <- & Hr).
  clear Hcat. induction Hrs as [|page r' pages rs' Hhead Htail IH]; [destruct Hr |].
  destruct Hr as [-> | Hr]; [now exists page, r | now apply IH].
Qed.

(** An order on a page is in the filtered set. *)
Lemma page_in_filtered (page : Z) (search partner status : string) (w : World) r (o : Order) :
  fst (getOrders P settings page search partner status w) = Ok (Orders r) ->
  In o (orders r) -> In o (filtered_set search partner status w).
Proof.
  destruct (getOrders_response_served page search partner status w)
    as (r' & Hr' & Horders & _).
  rewrite Hr'. intros [= <-]. rewrite Horders. apply In_slice.
Qed.

End MockPages.

(** ** Worked examples *)

Section Examples.

Example parseInt_examples :
  parseInt "12" = Num 12 /\ parseInt "  -7px" = Num (-7) /\ parseInt "0x1F" = Num 31 /\
  parseInt "1e+21" = Num 1 /\ parseInt "" = NaN /\ parseInt "NaN" = NaN.
Proof. repeat split; reflexivity. Qed.

(** A no-break space (U+00A0, the bytes C2 A0) before the digits is skipped. *)
Example parseInt_after_no_break_space :
  parseInt (String "194" (String "160" "7")) = Num 7 /\
  parseInt (String "194" "7") = NaN.
Proof. split; reflexivity. Qed.

Example Number_toString_examples :
  Number_toString 45 = "45" /\
  Number_toString (-7) = "-7" /\
  Number_toString (10 ^ 21 - 1) = "999999999999999999999" /\
  Number_toString (10 ^ 21) = "1e+21" /\
  Number_toString (- (15 * 10 ^ 20)) = "-1.5e+21" /\
  Number_toString (123456 * 10 ^ 20) = "1.23456e+25".
Proof. repeat split; vm_compute; reflexivity. Qed.

(** From 10^21 on the page served is not the page asked for. *)
Example served_page_examples :
  served_page 3 = Num 3 /\ served_page (10 ^ 21) = Num 1 /\
  served_page (- (15 * 10 ^ 20)) = Num (-1).
Proof. repeat split; vm_compute; reflexivity. Qed.

Example same_letter_examples :
  same_letter "A" "a" /\ same_letter "z" "Z" /\ same_letter "-" "-" /\
  ~ same_letter "a" "b" /\ ~ same_letter "@" "`" /\ ~ same_letter "1" "Q".
Proof.
  repeat split;
    first [ apply lower_char_same_letter; reflexivity
          | intros H; apply lower_char_same_letter in H; discriminate H ].
Qed.

Example equal_ignoring_case_examples :
  equal_ignoring_case "sT-801" "St-801" /\
  ~ equal_ignoring_case "ST-801" "ST-810" /\
  ~ equal_ignoring_case "ST-801" "ST-8010".
Proof.
  repeat split;
    [ apply toLowerCase_equal_ignoring_case; reflexivity
    | intros H; apply toLowerCase_equal_ignoring_case in H; discriminate H
    | intros H; apply toLowerCase_equal_ignoring_case in H; discriminate H ].
Qed.

(** [0.6 * 20] is 12: the sample is the number nearest to 0.6, a little
    below it, and the product is rounded to 12. *)
Example floor_times_examples :
  floor_times (5404319552844595, 0)%N 20 = 12%N /\
  ((5404319552844595 * 20) / 2 ^ 53 = 11)%N /\
  floor_times (2 ^ 53 - 1, 0)%N 10000 = 9999%N /\
  floor_times (2 ^ 52, 0)%N 5 = 2%N /\
  floor_times (1, 1021)%N 10000 = 0%N /\
  above_half (2 ^ 52, 0)%N = false /\
  above_half (2 ^ 52 + 1, 0)%N = true /\
  above_half (2 ^ 53 - 1, 1)%N = false.
Proof. repeat split; vm_compute; reflexivity. Qed.

Example slice_examples :
  slice [1; 2; 3; 4; 5] (Num 1) (Num 3) = [2; 3] /\
  slice [1; 2; 3; 4; 5] (Num (-2)) (Num 10) = [4; 5] /\
  slice [1; 2; 3; 4; 5] (Num 20) (Num 40) = [] /\
  slice [1; 2; 3; 4; 5] NaN NaN = [].
Proof. repeat split; reflexivity. Qed.

Example toString_of_params :
  URLSearchParams.toString (orders_params 2 "a b&c" "RedX" "")
  = "page=2&search=a+b%26c&delivery_partner=RedX".
Proof. reflexivity. Qed.

Example searchParams_examples :
  URL.searchParams "/orders?page=2&search=a+b%26c&delivery_partner=RedX"
  = [("page", "2"); ("search", "a b&c"); ("delivery_partner", "RedX")] /\
  URL.searchParams "/orders" = [].
Proof. split; reflexivity. Qed.

Example first_generated_order :
  nth_error (MOCK_ORDERS (module_load sample_tape)) 0 =
  Some {| id := 1; tracking_code := "ST-8000"; buyer_name := "Customer 1";
          phone := "01700000000"; address := "House 1, Road 0, Dhaka";
          police_station := "Banani"; amount := "1965 BDT"; rider_name := "";
          rider_phone := ""; estimated_delivery := "2025-12-10";
          delivery_partner := "Paperfly"; latest_status := "Picked";
          last_update := "2025-12-07 10:30:00" |}.
Proof. vm_compute. reflexivity. Qed.

(** The example of the specification: [getOrders(2, "", "RedX", "Delivered")]. *)
Example getOrders_page_2_RedX_Delivered :
  page_summary (getOrders (answering unauthorized) mock_settings 2 "" "RedX" "Delivered"
                  (module_load sample_tape))
  = Some ([], {| current_page := Num 2; total_pages := 1; total_items := 1 |}).
Proof. vm_compute. reflexivity. Qed.

Example getOrders_last_page :
  page_summary (getOrders (answering unauthorized) mock_settings 3 "" "" ""
                  (module_load sample_tape))
  = Some ([41; 42; 43; 44; 45]%Z,
          {| current_page := Num 3; total_pages := 3; total_items := 45 |}).
Proof. vm_compute. reflexivity. Qed.

Example getOrders_search_ignores_case :
  page_summary (getOrders (answering unauthorized) mock_settings 1 "CUSTOMER 4" "" ""
                  (module_load sample_tape))
  = Some ([4; 40; 41; 42; 43; 44; 45]%Z,
          {| current_page := Num 1; total_pages := 1; total_items := 7 |}).
Proof. vm_compute. reflexivity. Qed.

Example getOrders_partner_is_case_sensitive :
  page_summary (getOrders (answering unauthorized) mock_settings 1 "" "redx" ""
                  (module_load sample_tape))
  = Some ([], {| current_page := Num 1; total_pages := 1; total_items := 0 |}).
Proof. vm_compute. reflexivity. Qed.

(** The phone is compared as it is with the lowercased search string: on a
    phone that holds capital letters the test looks for their lowercase
    forms in vain.  No generated phone holds a letter. *)
Example search_filter_on_lettered_phone :
  search_filter (toLowerCase "FLOWERS") lettered_phone = false /\
  search_filter (toLowerCase "0800") lettered_phone = true.
Proof. split; reflexivity. Qed.

Example addOrder_in_mock_mode :
  fst (run (answering unauthorized) mock_settings sample_stringify sample_addOrder
         (module_load sample_tape))
  = Ok (Created true "Order created successfully (Mock)" "MOCK-396" 7623).
Proof. vm_compute. reflexivity. Qed.

End Examples.

(** * The claims *)

(** C1. In mock mode, for every combination of search, partner and status:
    [getOrders] resolves to a page of orders for every page number, and the
    orders that it returns on its pages are exactly the mock orders that
    match every filter that was supplied, all at once: the search string
    when one is given, the partner by equality of strings with
    [delivery_partner], and the status by equality of strings with
    [latest_status].  No other order is returned, and no such order is left
    out. *)
Theorem getOrders_returns_matching_orders
    (P : Platform) (settings : ApiSettings)
    (search partner status : string) (w : World) :
  useMock settings = true ->
  mock_data w ->
  (forall page, exists r,
     fst (getOrders P settings page search partner status w) = Ok (Orders r)) /\
  (forall o,
     (exists page r,
        fst (getOrders P settings page search partner status w) = Ok (Orders r) /\
        In o (orders r))
     <->
     In o (MOCK_ORDERS w) /\
     (search <> "" -> search_matches search o) /\
     (partner <> "" -> delivery_partner o = partner) /\
     (status <> "" -> latest_status o = status)).
Proof.
  intros Hmock Hdata.
  pose proof (mock_data_well_formed w Hdata) as Hwf. rewrite List.Forall_forall in Hwf.
  split.
  - intros page.
    destruct (getOrders_response_served P Hmock page search partner status w) as (r & Hr & _).
    exists r. now rewrite Hr.
  - intros o. split.
    + intros (page & r & Hr & Ho).
      apply (page_in_filtered P Hmock _ _ _ _ _ _ _ Hr) in Ho.
      apply filter_In in Ho as [Hin Hpass]. split; [exact Hin |].
      apply passes_matches; [| exact Hpass].
      now destruct (Hwf o Hin) as (_ & _ & Hphone).
    + intros (Hin & Hmatch). apply (filtered_on_some_page P Hmock).
      apply filter_In. split; [exact Hin |].
      destruct (Hwf o Hin) as (_ & _ & Hphone).
      now apply (passes_matches _ _ _ _ Hphone).
Qed.

Lemma getOrders_returns_matching_orders_witness :
  useMock mock_settings = true /\
  mock_data (module_load sample_tape) /\
  ((forall page, exists r,
      fst (getOrders (answering unauthorized) mock_settings page
             "CUSTOMER 1" "RedX" "Out for Delivery" (module_load sample_tape))
      = Ok (Orders r)) /\
   (forall o,
      (exists page r,
         fst (getOrders (answering unauthorized) mock_settings page
                "CUSTOMER 1" "RedX" "Out for Delivery" (module_load sample_tape))
         = Ok (Orders r) /\
         In o (orders r))
      <->
      In o (MOCK_ORDERS (module_load sample_tape)) /\
      ("CUSTOMER 1" <> "" -> search_matches "CUSTOMER 1" o) /\
      ("RedX" <> "" -> delivery_partner o = "RedX") /\
      ("Out for Delivery" <> "" -> latest_status o = "Out for Delivery"))) /\
  page_summary (getOrders (answering unauthorized) mock_settings 1
                  "CUSTOMER 1" "RedX" "Out for Delivery" (module_load sample_tape))
  = Some ([12; 14]%Z, {| current_page := Num 1; total_pages := 1; total_items := 2 |}).
Proof.
  split; [reflexivity |]. split; [exists sample_tape; reflexivity |].
  split; [| vm_compute; reflexivity].
  apply (getOrders_returns_matching_orders (answering unauthorized) mock_settings
           "CUSTOMER 1" "RedX" "Out for Delivery" (module_load sample_tape)).
  - reflexivity.
  - exists sample_tape. reflexivity.
Defined.

(** C2. In mock mode, for every query: every page reports as [total_items]
    the size of the filtered set, as [total_pages] the least number of pages
    of 20 that hold the filtered set (1 when it is empty), and holds at most
    20 orders; and the orders of the pages 1 to [total_pages], glued in page
    order, are the filtered set, each order once and none left out. *)
Theorem pagination_covers_filtered_set
    (P : Platform) (settings : ApiSettings)
    (search partner status : string) (w : World) :
  useMock settings = true ->
  let filtered := filtered_set search partner status w in
  (forall page, exists r,
     fst (getOrders P settings page search partner status w) = Ok (Orders r) /\
     total_items (pagination r) = Z.of_nat (length filtered) /\
     pages_for (Z.of_nat (length filtered)) (total_pages (pagination r)) /\
     length (orders r) <= 20) /\
  (exists n rs,
     pages_for (Z.of_nat (length filtered)) n /\
     Forall2 (fun page r =>
                fst (getOrders P settings page search partner status w) = Ok (Orders r) /\
                total_pages (pagination r) = n)
             (page_numbers n) rs /\
     concat (map orders rs) = filtered).
Proof.
  intros Hmock filtered. split.
  - intros page.
    destruct (getOrders_response_served P Hmock page search partner status w)
      as (r & Hr & Horders & _ & Hpages & Hitems).
    exists r. fold filtered in Horders, Hpages, Hitems.
    split; [now rewrite Hr |]. split; [exact Hitems |].
    split; [rewrite Hpages; apply pages_for_ceil |].
    rewrite Horders. apply slice_length.
  - exists (nonzero_or (ceil_div (Z.of_nat (length filtered)) 20) 1).
    destruct (getOrders_all_pages P Hmock search partner status w _ (pages_for_ceil _))
      as (rs & Hrs & Hcat).
    exists rs. split; [apply pages_for_ceil |]. split; [| exact Hcat].
    eapply Forall2_impl; [exact Hrs |].
    intros page r Hhead. cbv beta in Hhead. split; [exact Hhead |].
    destruct (getOrders_response_served P Hmock page search partner status w)
      as (r' & Hr' & _ & _ & Hpages & _).
    rewrite Hr' in Hhead. now injection Hhead as <-.
Qed.

Lemma pagination_covers_filtered_set_witness :
  useMock mock_settings = true /\
  let filtered := filtered_set "" "Pathao" "" (module_load sample_tape) in
  (forall page, exists r,
     fst (getOrders (answering unauthorized) mock_settings page "" "Pathao" ""
            (module_load sample_tape)) = Ok (Orders r) /\
     total_items (pagination r) = Z.of_nat (length filtered) /\
     pages_for (Z.of_nat (length filtered)) (total_pages (pagination r)) /\
     length (orders r) <= 20) /\
  (exists n rs,
     pages_for (Z.of_nat (length filtered)) n /\
     Forall2 (fun page r =>
                fst (getOrders (answering unauthorized) mock_settings page "" "Pathao" ""
                       (module_load sample_tape)) = Ok (Orders r) /\
                total_pages (pagination r) = n)
             (page_numbers n) rs /\
     concat (map orders rs) = filtered).
Proof.
  split; [reflexivity |].
  apply (pagination_covers_filtered_set (answering unauthorized) mock_settings
           "" "Pathao" "" (module_load sample_tape)).
  reflexivity.
Defined.

Lemma occurs_ignoring_case_empty (hay : string) : occurs_ignoring_case "" hay.
Proof. exists "", "", hay. split; [reflexivity | constructor]. Qed.

(** C3. In mock mode, for every search string and every mock order: the
    search filter keeps the order if and only if the search string occurs,
    letter case ignored, as a substring of the buyer name, of the phone or of
    the tracking code; and these are the orders that a search by that string
    returns on its pages. *)
Theorem search_is_case_insensitive_substring
    (P : Platform) (settings : ApiSettings) (search : string) (w : World) (o : Order) :
  useMock settings = true ->
  mock_data w ->
  In o (MOCK_ORDERS w) ->
  (search_filter (toLowerCase search) o = true <-> search_matches search o) /\
  ((exists page r,
      fst (getOrders P settings page search "" "" w) = Ok (Orders r) /\ In o (orders r))
   <-> search_matches search o).
Proof.
  intros Hmock Hdata Hin.
  pose proof (mock_data_well_formed w Hdata) as Hwf.
  rewrite List.Forall_forall in Hwf. destruct (Hwf o Hin) as (_ & _ & Hphone).
  split; [now apply search_filter_matches |]. split.
  - intros (page & r & Hr & Ho).
    apply (page_in_filtered P Hmock _ _ _ _ _ _ _ Hr) in Ho.
    apply filter_In in Ho as [_ Hpass].
    apply (passes_matches _ _ _ _ Hphone) in Hpass as (Hsearch & _).
    destruct (string_dec search "") as [-> | Hne]; [| now apply Hsearch].
    left. apply occurs_ignoring_case_empty.
  - intros Hmatch. apply (filtered_on_some_page P Hmock).
    apply filter_In. split; [exact Hin |].
    apply (passes_matches _ _ _ _ Hphone). now repeat split.
Qed.

Lemma search_is_case_insensitive_substring_witness :
  let w := module_load sample_tape in
  let o := nth 10 (MOCK_ORDERS w) lettered_phone in
  useMock mock_settings = true /\
  mock_data w /\
  In o (MOCK_ORDERS w) /\
  ((search_filter (toLowerCase "sT-801") o = true <-> search_matches "sT-801" o) /\
   ((exists page r,
       fst (getOrders (answering unauthorized) mock_settings page "sT-801" "" "" w)
       = Ok (Orders r) /\ In o (orders r))
    <-> search_matches "sT-801" o)) /\
  tracking_code o = "ST-8010" /\
  search_filter (toLowerCase "sT-801") o = true /\
  search_filter "sT-801" o = false.
Proof.
  intros w o.
  assert (Hin : In o (MOCK_ORDERS w)) by (apply nth_In; vm_compute; lia).
  split; [reflexivity |]. split; [exists sample_tape; reflexivity |].
  split; [exact Hin |].
  split; [| repeat split; vm_compute; reflexivity].
  apply (search_is_case_insensitive_substring (answering unauthorized) mock_settings
           "sT-801" w o).
  - reflexivity.
  - exists sample_tape. reflexivity.
  - exact Hin.
Defined.




(** A filter value that no mock order carries leaves nothing. *)
Lemma filtered_set_foreign (search partner status : string) (w : World) :
  mock_data w ->
  (partner <> "" /\ ~ In partner partners) \/ (status <> "" /\ ~ In status statuses) ->
  filtered_set search partner status w = [].
Proof.
  intros Hdata Hforeign.
  pose proof (mock_data_well_formed w Hdata) as Hwf. rewrite List.Forall_forall in Hwf.
  destruct (filtered_set search partner status w) as [|o rest] eqn:Hset; [reflexivity |].
  assert (Ho : In o (filtered_set search partner status w)) by (rewrite Hset; now left).
  apply filter_In in Ho as [Hin Hpass].
  destruct (Hwf o Hin) as (Hpartner & Hstatus & Hphone).
  apply (passes_matches _ _ _ _ Hphone) in Hpass as (_ & Hp & Hs).
  destruct Hforeign as [[Hne Hnot] | [Hne Hnot]]; exfalso; apply Hnot.
  - now rewrite <- (Hp Hne).
  - now rewrite <- (Hs Hne).
Qed.

(** C10. Every generated mock order has one of the four partners RedX,
    Steadfast, Pathao, Paperfly and one of the five statuses Picked,
    In Transit, Out for Delivery, Delivered, Cancelled.  So a query by one of
    the values that only the mock configuration lists (partner E-Courier or
    In-House, status Returned) resolves to no orders and [total_items = 0]. *)
Theorem mock_orders_use_four_partners_and_five_statuses
    (P : Platform) (settings : ApiSettings) (w : World) :
  useMock settings = true ->
  mock_data w ->
  (forall o, In o (MOCK_ORDERS w) ->
     In (delivery_partner o) ["RedX"; "Steadfast"; "Pathao"; "Paperfly"] /\
     In (latest_status o)
        ["Picked"; "In Transit"; "Out for Delivery"; "Delivered"; "Cancelled"]) /\
  delivery_partners MOCK_CONFIG
    = ["RedX"; "Steadfast"; "Pathao"; "Paperfly"] ++ ["E-Courier"; "In-House"] /\
  quick_statuses MOCK_CONFIG
    = ["Picked"; "In Transit"; "Out for Delivery"; "Delivered"; "Cancelled"] ++ ["Returned"] /\
  (forall page search partner status,
     partner = "E-Courier" \/ partner = "In-House" \/ status = "Returned" ->
     exists r,
       fst (getOrders P settings page search partner status w) = Ok (Orders r) /\
       orders r = [] /\
       total_items (pagination r) = 0%Z).
Proof.
  intros Hmock Hdata. split.
  - intros o Hin. pose proof (mock_data_well_formed w Hdata) as Hwf.
    rewrite List.Forall_forall in Hwf. now destruct (Hwf o Hin) as (Hp & Hs & _).
  - split; [reflexivity |]. split; [reflexivity |].
    intros page search partner status Hextra.
    destruct (getOrders_response_served P Hmock page search partner status w)
      as (r & Hr & Horders & _ & _ & Hitems).
    apply (f_equal fst) in Hr. cbn [fst] in Hr.
    assert (Hempty : filtered_set search partner status w = []).
    { apply filtered_set_foreign; [exact Hdata |].
      destruct Hextra as [-> | [-> | ->]]; [left | left | right];
        (split; [discriminate |]); cbn; intuition discriminate. }
    rewrite Hempty in Horders, Hitems. exists r. split; [exact Hr |].
    split; [| exact Hitems]. rewrite Horders. unfold slice. cbn [skipn length].
    now rewrite skipn_nil, firstn_nil.
Qed.

Lemma mock_orders_use_four_partners_and_five_statuses_witness :
  useMock mock_settings = true /\
  mock_data (module_load sample_tape) /\
  (forall o, In o (MOCK_ORDERS (module_load sample_tape)) ->
     In (delivery_partner o) ["RedX"; "Steadfast"; "Pathao"; "Paperfly"] /\
     In (latest_status o)
        ["Picked"; "In Transit"; "Out for Delivery"; "Delivered"; "Cancelled"]) /\
  delivery_partners MOCK_CONFIG
    = ["RedX"; "Steadfast"; "Pathao"; "Paperfly"] ++ ["E-Courier"; "In-House"] /\
  quick_statuses MOCK_CONFIG
    = ["Picked"; "In Transit"; "Out for Delivery"; "Delivered"; "Cancelled"] ++ ["Returned"] /\
  (forall page search partner status,
     partner = "E-Courier" \/ partner = "In-House" \/ status = "Returned" ->
     exists r,
       fst (getOrders (answering unauthorized) mock_settings page search partner status
              (module_load sample_tape)) = Ok (Orders r) /\
       orders r = [] /\
       total_items (pagination r) = 0%Z).
Proof.
  split; [reflexivity |]. split; [exists sample_tape; reflexivity |].
  apply (mock_orders_use_four_partners_and_five_statuses
           (answering unauthorized) mock_settings (module_load sample_tape)).
  - reflexivity.
  - exists sample_tape. reflexivity.
Defined.

(** ** The public methods as calls of [request] *)

Section Calls.

Variable P : Platform.
Variable settings : ApiSettings.
Context {C U D : Type}.
Variable stringify : forall A : Type, A -> string.

(** Every public method is one call of [request], without headers of its
    own; only [getConfig] passes [requireAuth = false]. *)
Lemma run_is_request (c : call C U D) :
  exists endpoint options requireAuth,
    headers options = None /\
    (requireAuth = false <-> c = GetConfig) /\
    forall w, run P settings stringify c w
              = request P settings endpoint options requireAuth w.
Proof.
  destruct c; cbn [run];
    [ exists "/app-config", (GET None), false
    | eexists _, (GET None), true
    | eexists "/add-order", (POST _), true
    | eexists "/update-status", (POST _), true
    | eexists "/update-details", (POST _), true ];
    (split; [reflexivity |]); (split; [| intros w; reflexivity]);
    split; intros; try reflexivity; discriminate.
Qed.

Lemma run_keeps_orders (c : call C U D) (w : World) :
  MOCK_ORDERS (snd (run P settings stringify c w)) = MOCK_ORDERS w.
Proof.
  destruct (run_is_request c) as (endpoint & options & requireAuth & _ & _ & ->).
  apply request_keeps_orders.
Qed.

(** The mock data stay the generated ones through every call, in every
    mode. *)
Lemma run_keeps_mock_data (c : call C U D) (w : World) :
  mock_data w -> mock_data (snd (run P settings stringify c w)).
Proof. unfold mock_data. now rewrite run_keeps_orders. Qed.

(** The key header among the headers that [getHeaders] builds. *)
Lemma getHeaders_key (requireAuth : bool) :
  getHeaders settings requireAuth !! key_header =
  match apiKey settings with
  | Some key => if requireAuth && truthy key then Some key else None
  | None => None
  end.
Proof.
  unfold getHeaders, key_header.
  destruct (apiKey settings) as [key|]; [destruct (requireAuth && truthy key) |].
  - apply lookup_insert_eq.
  - now apply lookup_singleton_ne.
  - now apply lookup_singleton_ne.
Qed.

(** In mock mode the result of [getOrders] depends on the world through the
    mock orders only. *)
Lemma getOrders_same_orders (page : Z) (search partner status : string) (w1 w2 : World) :
  useMock settings = true ->
  MOCK_ORDERS w1 = MOCK_ORDERS w2 ->
  fst (getOrders P settings page search partner status w1)
  = fst (getOrders P settings page search partner status w2).
Proof.
  intros Hmock Horders. rewrite !(getOrders_mock_served P Hmock). cbn [fst].
  now rewrite Horders.
Qed.

End Calls.

(** C8. In mock mode every mutating call ([addOrder], [updateStatus],
    [updateDetails]) resolves with [success = true] and leaves the mock order
    list as it was: a later [getOrders] resolves to what it would have
    resolved to before the call, over the same 45 generated orders. *)
Theorem mock_mutations_do_not_persist
    (P : Platform) (settings : ApiSettings) (C U D : Type)
    (stringify : forall A : Type, A -> string) (c : call C U D) (w : World) :
  useMock settings = true ->
  is_mutation c ->
  (exists v, fst (run P settings stringify c w) = Ok v /\ success_of v = Some true) /\
  MOCK_ORDERS (snd (run P settings stringify c w)) = MOCK_ORDERS w /\
  (forall page search partner status,
     fst (getOrders P settings page search partner status (snd (run P settings stringify c w)))
     = fst (getOrders P settings page search partner status w)) /\
  (mock_data w ->
     mock_data (snd (run P settings stringify c w)) /\
     length (MOCK_ORDERS (snd (run P settings stringify c w))) = 45).
Proof.
  intros Hmock Hc.
  pose proof (run_keeps_orders P settings stringify c w) as Hkeep.
  split; [| split; [exact Hkeep | split]].
  - destruct c; try contradiction; cbn [run];
      unfold addOrder, updateStatus, updateDetails;
      rewrite (request_mock _ _ _ _ Hmock); eexists; split; reflexivity.
  - intros page search partner status. now apply getOrders_same_orders.
  - intros Hdata. unfold mock_data in *. rewrite Hkeep.
    split; [exact Hdata | now apply mock_data_length].
Qed.

Lemma mock_mutations_do_not_persist_witness :
  useMock mock_settings = true /\
  is_mutation sample_addOrder /\
  let run_it := run (answering unauthorized) mock_settings sample_stringify sample_addOrder in
  (exists v, fst (run_it (module_load sample_tape)) = Ok v /\ success_of v = Some true) /\
  MOCK_ORDERS (snd (run_it (module_load sample_tape))) = MOCK_ORDERS (module_load sample_tape) /\
  (forall page search partner status,
     fst (getOrders (answering unauthorized) mock_settings page search partner status
            (snd (run_it (module_load sample_tape))))
     = fst (getOrders (answering unauthorized) mock_settings page search partner status
              (module_load sample_tape))) /\
  (mock_data (module_load sample_tape) ->
     mock_data (snd (run_it (module_load sample_tape))) /\
     length (MOCK_ORDERS (snd (run_it (module_load sample_tape)))) = 45).
Proof.
  split; [reflexivity |]. split; [exact I |].
  apply (mock_mutations_do_not_persist (answering unauthorized) mock_settings
           string string string sample_stringify sample_addOrder
           (module_load sample_tape)).
  - reflexivity.
  - exact I.
Defined.

(** C4. For every call, every [fetch] that it issues carries headers in which:
    the API-key header holds the configured key when the call is not
    [getConfig] and a key is configured; the API-key header is absent (not
    present with an empty value) when no key is configured; and the API-key
    header is absent when the call is [getConfig], whatever the settings.
    A call issues no [fetch] in mock mode or without a usable base URL, and
    exactly one otherwise. *)
Theorem api_key_header_only_when_required_and_configured
    (P : Platform) (settings : ApiSettings) (C U D : Type)
    (stringify : forall A : Type, A -> string) (c : call C U D) (w : World) :
  exists issued,
    fetch_log (snd (run P settings stringify c w)) = issued ++ fetch_log w /\
    (issued = [] \/ exists fc, issued = [fc]) /\
    (issued = [] <-> useMock settings = true \/ unconfigured settings) /\
    forall fc, In fc issued ->
      exists sent,
        headers (fetch_init fc) = Some sent /\
        (c <> GetConfig ->
         forall key, apiKey settings = Some key -> key <> "" ->
                     sent !! key_header = Some key) /\
        (apiKey settings = None \/ apiKey settings = Some "" ->
         sent !! key_header = None) /\
        (c = GetConfig -> sent !! key_header = None).
Proof.
  destruct (run_is_request P settings stringify c)
    as (endpoint & options & requireAuth & Hown & Hauth & Hrun).
  rewrite Hrun.
  destruct (@settings_cases settings)
    as [Hmock | [[Hmock Hurl] | [Hmock (b & Hbase & Hb & Hph)]]].
  - exists []. rewrite (request_mock _ _ _ _ Hmock).
    destruct (mockResponse_frame (P := P) endpoint options (delayed w)) as (_ & -> & _).
    split; [reflexivity |]. split; [now left |]. split; [tauto | intros fc []].
  - exists []. rewrite (request_unconfigured _ _ _ _ Hmock Hurl).
    split; [reflexivity |]. split; [now left |]. split; [tauto | intros fc []].
  - destruct (request_real (P := P) endpoint options requireAuth w b Hmock Hbase Hb Hph)
      as (-> & _).
    eexists [_]. split; [reflexivity |]. split; [right; now eexists |].
    split.
    { split; [discriminate |]. intros [Hm | Hu]; [congruence |].
      unfold unconfigured in Hu. rewrite Hbase in Hu. destruct Hu; congruence. }
    intros fc [<- | []]. cbn [fetch_init fetch_options headers]. rewrite Hown.
    eexists. split; [reflexivity |]. rewrite getHeaders_key.
    split; [| split].
    + intros Hc key -> Hkey. apply truthy_true in Hkey. rewrite Hkey.
      destruct requireAuth; [reflexivity |]. exfalso. apply Hc. now apply Hauth.
    + intros [-> | ->]; [reflexivity | now rewrite andb_false_r].
    + intros Hc. apply Hauth in Hc as ->. now destruct (apiKey settings).
Qed.

(** C5. Outside mock mode, when the base URL is missing, empty or holds the
    placeholder host, every call fails with the configuration error and the
    world is as it was before the call: no [fetch] was issued. *)
Theorem unconfigured_base_url_fails_before_fetch
    (P : Platform) (settings : ApiSettings) (C U D : Type)
    (stringify : forall A : Type, A -> string) (c : call C U D) (w : World) :
  useMock settings = false ->
  unconfigured settings ->
  run P settings stringify c w = (Throw configuration_error, w) /\
  fetch_log (snd (run P settings stringify c w)) = fetch_log w.
Proof.
  intros Hmock Hurl.
  destruct (run_is_request P settings stringify c)
    as (endpoint & options & requireAuth & _ & _ & ->).
  now rewrite (request_unconfigured _ _ _ _ Hmock Hurl).
Qed.

Lemma unconfigured_base_url_fails_before_fetch_witness :
  useMock placeholder_settings = false /\
  unconfigured placeholder_settings /\
  run (answering unauthorized) placeholder_settings sample_stringify sample_addOrder
      (module_load sample_tape)
  = (Throw configuration_error, module_load sample_tape) /\
  fetch_log (snd (run (answering unauthorized) placeholder_settings sample_stringify
                      sample_addOrder (module_load sample_tape)))
  = fetch_log (module_load sample_tape).
Proof.
  split; [reflexivity |]. split; [right; reflexivity |].
  apply (unconfigured_base_url_fails_before_fetch (answering unauthorized)
           placeholder_settings string string string sample_stringify sample_addOrder
           (module_load sample_tape)).
  - reflexivity.
  - right. reflexivity.
Defined.

Section Outcomes.

Variable P : Platform.
Variable settings : ApiSettings.
Context {C U D : Type}.
Variable stringify : forall A : Type, A -> string.

(** When a call logged a [fetch], its result is decided by the outcome of
    that [fetch], as [request_real] says. *)
Lemma run_fetched (c : call C U D) (w : World) (fc : FetchCall) :
  fetch_log (snd (run P settings stringify c w)) = fc :: fetch_log w ->
  useMock settings = false /\
  (forall response, fetch P (fetch_url fc) (fetch_init fc) = Ok response ->
     fst (run P settings stringify c w) =
     if ok response then json response
     else if (status response =? 401)%Z then Throw auth_error
     else if (status response =? 404)%Z then Throw not_found_error
     else Throw (api_error (status response) (statusText response))) /\
  (forall e, fetch P (fetch_url fc) (fetch_init fc) = Throw e ->
     fst (run P settings stringify c w) =
     if String.eqb (name e) "TypeError" && String.eqb (message e) "Failed to fetch"
     then if String.eqb (location_protocol P) "https:" && startsWith (fetch_url fc) "http:"
          then Throw protocol_mismatch_error
          else Throw request_blocked_error
     else Throw e).
Proof.
  destruct (run_is_request P settings stringify c)
    as (endpoint & options & requireAuth & _ & _ & ->).
  intros Hlog.
  destruct (request_log (P := P) (settings := settings) endpoint options requireAuth w)
    as [Hsame | (b & Hmock & Hbase & Hb & Hph)].
  - rewrite Hsame in Hlog. exfalso.
    apply (f_equal (@length FetchCall)) in Hlog. cbn in Hlog. lia.
  - destruct (request_real (P := P) endpoint options requireAuth w b Hmock Hbase Hb Hph)
      as (Hworld & Hok & Hthrow).
    rewrite Hworld in Hlog. injection Hlog as <-.
    split; [exact Hmock |]. split; [exact Hok | exact Hthrow].
Qed.

End Outcomes.

(** C6. When a call issued a [fetch] and received a response: with status 401
    it fails with the invalid-credentials error, with status 404 with the
    endpoint-not-found error, with any other status outside 200..299 with the
    generic API error that carries the status code and the reason; with a
    status in 200..299 it raises none of these and settles as the body of the
    response does.  The first two errors are not the generic one. *)
Theorem http_status_decides_the_error
    (P : Platform) (settings : ApiSettings) (C U D : Type)
    (stringify : forall A : Type, A -> string) (c : call C U D) (w : World)
    (fc : FetchCall) (response : Response) :
  fetch_log (snd (run P settings stringify c w)) = fc :: fetch_log w ->
  fetch P (fetch_url fc) (fetch_init fc) = Ok response ->
  useMock settings = false /\
  (status response = 401%Z -> fst (run P settings stringify c w) = Throw auth_error) /\
  (status response = 404%Z -> fst (run P settings stringify c w) = Throw not_found_error) /\
  (~ (200 <= status response <= 299)%Z ->
   status response <> 401%Z -> status response <> 404%Z ->
   fst (run P settings stringify c w)
   = Throw (api_error (status response) (statusText response))) /\
  ((200 <= status response <= 299)%Z ->
   fst (run P settings stringify c w) = json response) /\
  (forall code reason,
     auth_error <> api_error code reason /\ not_found_error <> api_error code reason).
Proof.
  intros Hlog Hfetch.
  destruct (run_fetched P settings stringify c w fc Hlog) as (Hmock & Hok & _).
  specialize (Hok response Hfetch). rewrite Hok. unfold ok.
  split; [exact Hmock |]. repeat split.
  - intros ->. reflexivity.
  - intros ->. reflexivity.
  - intros Hrange H401 H404.
    replace ((200 <=? status response) && (status response <=? 299))%Z with false by lia.
    apply Z.eqb_neq in H401, H404. now rewrite H401, H404.
  - intros Hrange.
    now replace ((200 <=? status response) && (status response <=? 299))%Z with true by lia.
  - discriminate.
  - discriminate.
Qed.

Lemma http_status_decides_the_error_witness :
  fetch_log (snd (run (answering unauthorized) live_settings sample_stringify
                      sample_getConfig (module_load sample_tape)))
  = sample_fetch :: fetch_log (module_load sample_tape) /\
  fetch (answering unauthorized) (fetch_url sample_fetch) (fetch_init sample_fetch)
  = Ok unauthorized /\
  fst (run (answering unauthorized) live_settings sample_stringify
           sample_getConfig (module_load sample_tape)) = Throw auth_error.
Proof.
  split; [reflexivity |]. split; [reflexivity |].
  apply (http_status_decides_the_error (answering unauthorized) live_settings
           string string string sample_stringify sample_getConfig
           (module_load sample_tape) sample_fetch unauthorized);
    reflexivity.
Defined.

(** C7, as the specification words it, fails for a transport failure that
    the browser reports with another message than [Failed to fetch].  Firefox
    rejects the [fetch] of a refused connection with the [TypeError]
    [NetworkError when attempting to fetch resource.]; the [catch] clause
    compares the message with [Failed to fetch], so from an [https:] page and
    for an [http:] URL the call fails with that [TypeError] itself, neither
    with the protocol-mismatch error nor with the request-blocked error. *)
Lemma transport_failure_is_reclassified_counterexample :
  let P := failing connection_refused_firefox in
  let w := module_load sample_tape in
  let outcome := fst (run P live_settings sample_stringify sample_getConfig w) in
  useMock live_settings = false /\
  fetch_log (snd (run P live_settings sample_stringify sample_getConfig w))
  = sample_fetch :: fetch_log w /\
  fetch P (fetch_url sample_fetch) (fetch_init sample_fetch)
  = Throw connection_refused_firefox /\
  transport_failure connection_refused_firefox /\
  location_protocol P = "https:" /\
  startsWith (fetch_url sample_fetch) "http:" = true /\
  outcome = Throw connection_refused_firefox /\
  outcome <> Throw protocol_mismatch_error /\
  outcome <> Throw request_blocked_error.
Proof.
  intros P w outcome.
  assert (Houtcome : outcome = Throw connection_refused_firefox) by reflexivity.
  repeat (split; [reflexivity |]).
  rewrite Houtcome. split; discriminate.
Qed.

(** C7, amended.  When a call issued a [fetch] and the [fetch] failed with
    [e]: if [e] is a [TypeError] with the message [Failed to fetch], the call
    fails with the protocol-mismatch error when the page was loaded over
    [https:] and the target URL starts with [http:], and with the
    request-blocked error otherwise; if [e] is anything else, a transport
    failure with another message too, the call fails with [e] itself. *)
Theorem transport_failure_is_reclassified
    (P : Platform) (settings : ApiSettings) (C U D : Type)
    (stringify : forall A : Type, A -> string) (c : call C U D) (w : World)
    (fc : FetchCall) (e : exn) :
  fetch_log (snd (run P settings stringify c w)) = fc :: fetch_log w ->
  fetch P (fetch_url fc) (fetch_init fc) = Throw e ->
  useMock settings = false /\
  (failed_to_fetch e ->
   location_protocol P = "https:" /\ startsWith (fetch_url fc) "http:" = true ->
   fst (run P settings stringify c w) = Throw protocol_mismatch_error) /\
  (failed_to_fetch e ->
   ~ (location_protocol P = "https:" /\ startsWith (fetch_url fc) "http:" = true) ->
   fst (run P settings stringify c w) = Throw request_blocked_error) /\
  (~ failed_to_fetch e ->
   fst (run P settings stringify c w) = Throw e) /\
  (transport_failure e -> message e <> "Failed to fetch" ->
   fst (run P settings stringify c w) = Throw e).
Proof.
  intros Hlog Hfetch.
  destruct (run_fetched P settings stringify c w fc Hlog) as (Hmock & _ & Hthrow).
  specialize (Hthrow e Hfetch). rewrite Hthrow. unfold failed_to_fetch.
  split; [exact Hmock |]. split; [| split; [| split]].
  - intros [-> ->] [-> ->]. reflexivity.
  - intros [-> ->] Hnot. cbn [String.eqb andb].
    change (String.eqb "TypeError" "TypeError") with true.
    change (String.eqb "Failed to fetch" "Failed to fetch") with true. cbn [andb].
    destruct (String.eqb_spec (location_protocol P) "https:") as [Hp | Hp];
      [| reflexivity].
    destruct (startsWith (fetch_url fc) "http:") eqn:Hs; [| reflexivity].
    exfalso. now apply Hnot.
  - intros Hnot.
    destruct (String.eqb_spec (name e) "TypeError") as [Hn | Hn]; [| reflexivity].
    destruct (String.eqb_spec (message e) "Failed to fetch") as [Hm | Hm]; [| reflexivity].
    exfalso. now apply Hnot.
  - intros _ Hnot.
    destruct (String.eqb_spec (message e) "Failed to fetch") as [Hm | Hm];
      [contradiction |]. now rewrite andb_false_r.
Qed.

Lemma transport_failure_is_reclassified_witness :
  fetch_log (snd (run (failing connection_refused) live_settings sample_stringify
                      sample_getConfig (module_load sample_tape)))
  = sample_fetch :: fetch_log (module_load sample_tape) /\
  fetch (failing connection_refused) (fetch_url sample_fetch) (fetch_init sample_fetch)
  = Throw connection_refused /\
  failed_to_fetch connection_refused /\
  fst (run (failing connection_refused) live_settings sample_stringify
           sample_getConfig (module_load sample_tape)) = Throw protocol_mismatch_error.
Proof.
  split; [reflexivity |]. split; [reflexivity |]. split; [split; reflexivity |].
  apply (transport_failure_is_reclassified (failing connection_refused) live_settings
           string string string sample_stringify sample_getConfig
           (module_load sample_tape) sample_fetch connection_refused);
    try reflexivity.
  - split; reflexivity.
  - split; reflexivity.
Defined.

(** * Further properties of the code *)

(** ** [generateMockOrders] *)

Section Generation.

Lemma Array_from_nth {A} (f : nat -> Rand A) (count i : nat) tape k (j : nat) :
  j < count ->
  exists kj, nth_error (fst (Array_from f i count tape k)) j = Some (fst (f (i + j) tape kj)).
Proof.
  revert i k j; induction count as [|count IH]; intros i k j Hj; [lia |].
  cbn [Array_from]. unfold rand_bind.
  destruct (f i tape k) as [x k1] eqn:Hx.
  destruct (Array_from f (S i) count tape k1) as [rest k2] eqn:Hrest.
  destruct j as [|j]; cbn [fst nth_error rand_ret].
  - exists k. now rewrite Nat.add_0_r, Hx.
  - destruct (IH (S i) k1 j ltac:(lia)) as [kj Hkj]. exists kj.
    rewrite Hrest in Hkj. cbn [fst] in Hkj. rewrite Hkj. do 3 f_equal. lia.
Qed.

Lemma Array_from_map {A B} (f : nat -> Rand A) (g : A -> B) (h : nat -> B) :
  (forall i tape k, g (fst (f i tape k)) = h i) ->
  forall count i tape k,
    map g (fst (Array_from f i count tape k)) = map h (seq i count).
Proof.
  intros Hg. induction count as [|count IH]; intros i tape k; [reflexivity |].
  cbn [Array_from]. unfold rand_bind.
  specialize (Hg i tape k). destruct (f i tape k) as [x k1].
  specialize (IH (S i) tape k1).
  destruct (Array_from f (S i) count tape k1) as [rest k2].
  cbn [fst rand_ret map seq] in *. now rewrite Hg, IH.
Qed.

Lemma Array_from_draws {A} (f : nat -> Rand A) (c : nat) :
  (forall i tape k, snd (f i tape k) = c + k) ->
  forall count i tape k, snd (Array_from f i count tape k) = c * count + k.
Proof.
  intros Hf. induction count as [|count IH]; intros i tape k; cbn [Array_from].
  - cbn. lia.
  - unfold rand_bind. specialize (Hf i tape k). destruct (f i tape k) as [x k1].
    specialize (IH (S i) tape k1).
    destruct (Array_from f (S i) count tape k1) as [rest k2].
    cbn [snd rand_ret] in *. lia.
Qed.

Lemma Array_from_agree {A} (f : nat -> Rand A) (c : nat) :
  (forall i tape k, snd (f i tape k) = c + k) ->
  (forall i tape1 tape2 k, agree_on k c tape1 tape2 -> f i tape1 k = f i tape2 k) ->
  forall count i tape1 tape2 k,
    agree_on k (c * count) tape1 tape2 ->
    Array_from f i count tape1 k = Array_from f i count tape2 k.
Proof.
  intros Hdraws Hf. induction count as [|count IH]; intros i tape1 tape2 k Hagree;
    [reflexivity |].
  cbn [Array_from]. unfold rand_bind.
  rewrite (Hf i tape1 tape2 k) by (intros j Hj; apply Hagree; lia).
  pose proof (Hdraws i tape2 k) as Hk. destruct (f i tape2 k) as [x k1].
  cbn [snd] in Hk. subst k1.
  rewrite (IH (S i) tape1 tape2 (c + k)); [reflexivity |].
  intros j Hj. replace (c + k + j) with (k + (c + j)) by lia. apply Hagree. lia.
Qed.

Lemma mockOrder_draws (i : nat) tape k : snd (mockOrder i tape k) = 7 + k.
Proof. reflexivity. Qed.

Lemma mockOrder_agree (i : nat) tape1 tape2 k :
  agree_on k 7 tape1 tape2 -> mockOrder i tape1 k = mockOrder i tape2 k.
Proof.
  intros H. unfold mockOrder, rand_bind, Math_random, rand_ret.
  pose proof (H 0 ltac:(lia)) as H0. pose proof (H 1 ltac:(lia)) as H1.
  pose proof (H 2 ltac:(lia)) as H2. pose proof (H 3 ltac:(lia)) as H3.
  pose proof (H 4 ltac:(lia)) as H4. pose proof (H 5 ltac:(lia)) as H5.
  pose proof (H 6 ltac:(lia)) as H6.
  replace (k + 0) with k in H0 by lia.
  replace (k + 1) with (S k) in H1 by lia.
  replace (k + 2) with (S (S k)) in H2 by lia.
  replace (k + 3) with (S (S (S k))) in H3 by lia.
  replace (k + 4) with (S (S (S (S k)))) in H4 by lia.
  replace (k + 5) with (S (S (S (S (S k))))) in H5 by lia.
  replace (k + 6) with (S (S (S (S (S (S k)))))) in H6 by lia.
  now rewrite H0, H1, H2, H3, H4, H5, H6.
Qed.

(** [toString] is injective: [parseInt] reads the integer back. *)
Lemma toString_inj (a b : Z) : toString a = toString b -> a = b.
Proof.
  intros H. apply (f_equal parseInt) in H. rewrite !parseInt_toString in H.
  now injection H.
Qed.

Lemma NoDup_map_injective {A B} (f : A -> B) (l : list A) :
  (forall a b, f a = f b -> a = b) -> List.NoDup l -> List.NoDup (map f l).
Proof.
  intros Hinj Hl. induction Hl as [|x l Hx Hl IH]; cbn [map]; constructor.
  - intros Hin. apply in_map_iff in Hin as (y & Hy & Hin).
    apply Hinj in Hy as ->. now apply Hx.
  - exact IH.
Qed.

End Generation.

(** X1. Whatever [Math.random] returns, [generateMockOrders(count)] builds
    [count] orders, and the order at index [i] (from 0) has the id [i + 1],
    the tracking code [ST-] followed by [8000 + i], the buyer name
    [Customer ] followed by [i + 1], the phone [017] followed by [i] padded
    with zeros to eight digits, and the two fixed dates. *)
Theorem generated_order_at_index (count i : nat) (tape : nat -> sample) (k : nat) :
  i < count ->
  length (fst (generateMockOrders count tape k)) = count /\
  exists o,
    nth_error (fst (generateMockOrders count tape k)) i = Some o /\
    id o = (Z.of_nat i + 1)%Z /\
    tracking_code o = "ST-" +:+ toString (8000 + Z.of_nat i) /\
    buyer_name o = "Customer " +:+ toString (Z.of_nat i + 1) /\
    phone o = "017" +:+ padStart0 (toString (Z.of_nat i)) 8 /\
    estimated_delivery o = "2025-12-10" /\
    last_update o = "2025-12-07 10:30:00".
Proof.
  intros Hi. split; [apply Array_from_length |].
  destruct (Array_from_nth mockOrder count 0 tape k i Hi) as [kj Hkj].
  eexists. split; [exact Hkj |].
  unfold mockOrder, rand_bind, Math_random, rand_ret.
  cbn [fst id tracking_code buyer_name phone estimated_delivery last_update Nat.add].
  replace (Z.of_nat (i + 1)) with (Z.of_nat i + 1)%Z by lia.
  repeat split; reflexivity.
Qed.

Lemma generated_order_at_index_witness :
  7 < 45 /\
  length (fst (generateMockOrders 45 sample_tape 0)) = 45 /\
  exists o,
    nth_error (fst (generateMockOrders 45 sample_tape 0)) 7 = Some o /\
    id o = (Z.of_nat 7 + 1)%Z /\
    tracking_code o = "ST-" +:+ toString (8000 + Z.of_nat 7) /\
    buyer_name o = "Customer " +:+ toString (Z.of_nat 7 + 1) /\
    phone o = "017" +:+ padStart0 (toString (Z.of_nat 7)) 8 /\
    estimated_delivery o = "2025-12-10" /\
    last_update o = "2025-12-07 10:30:00".
Proof.
  split; [lia |].
  apply (generated_order_at_index 45 7 sample_tape 0). lia.
Defined.

Section Distinct.

(** [parseInt] reads a zero-padded decimal text as the number it pads. *)
Lemma read_digits_zeros (n : nat) (s : string) (seen : bool) :
  read_digits (repeat_char "0" n +:+ s) seen 0
  = read_digits s (match n with O => seen | S _ => true end) 0.
Proof.
  revert seen; induction n as [|n IH]; intros seen; [reflexivity |].
  cbn [repeat_char]. change (String "0" ?a +:+ ?b) with (String "0" (a +:+ b)).
  cbn [read_digits]. change (is_digit "0") with true. cbv iota.
  change (10 * 0 + digit_value "0")%Z with 0%Z. rewrite IH. now destruct n.
Qed.

Lemma read_digits_toString (i : nat) (seen : bool) :
  read_digits (toString (Z.of_nat i)) seen 0 = Some (Z.of_nat i).
Proof.
  destruct (Z.of_nat i) as [|p|p] eqn:Hi; [now destruct seen | | lia].
  rewrite toString_pos.
  assert (H : read_digits (NilEmpty.string_of_uint (Pos.to_uint p)) seen 0
              = Some (uint_value (Pos.to_uint p) 0)).
  { destruct seen; [apply read_digits_uint |].
    apply read_digits_first, Unsigned.to_uint_nonnil. }
  now rewrite H, uint_value_0, Unsigned.of_to.
Qed.

Lemma parseInt_padStart0 (i n : nat) :
  parseInt (padStart0 (toString (Z.of_nat i)) n) = Num (Z.of_nat i).
Proof.
  unfold padStart0.
  destruct (n - String.length (toString (Z.of_nat i))) as [|m];
    [apply parseInt_toString |].
  assert (Hmag : read_magnitude (repeat_char "0" (S m) +:+ toString (Z.of_nat i))
                 = Some (Z.of_nat i)).
  { transitivity (read_digits (repeat_char "0" (S m) +:+ toString (Z.of_nat i)) false 0).
    - cbn [repeat_char]. change (String "0" ?a +:+ ?b) with (String "0" (a +:+ b)).
      unfold read_magnitude.
      destruct m as [|m]; cbn [repeat_char];
        [| change (String "0" ?a +:+ ?b) with (String "0" (a +:+ b)); reflexivity].
      change ("" +:+ ?b) with b.
      pose proof (toString_digits (Z.of_nat i) ltac:(lia)) as Hd.
      destruct (toString (Z.of_nat i)) as [|c s]; [reflexivity |].
      cbn [all_chars] in Hd. apply andb_true_iff in Hd as [Hc _].
      each_byte c; try discriminate; reflexivity.
    - now rewrite read_digits_zeros, read_digits_toString. }
  unfold parseInt. cbn [repeat_char].
  change (String "0" ?a +:+ ?b) with (String "0" (a +:+ b)).
  change (skip_spaces (String "0" ?s)) with (String "0" s). cbv iota.
  cbn [repeat_char] in Hmag.
  change (String "0" ?a +:+ ?b) with (String "0" (a +:+ b)) in Hmag.
  now rewrite Hmag.
Qed.

End Distinct.

(** X2. Whatever [Math.random] returns, the ids of the generated orders are
    1, 2, ..., [count] in this order, and no two generated orders share an
    id, a tracking code, a phone or a buyer name. *)
Theorem generated_orders_are_distinct (count : nat) (tape : nat -> sample) (k : nat) :
  let generated := fst (generateMockOrders count tape k) in
  map id generated = map Z.of_nat (seq 1 count) /\
  List.NoDup (map id generated) /\
  List.NoDup (map tracking_code generated) /\
  List.NoDup (map phone generated) /\
  List.NoDup (map buyer_name generated).
Proof.
  intros generated. unfold generated, generateMockOrders.
  assert (Hid : map id (fst (Array_from mockOrder 0 count tape k))
                = map (fun i => Z.of_nat (i + 1)) (seq 0 count))
    by (apply Array_from_map; reflexivity).
  rewrite (Array_from_map mockOrder tracking_code
             (fun i => "ST-" +:+ toString (8000 + Z.of_nat i))) by reflexivity.
  rewrite (Array_from_map mockOrder phone
             (fun i => "017" +:+ padStart0 (toString (Z.of_nat i)) 8)) by reflexivity.
  rewrite (Array_from_map mockOrder buyer_name
             (fun i => "Customer " +:+ toString (Z.of_nat (i + 1)))) by reflexivity.
  rewrite Hid. repeat split.
  - rewrite <- seq_shift, map_map. apply map_ext. intros i. f_equal. lia.
  - apply NoDup_map_injective; [intros a b H; lia | apply seq_NoDup].
  - apply NoDup_map_injective; [| apply seq_NoDup].
    intros a b H. injection H as H. apply toString_inj in H. lia.
  - apply NoDup_map_injective; [| apply seq_NoDup].
    intros a b H. injection H as H. apply (f_equal parseInt) in H.
    rewrite !parseInt_padStart0 in H. injection H as H. lia.
  - apply NoDup_map_injective; [| apply seq_NoDup].
    intros a b H. injection H as H. apply toString_inj in H. lia.
Qed.

(** X3. Whatever [Math.random] returns, every generated order has: a police
    station among Gulshan, Banani, Dhanmondi and Mirpur; an amount of the form
    [n BDT] with [500 <= n < 2500]; an address [House i, Road r, Dhaka] with
    [i] its id and [0 <= r < 20]; a rider name that is empty or [Rider ]
    followed by its id; and a rider phone that is empty or [018...]. *)
Theorem generated_orders_random_fields (count : nat) (tape : nat -> sample) (k : nat) :
  Forall (fun o =>
            In (police_station o) ["Gulshan"; "Banani"; "Dhanmondi"; "Mirpur"] /\
            (exists n, amount o = toString n +:+ " BDT" /\ (500 <= n < 2500)%Z) /\
            (exists r, address o = "House " +:+ toString (id o) +:+ ", Road "
                                   +:+ toString r +:+ ", Dhaka" /\ (0 <= r < 20)%Z) /\
            (rider_name o = "" \/ rider_name o = "Rider " +:+ toString (id o)) /\
            (rider_phone o = "" \/ rider_phone o = "018..."))
         (fst (generateMockOrders count tape k)).
Proof.
  apply Array_from_Forall. intros i tape' k'.
  unfold mockOrder, rand_bind, Math_random, rand_ret.
  cbn [fst police_station amount address rider_name rider_phone id].
  split; [| split; [| split; [| split]]].
  - apply (at_index_In stations). discriminate.
  - eexists. split; [reflexivity |].
    pose proof (floor_times_lt (tape' (S (S k'))) 2000 ltac:(lia)). lia.
  - eexists. split; [reflexivity |].
    pose proof (floor_times_lt (tape' k') 20 ltac:(lia)). lia.
  - destruct (above_half _); [now right | now left].
  - destruct (above_half _); [now right | now left].
Qed.

(** X4. [generateMockOrders(count)] calls [Math.random] exactly [7 * count]
    times, and the orders it builds depend on these samples only: two runs of
    [Math.random] that agree on them give the same orders.  Loading the module
    leaves 315 calls behind. *)
Theorem generateMockOrders_draws (count : nat) (tape1 tape2 : nat -> sample) (k : nat) :
  agree_on k (7 * count) tape1 tape2 ->
  snd (generateMockOrders count tape1 k) = 7 * count + k /\
  generateMockOrders count tape1 k = generateMockOrders count tape2 k /\
  random_calls (module_load tape1) = 315.
Proof.
  intros Hagree. split; [| split].
  - apply (Array_from_draws mockOrder 7 mockOrder_draws).
  - apply (Array_from_agree mockOrder 7 mockOrder_draws mockOrder_agree). exact Hagree.
  - unfold module_load. cbn [random_calls].
    pose proof (Array_from_draws mockOrder 7 mockOrder_draws 45 0 tape1 0) as H.
    fold (generateMockOrders 45) in H. rewrite H. reflexivity.
Qed.

Lemma generateMockOrders_draws_witness :
  agree_on 0 (7 * 45) sample_tape other_tape /\
  snd (generateMockOrders 45 sample_tape 0) = 7 * 45 + 0 /\
  generateMockOrders 45 sample_tape 0 = generateMockOrders 45 other_tape 0 /\
  random_calls (module_load sample_tape) = 315.
Proof.
  assert (H : agree_on 0 (7 * 45) sample_tape other_tape).
  { intros j Hj. unfold other_tape. cbn [Nat.add].
    destruct (Nat.ltb_spec j 315); [reflexivity | lia]. }
  split; [exact H |].
  apply (generateMockOrders_draws 45 sample_tape other_tape 0). exact H.
Defined.

(** ** Pages of the mock responder *)

Section Listing.

Lemma filter_all {A} (f : A -> bool) (l : list A) :
  (forall x, f x = true) -> List.filter f l = l.
Proof.
  intros Hf. induction l as [|x l IH]; cbn [List.filter]; [reflexivity |].
  now rewrite Hf, IH.
Qed.


(** A page with a negative number is cut from the end of the list. *)
Lemma slice_negative_page {A} (l : list A) (q : nat) :
  slice l (Num ((- Z.of_nat (S q) - 1) * 20)) (Num ((- Z.of_nat (S q) - 1) * 20 + 20))
  = rev (firstn 20 (skipn (20 * S q) (rev l))).
Proof.
  unfold slice, clamp_index; cbn [to_integer].
  destruct (Z.ltb_spec ((- Z.of_nat (S q) - 1) * 20) 0); [| lia].
  destruct (Z.ltb_spec ((- Z.of_nat (S q) - 1) * 20 + 20) 0); [| lia].
  rewrite skipn_rev, firstn_rev, rev_involutive, length_firstn, skipn_firstn_comm.
  f_equal; [| f_equal]; lia.
Qed.

Lemma slice_page_0 {A} (l : list A) :
  slice l (Num ((0 - 1) * 20)) (Num ((0 - 1) * 20 + 20)) = [].
Proof.
  unfold slice, clamp_index; cbn [to_integer].
  change ((0 - 1) * 20 <? 0)%Z with true. change ((0 - 1) * 20 + 20 <? 0)%Z with false.
  cbv iota. replace (Z.to_nat _) with 0 by lia. reflexivity.
Qed.

Lemma StronglySorted_filter {A} (R : A -> A -> Prop) (f : A -> bool) (l : list A) :
  StronglySorted R l -> StronglySorted R (List.filter f l).
Proof.
  induction 1 as [|x l Hl IH Hx]; cbn [List.filter]; [constructor |].
  destruct (f x); [| exact IH]. constructor; [exact IH |].
  rewrite List.Forall_forall in *. intros y Hy. apply filter_In in Hy as [Hy _]. auto.
Qed.

Lemma StronglySorted_skipn {A} (R : A -> A -> Prop) (n : nat) (l : list A) :
  StronglySorted R l -> StronglySorted R (skipn n l).
Proof.
  intros Hl. revert n. induction Hl as [|x l Hl IH Hx]; intros [|n]; cbn [skipn];
    try constructor; auto.
Qed.

Lemma StronglySorted_firstn {A} (R : A -> A -> Prop) (n : nat) (l : list A) :
  StronglySorted R l -> StronglySorted R (firstn n l).
Proof.
  intros Hl. revert n. induction Hl as [|x l Hl IH Hx]; intros [|n]; cbn [firstn];
    try constructor; auto.
  rewrite List.Forall_forall in *. intros y Hy.
  apply Hx. rewrite <- (firstn_skipn n l). apply in_or_app. now left.
Qed.

Lemma StronglySorted_slice {A} (R : A -> A -> Prop) (l : list A) (a b : number) :
  StronglySorted R l -> StronglySorted R (slice l a b).
Proof. intros Hl. now apply StronglySorted_firstn, StronglySorted_skipn. Qed.

Lemma StronglySorted_seq (i count : nat) : StronglySorted lt (seq i count).
Proof.
  revert i; induction count as [|count IH]; intros i; cbn [seq]; constructor; [apply IH |].
  rewrite List.Forall_forall. intros j Hj. apply in_seq in Hj. lia.
Qed.

Lemma StronglySorted_of_map {A B} (f : A -> B) (R : B -> B -> Prop) (l : list A) :
  StronglySorted R (map f l) -> StronglySorted (fun a b => R (f a) (f b)) l.
Proof.
  induction l as [|x l IH]; cbn [map]; intros H; [constructor |].
  apply StronglySorted_inv in H as [Hl Hx]. constructor; [now apply IH |].
  rewrite List.Forall_forall in *. intros y Hy. apply Hx. now apply in_map.
Qed.

Lemma StronglySorted_map_mono {A B} (f : A -> B) (R : A -> A -> Prop) (S : B -> B -> Prop)
    (l : list A) :
  (forall a b, R a b -> S (f a) (f b)) ->
  StronglySorted R l -> StronglySorted S (map f l).
Proof.
  intros Hf. induction 1 as [|x l Hl IH Hx]; cbn [map]; constructor; [exact IH |].
  rewrite List.Forall_forall in *. intros y Hy.
  apply in_map_iff in Hy as (a & <- & Ha). auto.
Qed.

(** The mock orders are in ascending order of ids. *)
Lemma mock_data_sorted (w : World) : mock_data w -> StronglySorted by_id (MOCK_ORDERS w).
Proof.
  intros [tape ->]. rewrite MOCK_ORDERS_module_load.
  apply (StronglySorted_of_map id Z.lt).
  unfold generateMockOrders.
  rewrite (Array_from_map mockOrder id (fun i => Z.of_nat (i + 1))) by reflexivity.
  apply (StronglySorted_map_mono _ lt); [intros a b; lia | apply StronglySorted_seq].
Qed.

Lemma filter_length_le {A} (f g : A -> bool) (l : list A) :
  (forall x, f x = true -> g x = true) ->
  length (List.filter f l) <= length (List.filter g l).
Proof.
  intros Hfg. induction l as [|x l IH]; cbn [List.filter]; [lia |].
  destruct (f x) eqn:Hf; [rewrite (Hfg x Hf); cbn [length]; lia |].
  destruct (g x); cbn [length]; lia.
Qed.

(** Dropping a filter (or keeping it) lets pass what passed before. *)
Lemma passes_weaken (search partner status search' partner' status' : string) (o : Order) :
  search' = search \/ search' = "" ->
  partner' = partner \/ partner' = "" ->
  status' = status \/ status' = "" ->
  passes search partner status o = true -> passes search' partner' status' o = true.
Proof.
  unfold passes. intros [-> | ->] [-> | ->] [-> | ->];
    rewrite !andb_true_iff; cbn [truthy negb orb]; tauto.
Qed.

End Listing.



(** X6. In mock mode no page number below 10^21 in absolute value is
    rejected or clamped: [current_page] is the requested page.  Page 0 holds
    no orders, and page [-q] for [q >= 1] holds the block of 20 of the
    filtered set that ends [20 * q] orders before its end (the last 20 orders
    are on no such page). *)
Theorem pages_below_one_are_served
    (P : Platform) (settings : ApiSettings)
    (page : Z) (search partner status : string) (w : World) :
  useMock settings = true ->
  (- 10 ^ 21 < page < 10 ^ 21)%Z ->
  exists r,
    fst (getOrders P settings page search partner status w) = Ok (Orders r) /\
    current_page (pagination r) = Num page /\
    (page = 0%Z -> orders r = []) /\
    ((page < 0)%Z ->
     orders r = rev (firstn 20 (skipn (20 * Z.to_nat (- page))
                                      (rev (filtered_set search partner status w))))).
Proof.
  intros Hmock Hbound. change (10 ^ 21)%Z with exponent_bound in Hbound.
  destruct (getOrders_response P Hmock page search partner status w)
    as (r & Hr & Horders & Hpage & _); [lia |].
  exists r. split; [exact Hr |]. split; [exact Hpage |]. split.
  - intros ->. rewrite Horders. apply slice_page_0.
  - intros Hneg. rewrite Horders.
    destruct (Z.to_nat (- page)) as [|q] eqn:Hq; [lia |].
    replace page with (- Z.of_nat (S q))%Z by lia.
    apply slice_negative_page.
Qed.

Lemma pages_below_one_are_served_witness :
  useMock mock_settings = true /\
  (- 10 ^ 21 < -1 < 10 ^ 21)%Z /\
  exists r,
    fst (getOrders (answering unauthorized) mock_settings (-1) "" "" ""
           (module_load sample_tape)) = Ok (Orders r) /\
    current_page (pagination r) = Num (-1) /\
    ((-1)%Z = 0%Z -> orders r = []) /\
    ((-1 < 0)%Z ->
     orders r = rev (firstn 20 (skipn (20 * Z.to_nat (- (-1)))
                                      (rev (filtered_set "" "" "" (module_load sample_tape)))))).
Proof.
  split; [reflexivity |]. split; [split; reflexivity |].
  apply (pages_below_one_are_served (answering unauthorized) mock_settings (-1) "" "" ""
           (module_load sample_tape)).
  - reflexivity.
  - split; reflexivity.
Defined.

Example page_minus_one_of_45 :
  page_summary (getOrders (answering unauthorized) mock_settings (-1) "" "" ""
                  (module_load sample_tape))
  = Some ([6; 7; 8; 9; 10; 11; 12; 13; 14; 15; 16; 17; 18; 19; 20; 21; 22; 23; 24; 25]%Z,
          {| current_page := Num (-1); total_pages := 3; total_items := 45 |}).
Proof. vm_compute. reflexivity. Qed.

(** X7. In mock mode, over the generated orders, the orders of every page are
    in strictly ascending order of ids: a page repeats no order and keeps the
    order of generation, whatever the filters and the page number. *)
Theorem pages_are_in_ascending_id_order
    (P : Platform) (settings : ApiSettings)
    (page : Z) (search partner status : string) (w : World) :
  useMock settings = true ->
  mock_data w ->
  exists r,
    fst (getOrders P settings page search partner status w) = Ok (Orders r) /\
    StronglySorted Z.lt (map id (orders r)) /\
    List.NoDup (orders r).
Proof.
  intros Hmock Hdata.
  destruct (getOrders_response_served P Hmock page search partner status w)
    as (r & Hr & Horders & _).
  exists r. split; [now rewrite Hr |].
  assert (Hsorted : StronglySorted by_id (orders r)).
  { rewrite Horders. apply StronglySorted_slice, StronglySorted_filter.
    now apply mock_data_sorted. }
  split.
  - revert Hsorted. apply StronglySorted_map_mono. now unfold by_id.
  - clear -Hsorted. induction Hsorted as [|x l Hl IH Hx]; constructor; [| exact IH].
    intros Hin. rewrite List.Forall_forall in Hx. specialize (Hx x Hin).
    unfold by_id in Hx. lia.
Qed.

Lemma pages_are_in_ascending_id_order_witness :
  useMock mock_settings = true /\
  mock_data (module_load sample_tape) /\
  exists r,
    fst (getOrders (answering unauthorized) mock_settings 1 "customer" "RedX" ""
           (module_load sample_tape)) = Ok (Orders r) /\
    StronglySorted Z.lt (map id (orders r)) /\
    List.NoDup (orders r).
Proof.
  split; [reflexivity |]. split; [exists sample_tape; reflexivity |].
  apply (pages_are_in_ascending_id_order (answering unauthorized) mock_settings
           1 "customer" "RedX" "" (module_load sample_tape)).
  - reflexivity.
  - exists sample_tape. reflexivity.
Defined.

(** X8. In mock mode, dropping filters never loses orders: when each filter
    of a second query is that of the first query or is empty, every order
    that the first query finds is found by the second, and [total_items] of
    the first is at most [total_items] of the second.  No query reports more
    items than there are mock orders. *)
Theorem dropping_filters_widens_the_result
    (P : Platform) (settings : ApiSettings) (page page' : Z)
    (search partner status search' partner' status' : string) (w : World) :
  useMock settings = true ->
  search' = search \/ search' = "" ->
  partner' = partner \/ partner' = "" ->
  status' = status \/ status' = "" ->
  exists r r',
    fst (getOrders P settings page search partner status w) = Ok (Orders r) /\
    fst (getOrders P settings page' search' partner' status' w) = Ok (Orders r') /\
    (total_items (pagination r) <= total_items (pagination r'))%Z /\
    (total_items (pagination r') <= Z.of_nat (length (MOCK_ORDERS w)))%Z /\
    (forall o, In o (orders r) ->
       exists p' r'',
         fst (getOrders P settings p' search' partner' status' w) = Ok (Orders r'') /\
         In o (orders r'')).
Proof.
  intros Hmock Hs Hp Hst.
  destruct (getOrders_response_served P Hmock page search partner status w)
    as (r & Hr & _ & _ & _ & Hitems).
  destruct (getOrders_response_served P Hmock page' search' partner' status' w)
    as (r' & Hr' & _ & _ & _ & Hitems').
  apply (f_equal fst) in Hr, Hr'. cbn [fst] in Hr, Hr'.
  exists r, r'. split; [exact Hr |]. split; [exact Hr' |].
  rewrite Hitems, Hitems'. unfold filtered_set. split; [| split].
  - apply inj_le, filter_length_le. intros o. now apply passes_weaken.
  - apply inj_le. rewrite <- (filter_all (fun _ => true) (MOCK_ORDERS w)) at 2 by reflexivity.
    now apply filter_length_le.
  - intros o Ho. apply (page_in_filtered P Hmock _ _ _ _ _ _ _ Hr) in Ho.
    apply (filtered_on_some_page P Hmock).
    apply filter_In in Ho as [Hin Hpass]. apply filter_In. split; [exact Hin |].
    revert Hpass. now apply passes_weaken.
Qed.

Lemma dropping_filters_widens_the_result_witness :
  let first :=
    getOrders (answering unauthorized) mock_settings 1 "customer 1" "RedX" "Out for Delivery"
      (module_load sample_tape) in
  let second :=
    getOrders (answering unauthorized) mock_settings 1 "" "RedX" "" (module_load sample_tape) in
  useMock mock_settings = true /\
  ("" = "customer 1" \/ "" = "") /\
  ("RedX" = "RedX" \/ "RedX" = "") /\
  ("" = "Out for Delivery" \/ "" = "") /\
  (exists r r',
     fst first = Ok (Orders r) /\
     fst second = Ok (Orders r') /\
     (total_items (pagination r) <= total_items (pagination r'))%Z /\
     (total_items (pagination r')
      <= Z.of_nat (length (MOCK_ORDERS (module_load sample_tape))))%Z /\
     (forall o, In o (orders r) ->
        exists p' r'',
          fst (getOrders (answering unauthorized) mock_settings p' "" "RedX" ""
                 (module_load sample_tape)) = Ok (Orders r'') /\
          In o (orders r''))) /\
  page_summary first
  = Some ([12; 14]%Z, {| current_page := Num 1; total_pages := 1; total_items := 2 |}) /\
  page_summary second
  = Some ([5; 7; 12; 14; 21; 23; 28; 30; 35; 37; 44]%Z,
          {| current_page := Num 1; total_pages := 1; total_items := 11 |}).
Proof.
  intros first second.
  split; [reflexivity |]. split; [now right |]. split; [now left |]. split; [now right |].
  split; [| split; vm_compute; reflexivity].
  apply (dropping_filters_widens_the_result (answering unauthorized) mock_settings 1 1
           "customer 1" "RedX" "Out for Delivery" "" "RedX" "" (module_load sample_tape)).
  - reflexivity.
  - now right.
  - now left.
  - now right.
Defined.

(** ** The calls in mock mode and outside *)

(** X9. In mock mode every public method resolves, whatever the base URL and
    the API key: [getConfig] to the mock configuration, [getOrders] to a page
    of orders, [addOrder] to a success with a tracking code and an order id,
    [updateStatus] and [updateDetails] to a success with the update message.
    Each call waits once for 600 ms and issues no [fetch]. *)
Theorem mock_mode_resolves_every_call
    (P : Platform) (settings : ApiSettings) (C U D : Type)
    (stringify : forall A : Type, A -> string) (c : call C U D) (w : World) :
  useMock settings = true ->
  exists v,
    fst (run P settings stringify c w) = Ok v /\
    timers (snd (run P settings stringify c w)) = 600%Z :: timers w /\
    fetch_log (snd (run P settings stringify c w)) = fetch_log w /\
    match c with
    | GetConfig => v = Config MOCK_CONFIG
    | GetOrders _ _ _ _ => exists r, v = Orders r
    | AddOrder _ =>
        exists code order_id,
          v = Created true "Order created successfully (Mock)" code order_id
    | UpdateStatus _ | UpdateDetails _ => v = Updated true "Updated successfully (Mock)"
    end.
Proof.
  intros Hmock. destruct c as [|page search partner status|data|data|data]; cbn [run].
  - unfold getConfig. rewrite (request_mock _ _ _ _ Hmock). eexists. repeat split.
  - rewrite (getOrders_mock_served P Hmock). eexists. split; [reflexivity |].
    split; [reflexivity |]. split; [reflexivity |]. now eexists.
  - unfold addOrder. rewrite (request_mock _ _ _ _ Hmock). eexists.
    split; [reflexivity |]. split; [reflexivity |]. split; [reflexivity |]. now eexists _, _.
  - unfold updateStatus. rewrite (request_mock _ _ _ _ Hmock). eexists. repeat split.
  - unfold updateDetails. rewrite (request_mock _ _ _ _ Hmock). eexists. repeat split.
Qed.

Lemma mock_mode_resolves_every_call_witness :
  useMock mock_settings = true /\
  exists v,
    fst (run (answering unauthorized) mock_settings sample_stringify sample_getConfig
           (module_load sample_tape)) = Ok v /\
    timers (snd (run (answering unauthorized) mock_settings sample_stringify
                     sample_getConfig (module_load sample_tape)))
    = 600%Z :: timers (module_load sample_tape) /\
    fetch_log (snd (run (answering unauthorized) mock_settings sample_stringify
                        sample_getConfig (module_load sample_tape)))
    = fetch_log (module_load sample_tape) /\
    v = Config MOCK_CONFIG.
Proof.
  split; [reflexivity |].
  apply (mock_mode_resolves_every_call (answering unauthorized) mock_settings
           string string string sample_stringify sample_getConfig
           (module_load sample_tape)).
  reflexivity.
Defined.

(** X10. In mock mode [addOrder] draws the next two samples of
    [Math.random]: the tracking code is [MOCK-] followed by the decimal text
    of a whole number from 0 to 999 taken from the first, and the order id is
    a whole number from 0 to 9999 taken from the second. *)
Theorem mock_addOrder_code_and_id
    (P : Platform) (settings : ApiSettings) (C U D : Type)
    (stringify : forall A : Type, A -> string) (data : C) (w : World) :
  useMock settings = true ->
  exists n order_id,
    fst (run P settings stringify (@AddOrder C U D data) w)
    = Ok (Created true "Order created successfully (Mock)"
                  ("MOCK-" +:+ toString n) order_id) /\
    n = Z.of_N (floor_times (random_tape P (random_calls w)) 1000) /\
    order_id = Z.of_N (floor_times (random_tape P (S (random_calls w))) 10000) /\
    (0 <= n < 1000)%Z /\
    (0 <= order_id < 10000)%Z /\
    random_calls (snd (run P settings stringify (@AddOrder C U D data) w))
    = 2 + random_calls w.
Proof.
  intros Hmock. cbn [run]. unfold addOrder. rewrite (request_mock _ _ _ _ Hmock).
  eexists _, _. split; [reflexivity |]. split; [reflexivity |]. split; [reflexivity |].
  pose proof (floor_times_lt (random_tape P (random_calls w)) 1000 ltac:(lia)).
  pose proof (floor_times_lt (random_tape P (S (random_calls w))) 10000 ltac:(lia)).
  cbn [random_calls delayed].
  split; [lia |]. split; [lia | reflexivity].
Qed.

Lemma mock_addOrder_code_and_id_witness :
  useMock mock_settings = true /\
  exists n order_id,
    fst (run (answering unauthorized) mock_settings sample_stringify sample_addOrder
           (module_load sample_tape))
    = Ok (Created true "Order created successfully (Mock)"
                  ("MOCK-" +:+ toString n) order_id) /\
    n = Z.of_N (floor_times
                  (random_tape (answering unauthorized)
                               (random_calls (module_load sample_tape))) 1000) /\
    order_id = Z.of_N (floor_times
                         (random_tape (answering unauthorized)
                                      (S (random_calls (module_load sample_tape)))) 10000) /\
    (0 <= n < 1000)%Z /\
    (0 <= order_id < 10000)%Z /\
    random_calls (snd (run (answering unauthorized) mock_settings sample_stringify
                           sample_addOrder (module_load sample_tape)))
    = 2 + random_calls (module_load sample_tape).
Proof.
  split; [reflexivity |].
  apply (mock_addOrder_code_and_id (answering unauthorized) mock_settings
           string string string sample_stringify sample_payload (module_load sample_tape)).
  reflexivity.
Defined.

(** The product is rounded before the floor is taken: for the sample
    [54493555491183 / 2^52] the order id is 121, and the floor of the exact
    product would be 120. *)
Example addOrder_rounds_the_product :
  let x := (108987110982366, 0)%N in
  let P := {| fetch := fun _ _ => Ok unauthorized; location_protocol := "https:";
              random_tape := fun _ => x |} in
  fst (run P mock_settings sample_stringify sample_addOrder (module_load sample_tape))
  = Ok (Created true "Order created successfully (Mock)" "MOCK-12" 121) /\
  ((mantissa x * 10000) / 2 ^ 53 = 120)%N.
Proof. split; vm_compute; reflexivity. Qed.

Section CallFrames.

Variable P : Platform.
Context {C U D : Type}.
Variable stringify : forall A : Type, A -> string.

(** The endpoint, the options and the [requireAuth] flag of a call do not
    depend on the settings. *)
Lemma run_is_request_uniform (c : call C U D) :
  exists endpoint options requireAuth,
    headers options = None /\
    forall settings w,
      run P settings stringify c w = request P settings endpoint options requireAuth w.
Proof.
  destruct c; cbn [run];
    [ exists "/app-config", (GET None), false
    | eexists _, (GET None), true
    | eexists "/add-order", (POST _), true
    | eexists "/update-status", (POST _), true
    | eexists "/update-details", (POST _), true ];
    (split; [reflexivity | intros settings w; reflexivity]).
Qed.

Lemma strip_trailing_slash_app (b : string) : strip_trailing_slash (b +:+ "/") = b.
Proof.
  induction b as [|c b IH]; [reflexivity |].
  change (String c b +:+ "/") with (String c (b +:+ "/")).
  cbn [strip_trailing_slash]. rewrite IH. now destruct b.
Qed.

Lemma startsWith_app_other (s t : string) (c : ascii) :
  lacks c t = true -> startsWith (s +:+ String c "") t = startsWith s t.
Proof.
  unfold lacks. revert s; induction t as [|b t IH]; intros s Ht; [reflexivity |].
  cbn [all_chars] in Ht. apply andb_true_iff in Ht as [Hb Ht].
  destruct s as [|a s]; cbn [String.append startsWith].
  - apply negb_true_iff in Hb. rewrite Ascii.eqb_sym in Hb. now rewrite Hb.
  - now rewrite IH.
Qed.

Lemma includes_app_other (s t : string) (c : ascii) :
  lacks c t = true -> includes (s +:+ String c "") t = includes s t.
Proof.
  intros Ht. induction s as [|a s IH].
  - pose proof (startsWith_app_other "" t c Ht) as H. cbn [String.append] in H.
    cbn [String.append includes]. rewrite H. now destruct (startsWith "" t).
  - change (String a s +:+ String c "") with (String a (s +:+ String c "")).
    cbn [includes]. rewrite IH.
    change (String a (s +:+ String c "")) with (String a s +:+ String c "").
    now rewrite startsWith_app_other.
Qed.

Lemma fetch_options_with_baseUrl (settings : ApiSettings) (url : string) options requireAuth :
  fetch_options (with_baseUrl settings url) options requireAuth
  = fetch_options settings options requireAuth.
Proof. reflexivity. Qed.

Lemma orders_params_supplied (page : Z) (search partner status : string) :
  orders_params page search partner status
  = ("page", Number_toString page)
      :: supplied "search" search ++ supplied "delivery_partner" partner
      ++ supplied "status" status.
Proof.
  unfold orders_params, supplied.
  destruct (truthy search), (truthy partner), (truthy status); reflexivity.
Qed.

End CallFrames.

(** X11. Only the mock responder waits and only its [addOrder] draws random
    numbers: outside mock mode a call sets no timer and calls [Math.random]
    not at all, and in any mode a call other than [addOrder] leaves the
    position on the random tape where it was. *)
Theorem only_mock_mode_waits_and_draws
    (P : Platform) (settings : ApiSettings) (C U D : Type)
    (stringify : forall A : Type, A -> string) (c : call C U D) (w : World) :
  (useMock settings = false ->
   timers (snd (run P settings stringify c w)) = timers w /\
   random_calls (snd (run P settings stringify c w)) = random_calls w) /\
  ((forall data, c <> AddOrder data) ->
   random_calls (snd (run P settings stringify c w)) = random_calls w).
Proof.
  assert (Hreal : useMock settings = false ->
                  timers (snd (run P settings stringify c w)) = timers w /\
                  random_calls (snd (run P settings stringify c w)) = random_calls w).
  { intros Hmock.
    destruct (run_is_request P settings stringify c)
      as (endpoint & options & requireAuth & _ & _ & ->).
    destruct (@settings_cases settings)
      as [Hm | [[_ Hurl] | [_ (b & Hbase & Hb & Hph)]]]; [congruence | |].
    - now rewrite (request_unconfigured _ _ _ _ Hmock Hurl).
    - now destruct (request_real (P := P) endpoint options requireAuth w b
                      Hmock Hbase Hb Hph) as (-> & _). }
  split; [exact Hreal |]. intros Hc.
  destruct (useMock settings) eqn:Hmock; [| now apply Hreal].
  destruct c as [|page search partner status|data|data|data]; cbn [run].
  - unfold getConfig. now rewrite (request_mock _ _ _ _ Hmock).
  - now rewrite (getOrders_mock_served P Hmock).
  - now contradiction (Hc data).
  - unfold updateStatus. now rewrite (request_mock _ _ _ _ Hmock).
  - unfold updateDetails. now rewrite (request_mock _ _ _ _ Hmock).
Qed.

(** X12. Outside mock mode, with a usable base URL, every call issues one
    [fetch] to the base URL (one trailing slash removed) followed by the
    endpoint: [getConfig] a GET of [/app-config] without body, [addOrder],
    [updateStatus] and [updateDetails] a POST of [/add-order],
    [/update-status] and [/update-details] with the serialized payload as
    body, and [getOrders] a GET of [/orders?] followed by a query without
    body. *)
Theorem calls_issue_their_request_line
    (P : Platform) (settings : ApiSettings) (C U D : Type)
    (stringify : forall A : Type, A -> string) (c : call C U D) (w : World) (b : string) :
  useMock settings = false ->
  baseUrl settings = Some b ->
  b <> "" ->
  includes b "your-wordpress-site.com" = false ->
  exists fc,
    fetch_log (snd (run P settings stringify c w)) = fc :: fetch_log w /\
    match c with
    | GetConfig =>
        fetch_url fc = strip_trailing_slash b +:+ "/app-config" /\
        method (fetch_init fc) = Some "GET" /\ body (fetch_init fc) = None
    | GetOrders _ _ _ _ =>
        (exists query, fetch_url fc = strip_trailing_slash b +:+ "/orders?" +:+ query) /\
        method (fetch_init fc) = Some "GET" /\ body (fetch_init fc) = None
    | AddOrder data =>
        fetch_url fc = strip_trailing_slash b +:+ "/add-order" /\
        method (fetch_init fc) = Some "POST" /\
        body (fetch_init fc) = Some (stringify C data)
    | UpdateStatus data =>
        fetch_url fc = strip_trailing_slash b +:+ "/update-status" /\
        method (fetch_init fc) = Some "POST" /\
        body (fetch_init fc) = Some (stringify U data)
    | UpdateDetails data =>
        fetch_url fc = strip_trailing_slash b +:+ "/update-details" /\
        method (fetch_init fc) = Some "POST" /\
        body (fetch_init fc) = Some (stringify D data)
    end.
Proof.
  intros Hmock Hbase Hb Hph.
  destruct c as [|page search partner status|data|data|data]; cbn [run];
    unfold getConfig, getOrders, addOrder, updateStatus, updateDetails;
    match goal with
    | |- context [request P settings ?e ?o ?a w] =>
        destruct (request_real (P := P) e o a w b Hmock Hbase Hb Hph) as (-> & _)
    end;
    eexists; (split; [reflexivity |]); cbn [logged fetch_url fetch_init fetch_options
                                            method body GET POST];
    repeat split; try reflexivity.
  now eexists.
Qed.

Lemma calls_issue_their_request_line_witness :
  useMock live_settings = false /\
  baseUrl live_settings = Some "http://shop.example/wp-json/fbbot/v1/" /\
  "http://shop.example/wp-json/fbbot/v1/" <> "" /\
  includes "http://shop.example/wp-json/fbbot/v1/" "your-wordpress-site.com" = false /\
  exists fc,
    fetch_log (snd (run (answering unauthorized) live_settings sample_stringify
                        sample_addOrder (module_load sample_tape)))
    = fc :: fetch_log (module_load sample_tape) /\
    fetch_url fc = strip_trailing_slash "http://shop.example/wp-json/fbbot/v1/"
                   +:+ "/add-order" /\
    method (fetch_init fc) = Some "POST" /\
    body (fetch_init fc) = Some (sample_stringify string sample_payload).
Proof.
  split; [reflexivity |]. split; [reflexivity |]. split; [discriminate |].
  split; [reflexivity |].
  apply (calls_issue_their_request_line (answering unauthorized) live_settings
           string string string sample_stringify sample_addOrder
           (module_load sample_tape) "http://shop.example/wp-json/fbbot/v1/").
  - reflexivity.
  - reflexivity.
  - discriminate.
  - reflexivity.
Defined.

(** X13. Outside mock mode, with a usable base URL, [getOrders] for a page
    number that is a safe integer (at most 2^53 - 1 in absolute value) sends
    a query that the form parser decodes to the parameter [page], the decimal
    text of the page number, followed by [search], [delivery_partner] and
    [status] in this order, each with the text that was passed and each left
    out when that text is empty.  The query is made of ASCII letters and
    digits and of the characters [* - . _ + % = &] only, whatever the texts
    hold. *)
Theorem getOrders_query_round_trip
    (P : Platform) (settings : ApiSettings)
    (page : Z) (search partner status : string) (w : World) (b : string) :
  useMock settings = false ->
  baseUrl settings = Some b ->
  b <> "" ->
  includes b "your-wordpress-site.com" = false ->
  (Z.abs page <= 2 ^ 53 - 1)%Z ->
  exists fc query,
    fetch_log (snd (getOrders P settings page search partner status w))
    = fc :: fetch_log w /\
    fetch_url fc = strip_trailing_slash b +:+ "/orders?" +:+ query /\
    URLSearchParams.parse query
    = ("page", toString page)
        :: supplied "search" search ++ supplied "delivery_partner" partner
        ++ supplied "status" status /\
    URL.searchParams ("/orders?" +:+ query) = URLSearchParams.parse query /\
    parseInt (toString page) = Num page /\
    all_chars query_char query = true.
Proof.
  intros Hmock Hbase Hb Hph Hsafe. unfold getOrders.
  fold (orders_params page search partner status).
  destruct (request_real (P := P)
              ("/orders?" +:+ URLSearchParams.toString (orders_params page search partner status))
              (GET None) true w b Hmock Hbase Hb Hph) as (-> & _).
  eexists _, (URLSearchParams.toString (orders_params page search partner status)).
  split; [reflexivity |]. split; [reflexivity |].
  rewrite searchParams_of_orders_endpoint, parse_toString, orders_params_supplied.
  rewrite Number_toString_plain
    by (change (2 ^ 53 - 1)%Z with 9007199254740991%Z in Hsafe; unfold exponent_bound; lia).
  split; [reflexivity |]. split; [reflexivity |].
  split; [apply parseInt_toString | apply toString_chars].
Qed.

Lemma getOrders_query_round_trip_witness :
  useMock live_settings = false /\
  baseUrl live_settings = Some "http://shop.example/wp-json/fbbot/v1/" /\
  "http://shop.example/wp-json/fbbot/v1/" <> "" /\
  includes "http://shop.example/wp-json/fbbot/v1/" "your-wordpress-site.com" = false /\
  (Z.abs 2 <= 2 ^ 53 - 1)%Z /\
  exists fc query,
    fetch_log (snd (getOrders (answering unauthorized) live_settings 2 "a b&c" "RedX" ""
                      (module_load sample_tape)))
    = fc :: fetch_log (module_load sample_tape) /\
    fetch_url fc = strip_trailing_slash "http://shop.example/wp-json/fbbot/v1/"
                   +:+ "/orders?" +:+ query /\
    URLSearchParams.parse query
    = ("page", toString 2)
        :: supplied "search" "a b&c" ++ supplied "delivery_partner" "RedX"
        ++ supplied "status" "" /\
    URL.searchParams ("/orders?" +:+ query) = URLSearchParams.parse query /\
    parseInt (toString 2) = Num 2 /\
    all_chars query_char query = true.
Proof.
  split; [reflexivity |]. split; [reflexivity |]. split; [discriminate |].
  split; [reflexivity |]. split; [vm_compute; discriminate |].
  apply (getOrders_query_round_trip (answering unauthorized) live_settings
           2 "a b&c" "RedX" "" (module_load sample_tape)
           "http://shop.example/wp-json/fbbot/v1/").
  - reflexivity.
  - reflexivity.
  - discriminate.
  - reflexivity.
  - vm_compute. discriminate.
Defined.

Example getOrders_fetch_url :
  map fetch_url
      (fetch_log (snd (getOrders (answering unauthorized) live_settings 2 "a b&c" "RedX" ""
                         (module_load sample_tape))))
  = ["http://shop.example/wp-json/fbbot/v1/orders?page=2&search=a+b%26c&delivery_partner=RedX"].
Proof. reflexivity. Qed.

(** X14. Every [fetch] that a call issues declares the content type
    [application/json], and carries no header other than [Content-Type] and
    the API-key header. *)
Theorem fetch_headers_are_content_type_and_key
    (P : Platform) (settings : ApiSettings) (C U D : Type)
    (stringify : forall A : Type, A -> string) (c : call C U D) (w : World) :
  exists issued,
    fetch_log (snd (run P settings stringify c w)) = issued ++ fetch_log w /\
    forall fc, In fc issued ->
      exists sent,
        headers (fetch_init fc) = Some sent /\
        sent !! "Content-Type" = Some "application/json" /\
        forall name value, sent !! name = Some value ->
          name = "Content-Type" \/ name = "X-FBBOT-API-KEY".
Proof.
  destruct (run_is_request P settings stringify c)
    as (endpoint & options & requireAuth & Hown & _ & ->).
  destruct (@settings_cases settings)
    as [Hmock | [[Hmock Hurl] | [Hmock (b & Hbase & Hb & Hph)]]].
  - exists []. rewrite (request_mock _ _ _ _ Hmock).
    destruct (mockResponse_frame (P := P) endpoint options (delayed w)) as (_ & -> & _).
    split; [reflexivity | intros fc []].
  - exists []. rewrite (request_unconfigured _ _ _ _ Hmock Hurl).
    split; [reflexivity | intros fc []].
  - destruct (request_real (P := P) endpoint options requireAuth w b Hmock Hbase Hb Hph)
      as (-> & _).
    eexists [_]. split; [reflexivity |].
    intros fc [<- | []]. cbn [fetch_init fetch_options headers]. rewrite Hown.
    eexists. split; [reflexivity |]. unfold getHeaders.
    destruct (apiKey settings) as [key|]; [destruct (requireAuth && truthy key) |].
    + split; [now rewrite lookup_insert_ne, lookup_singleton_eq |].
      intros name value Hname. apply lookup_insert_Some in Hname as [[<- _] | [_ Hname]];
        [now right |].
      apply lookup_singleton_Some in Hname as [<- _]. now left.
    + split; [apply lookup_singleton_eq |].
      intros name value Hname. apply lookup_singleton_Some in Hname as [<- _]. now left.
    + split; [apply lookup_singleton_eq |].
      intros name value Hname. apply lookup_singleton_Some in Hname as [<- _]. now left.
Qed.

(** X15. One slash at the end of the base URL makes no difference: when the
    base URL [b] is not empty and does not end with a slash, a service
    configured with [b/] behaves on every call as the service configured with
    [b], with the same [fetch], the same outcome and the same world after
    it. *)
Theorem trailing_slash_of_base_url_is_ignored
    (P : Platform) (settings : ApiSettings) (C U D : Type)
    (stringify : forall A : Type, A -> string) (c : call C U D) (w : World) (b : string) :
  baseUrl settings = Some b ->
  b <> "" ->
  strip_trailing_slash b = b ->
  run P (with_baseUrl settings (b +:+ "/")) stringify c w = run P settings stringify c w.
Proof.
  intros Hbase Hb Hstrip.
  destruct (run_is_request_uniform P stringify c)
    as (endpoint & options & requireAuth & _ & Hrun).
  rewrite !Hrun. unfold request. cbn [useMock baseUrl with_baseUrl]. rewrite Hbase.
  destruct (useMock settings); [reflexivity |].
  rewrite fetch_options_with_baseUrl, strip_trailing_slash_app, Hstrip.
  unfold placeholder_host.
  rewrite (includes_app_other b "your-wordpress-site.com" "/") by reflexivity.
  apply truthy_true in Hb. rewrite Hb.
  replace (truthy (b +:+ "/")) with true by (now destruct b).
  reflexivity.
Qed.

Lemma trailing_slash_of_base_url_is_ignored_witness :
  baseUrl (with_baseUrl live_settings "http://shop.example/api")
  = Some "http://shop.example/api" /\
  "http://shop.example/api" <> "" /\
  strip_trailing_slash "http://shop.example/api" = "http://shop.example/api" /\
  run (answering unauthorized)
      (with_baseUrl (with_baseUrl live_settings "http://shop.example/api")
                    ("http://shop.example/api" +:+ "/"))
      sample_stringify sample_getOrders (module_load sample_tape)
  = run (answering unauthorized) (with_baseUrl live_settings "http://shop.example/api")
        sample_stringify sample_getOrders (module_load sample_tape).
Proof.
  split; [reflexivity |]. split; [discriminate |]. split; [reflexivity |].
  apply (trailing_slash_of_base_url_is_ignored (answering unauthorized)
           (with_baseUrl live_settings "http://shop.example/api")
           string string string sample_stringify sample_getOrders
           (module_load sample_tape) "http://shop.example/api").
  - reflexivity.
  - discriminate.
  - reflexivity.
Defined.

(** Only one slash is removed: [b//] leaves [b/]. *)
Example two_trailing_slashes :
  map fetch_url
      (fetch_log (snd (run (answering unauthorized)
                           (with_baseUrl live_settings "http://shop.example/api//")
                           sample_stringify sample_getConfig (module_load sample_tape))))
  = ["http://shop.example/api//app-config"].
Proof. reflexivity. Qed.

(** ** The mock responder on its own *)

(** X16. The mock responder serves every endpoint that starts with [/orders]
    as a listing, without changing the world: when the query has no [page]
    parameter, or an empty one, it serves page 1; when the parameter is the
    decimal text of a safe integer (at most 2^53 - 1 in absolute value),
    [current_page] is that integer; and when [parseInt] reads no number in
    the parameter, so that [current_page] is NaN, the page holds no orders.
    A page holds at most 20 orders, all of them mock orders. *)
Theorem mockResponse_page_parameter
    (P : Platform) (endpoint : string) (options : RequestInit) (w : World) :
  startsWith endpoint "/orders" = true ->
  exists r,
    mockResponse P endpoint options w = (Ok (Orders r), w) /\
    (URLSearchParams.get (URL.searchParams endpoint) "page" = None \/
     URLSearchParams.get (URL.searchParams endpoint) "page" = Some "" ->
     current_page (pagination r) = Num 1) /\
    (forall n,
       (Z.abs n <= 2 ^ 53 - 1)%Z ->
       URLSearchParams.get (URL.searchParams endpoint) "page" = Some (toString n) ->
       current_page (pagination r) = Num n) /\
    (current_page (pagination r) = NaN -> orders r = []) /\
    length (orders r) <= 20 /\
    (forall o, In o (orders r) -> In o (MOCK_ORDERS w)).
Proof.
  intros Hstart. unfold mockResponse.
  assert (Hconfig : String.eqb endpoint "/app-config" = false).
  { apply startsWith_spec in Hstart as [post ->]. reflexivity. }
  rewrite Hconfig, Hstart. unfold bind, read_MOCK_ORDERS, ret.
  eexists. split; [reflexivity |].
  cbn [orders pagination current_page].
  split; [| split; [| split; [| split]]].
  - intros [-> | ->]; reflexivity.
  - intros n _ ->. unfold or_else. now rewrite toString_truthy, parseInt_toString.
  - intros ->. cbn [num_sub num_mul num_add]. unfold slice, clamp_index. cbn [to_integer].
    change (0 <? 0)%Z with false. cbv iota.
    now replace (Z.to_nat (Z.min 0 _ - Z.min 0 _)) with 0 by lia.
  - match goal with
    | |- length (slice ?l (num_mul (num_sub ?p 1) 20) _) <= 20 =>
        apply (slice_length l (num_mul (num_sub p 1) 20))
    end.
  - intros o Ho. apply In_slice in Ho. unfold filter_if in Ho.
    repeat match type of Ho with
           | In _ (if ?c then _ else _) => destruct c
           | In _ (List.filter _ _) => apply filter_In in Ho as [Ho _]
           end; exact Ho.
Qed.

Lemma mockResponse_page_parameter_witness :
  startsWith "/orders?status=Picked&page=2" "/orders" = true /\
  exists r,
    mockResponse (answering unauthorized) "/orders?status=Picked&page=2" (GET None)
                 (module_load sample_tape)
    = (Ok (Orders r), module_load sample_tape) /\
    (URLSearchParams.get (URL.searchParams "/orders?status=Picked&page=2") "page" = None \/
     URLSearchParams.get (URL.searchParams "/orders?status=Picked&page=2") "page" = Some "" ->
     current_page (pagination r) = Num 1) /\
    (forall n,
       (Z.abs n <= 2 ^ 53 - 1)%Z ->
       URLSearchParams.get (URL.searchParams "/orders?status=Picked&page=2") "page"
       = Some (toString n) ->
       current_page (pagination r) = Num n) /\
    (current_page (pagination r) = NaN -> orders r = []) /\
    length (orders r) <= 20 /\
    (forall o, In o (orders r) -> In o (MOCK_ORDERS (module_load sample_tape))).
Proof.
  split; [reflexivity |].
  apply (mockResponse_page_parameter (answering unauthorized)
           "/orders?status=Picked&page=2" (GET None) (module_load sample_tape)).
  reflexivity.
Defined.

Example mockResponse_with_page_2 :
  URLSearchParams.get (URL.searchParams "/orders?status=Picked&page=2") "page"
  = Some (toString 2) /\
  page_summary (mockResponse (answering unauthorized) "/orders?status=Picked&page=2"
                  (GET None) (module_load sample_tape))
  = Some ([], {| current_page := Num 2; total_pages := 1; total_items := 10 |}).
Proof. split; vm_compute; reflexivity. Qed.

Example mockResponse_without_page :
  page_summary (mockResponse (answering unauthorized) "/orders?status=Picked" (GET None)
                  (module_load sample_tape))
  = Some ([1; 6; 8; 15; 22; 24; 29; 31; 38; 45]%Z,
          {| current_page := Num 1; total_pages := 1; total_items := 10 |}).
Proof. vm_compute. reflexivity. Qed.

Example mockResponse_with_a_page_that_is_no_number :
  page_summary (mockResponse (answering unauthorized) "/orders?page=two" (GET None)
                  (module_load sample_tape))
  = Some ([], {| current_page := NaN; total_pages := 3; total_items := 45 |}).
Proof. vm_compute. reflexivity. Qed.

(** ** Searching by a full tracking code or phone *)

Section Identify.

Lemma filter_none {A} (p : A -> bool) (l : list A) :
  (forall j y, nth_error l j = Some y -> p y = false) -> List.filter p l = [].
Proof.
  induction l as [|a l IH]; intros H; cbn [List.filter]; [reflexivity |].
  rewrite (H 0 a eq_refl). apply IH. intros j y Hy. exact (H (S j) y Hy).
Qed.

Lemma filter_only {A} (p : A -> bool) (l : list A) (i : nat) (x : A) :
  nth_error l i = Some x ->
  (forall j y, nth_error l j = Some y -> p y = (j =? i)) ->
  List.filter p l = [x].
Proof.
  revert i; induction l as [|a l IH]; intros i Hx H; [now destruct i |].
  cbn [List.filter]. destruct i as [|i].
  - injection Hx as ->. rewrite (H 0 x eq_refl). cbn [Nat.eqb]. f_equal.
    apply filter_none. intros j y Hy. exact (H (S j) y Hy).
  - rewrite (H 0 a eq_refl). cbn [Nat.eqb]. apply (IH i Hx).
    intros j y Hy. exact (H (S j) y Hy).
Qed.

Lemma identifies_one_45 : identifies_one 45 = true.
Proof. vm_compute. reflexivity. Qed.

Lemma identifies_one_spec (i j : nat) :
  i < 45 -> j < 45 ->
  search_filter (toLowerCase (tracking_code (search_template i))) (search_template j)
  = (j =? i) /\
  search_filter (toLowerCase (phone (search_template i))) (search_template j)
  = (j =? i).
Proof.
  intros Hi Hj. pose proof identifies_one_45 as H. unfold identifies_one in H.
  rewrite forallb_forall in H. specialize (H i ltac:(apply in_seq; lia)).
  rewrite forallb_forall in H. specialize (H j ltac:(apply in_seq; lia)).
  apply andb_true_iff in H as [H1 H2]. now apply Bool.eqb_prop in H1, H2.
Qed.

(** The generated order at index [j] is searched as its template is. *)
Lemma mock_order_searched (w : World) (j : nat) (y : Order) (s : string) :
  mock_data w -> nth_error (MOCK_ORDERS w) j = Some y ->
  j < 45 /\ id y = Z.of_nat (j + 1) /\ search_filter s y = search_filter s (search_template j).
Proof.
  intros [tape Hw] Hy. rewrite Hw, MOCK_ORDERS_module_load in Hy.
  assert (Hj : j < 45).
  { rewrite <- (Array_from_length mockOrder 45 0 tape 0).
    apply nth_error_Some. unfold generateMockOrders in Hy. congruence. }
  split; [exact Hj |].
  destruct (Array_from_nth mockOrder 45 0 tape 0 j Hj) as [kj Hkj].
  unfold generateMockOrders in Hy. rewrite Hkj in Hy. injection Hy as <-.
  split; reflexivity.
Qed.

End Identify.

(** X17. In mock mode, over the generated orders, the full tracking code or
    the full phone of an order identifies it: a search by either, in any
    letter case, resolves to one item on one page, the order itself. *)
Theorem full_code_or_phone_finds_one_order
    (P : Platform) (settings : ApiSettings) (w : World) (i : nat) (search : string) :
  useMock settings = true ->
  mock_data w ->
  i < 45 ->
  toLowerCase search = toLowerCase ("ST-" +:+ toString (8000 + Z.of_nat i)) \/
  toLowerCase search = toLowerCase ("017" +:+ padStart0 (toString (Z.of_nat i)) 8) ->
  exists r o,
    fst (getOrders P settings 1 search "" "" w) = Ok (Orders r) /\
    orders r = [o] /\
    nth_error (MOCK_ORDERS w) i = Some o /\
    id o = (Z.of_nat i + 1)%Z /\
    total_items (pagination r) = 1%Z /\
    total_pages (pagination r) = 1%Z.
Proof.
  intros Hmock Hdata Hi Hsearch.
  assert (Hlen : length (MOCK_ORDERS w) = 45) by now apply mock_data_length.
  destruct (nth_error (MOCK_ORDERS w) i) as [o|] eqn:Ho;
    [| apply nth_error_None in Ho; lia].
  assert (Htruthy : truthy search = true).
  { rewrite <- toLowerCase_truthy. now destruct Hsearch as [-> | ->]. }
  assert (Hset : filtered_set search "" "" w = [o]).
  { unfold filtered_set. apply (filter_only _ _ i o Ho). intros j y Hy.
    destruct (mock_order_searched w j y (toLowerCase search) Hdata Hy) as (Hj & _ & Hy').
    unfold passes. rewrite Htruthy, Hy'. cbn [negb orb truthy andb]. rewrite !andb_true_r.
    destruct (identifies_one_spec i j Hi Hj) as [Hcode Hphone].
    destruct Hsearch as [-> | ->]; assumption. }
  destruct (getOrders_response P Hmock 1 search "" "" w ltac:(reflexivity))
    as (r & Hr & Horders & _ & Hpages & Hitems).
  rewrite Hset in *. exists r, o. split; [exact Hr |]. split; [exact Horders |].
  split; [reflexivity |].
  destruct (mock_order_searched w i o "" Hdata Ho) as (_ & Hid & _).
  split; [rewrite Hid; lia |]. split; [exact Hitems | exact Hpages].
Qed.

Lemma full_code_or_phone_finds_one_order_witness :
  useMock mock_settings = true /\
  mock_data (module_load sample_tape) /\
  7 < 45 /\
  (toLowerCase "st-8007" = toLowerCase ("ST-" +:+ toString (8000 + Z.of_nat 7)) \/
   toLowerCase "st-8007" = toLowerCase ("017" +:+ padStart0 (toString (Z.of_nat 7)) 8)) /\
  exists r o,
    fst (getOrders (answering unauthorized) mock_settings 1 "st-8007" "" ""
           (module_load sample_tape)) = Ok (Orders r) /\
    orders r = [o] /\
    nth_error (MOCK_ORDERS (module_load sample_tape)) 7 = Some o /\
    id o = (Z.of_nat 7 + 1)%Z /\
    total_items (pagination r) = 1%Z /\
    total_pages (pagination r) = 1%Z.
Proof.
  split; [reflexivity |]. split; [exists sample_tape; reflexivity |]. split; [lia |].
  split; [left; reflexivity |].
  apply (full_code_or_phone_finds_one_order (answering unauthorized) mock_settings
           (module_load sample_tape) 7 "st-8007").
  - reflexivity.
  - exists sample_tape. reflexivity.
  - lia.
  - left. reflexivity.
Defined.

(** ** Histories, outcomes and settings *)

(** X18. The mock listing never changes over the life of the module: after
    any history of calls, made in any mode with any settings, the mock order
    list is the one before the history, and [getOrders] in mock mode resolves
    to what it resolved to before. *)
Theorem mock_listing_is_independent_of_history
    (P : Platform) (settings : ApiSettings) (C U D : Type)
    (stringify : forall A : Type, A -> string)
    (history : list (ApiSettings * call C U D)) (w : World)
    (page : Z) (search partner status : string) :
  useMock settings = true ->
  MOCK_ORDERS (run_all P stringify history w) = MOCK_ORDERS w /\
  fst (getOrders P settings page search partner status (run_all P stringify history w))
  = fst (getOrders P settings page search partner status w) /\
  (mock_data w -> mock_data (run_all P stringify history w)).
Proof.
  intros Hmock.
  assert (Hkeep : MOCK_ORDERS (run_all P stringify history w) = MOCK_ORDERS w).
  { revert w; induction history as [|[s c] rest IH]; intros w; cbn [run_all];
      [reflexivity |].
    rewrite IH. apply run_keeps_orders. }
  split; [exact Hkeep |]. split.
  - now apply getOrders_same_orders.
  - unfold mock_data. now rewrite Hkeep.
Qed.

Lemma mock_listing_is_independent_of_history_witness :
  useMock mock_settings = true /\
  MOCK_ORDERS (run_all (answering unauthorized) sample_stringify sample_history
                 (module_load sample_tape))
  = MOCK_ORDERS (module_load sample_tape) /\
  fst (getOrders (answering unauthorized) mock_settings 2 "" "Pathao" ""
         (run_all (answering unauthorized) sample_stringify sample_history
            (module_load sample_tape)))
  = fst (getOrders (answering unauthorized) mock_settings 2 "" "Pathao" ""
           (module_load sample_tape)) /\
  (mock_data (module_load sample_tape) ->
   mock_data (run_all (answering unauthorized) sample_stringify sample_history
                (module_load sample_tape))).
Proof.
  split; [reflexivity |].
  apply (mock_listing_is_independent_of_history (answering unauthorized) mock_settings
           string string string sample_stringify sample_history
           (module_load sample_tape) 2 "" "Pathao" "").
  reflexivity.
Defined.

(** X19. Outside mock mode no failure is swallowed: a call resolves only when
    it issued a [fetch], the [fetch] returned a response with a status in
    200..299, and the body of the response decoded; it then resolves to the
    decoded body. *)
Theorem call_resolves_only_on_success
    (P : Platform) (settings : ApiSettings) (C U D : Type)
    (stringify : forall A : Type, A -> string) (c : call C U D) (w : World) (v : value) :
  useMock settings = false ->
  fst (run P settings stringify c w) = Ok v ->
  exists fc response,
    fetch_log (snd (run P settings stringify c w)) = fc :: fetch_log w /\
    fetch P (fetch_url fc) (fetch_init fc) = Ok response /\
    (200 <= status response <= 299)%Z /\
    json response = Ok v.
Proof.
  intros Hmock.
  destruct (run_is_request P settings stringify c)
    as (endpoint & options & requireAuth & _ & _ & ->).
  destruct (@settings_cases settings)
    as [Hm | [[_ Hurl] | [_ (b & Hbase & Hb & Hph)]]]; [congruence | |].
  - rewrite (request_unconfigured _ _ _ _ Hmock Hurl). discriminate.
  - destruct (request_real (P := P) endpoint options requireAuth w b Hmock Hbase Hb Hph)
      as (Hworld & Hok & Hthrow).
    rewrite Hworld. cbn [logged fetch_log].
    destruct (fetch P (strip_trailing_slash b +:+ endpoint)
                (fetch_options settings options requireAuth)) as [response | e] eqn:Hfetch.
    + rewrite (Hok response eq_refl). intros Hv.
      eexists _, response. split; [reflexivity |]. cbn [fetch_url fetch_init].
      split; [exact Hfetch |]. unfold ok in Hv.
      destruct ((200 <=? status response) && (status response <=? 299))%Z eqn:Hrange.
      * split; [lia | exact Hv].
      * destruct (status response =? 401)%Z; [discriminate |].
        destruct (status response =? 404)%Z; discriminate.
    + rewrite (Hthrow e eq_refl).
      destruct (String.eqb (name e) "TypeError" && String.eqb (message e) "Failed to fetch");
        [| discriminate].
      destruct (String.eqb (location_protocol P) "https:" && startsWith _ "http:");
        discriminate.
Qed.

Lemma call_resolves_only_on_success_witness :
  useMock live_settings = false /\
  fst (run (answering created) live_settings sample_stringify sample_addOrder
         (module_load sample_tape))
  = Ok (Created true "Order created" "ST-9001" 9001) /\
  exists fc response,
    fetch_log (snd (run (answering created) live_settings sample_stringify sample_addOrder
                        (module_load sample_tape)))
    = fc :: fetch_log (module_load sample_tape) /\
    fetch (answering created) (fetch_url fc) (fetch_init fc) = Ok response /\
    (200 <= status response <= 299)%Z /\
    json response = Ok (Created true "Order created" "ST-9001" 9001).
Proof.
  split; [reflexivity |]. split; [reflexivity |].
  apply (call_resolves_only_on_success (answering created) live_settings
           string string string sample_stringify sample_addOrder
           (module_load sample_tape) (Created true "Order created" "ST-9001" 9001)).
  - reflexivity.
  - reflexivity.
Defined.

(** X20. The API key goes nowhere but into its header: a service with another
    key, or none, issues the same fetches as to URL, method and body, on every
    call and in every mode.  In mock mode neither the key nor the base URL is
    used at all: two services in mock mode behave alike on every call. *)
Theorem api_key_and_base_url_reach
    (P : Platform) (settings : ApiSettings) (C U D : Type)
    (stringify : forall A : Type, A -> string) (c : call C U D) (w : World) :
  (forall key,
     map request_line (fetch_log (snd (run P (with_apiKey settings key) stringify c w)))
     = map request_line (fetch_log (snd (run P settings stringify c w)))) /\
  (forall settings',
     useMock settings = true -> useMock settings' = true ->
     run P settings' stringify c w = run P settings stringify c w).
Proof.
  destruct (run_is_request_uniform P stringify c)
    as (endpoint & options & requireAuth & _ & Hrun).
  split.
  - intros key. rewrite !Hrun.
    destruct (@settings_cases settings)
      as [Hmock | [[Hmock Hurl] | [Hmock (b & Hbase & Hb & Hph)]]].
    + rewrite !request_mock by assumption. reflexivity.
    + rewrite !request_unconfigured by assumption. reflexivity.
    + destruct (request_real (P := P) endpoint options requireAuth w b Hmock Hbase Hb Hph)
        as (-> & _).
      destruct (request_real (P := P) (settings := with_apiKey settings key)
                  endpoint options requireAuth w b Hmock Hbase Hb Hph) as (-> & _).
      reflexivity.
  - intros settings' Hmock Hmock'. rewrite !Hrun.
    now rewrite !request_mock by assumption.
Qed.
